(** * CryptoDashboard: the data-acquisition and caching layer

    A shallow embedding of [crypto_api.py] (the CoinGecko client with its rate
    limiter and retrying transport), [database.py] (the cache store) and the
    loader functions of [app.py], followed by the properties of the
    specification that concern them.

    Conventions of the embedding.
    - Time is counted in whole microseconds, as an integer: [time.time()],
      [datetime.now()] and [datetime.utcnow()] read one virtual clock, and
      [time.sleep d] advances it by exactly [d].  A naive [datetime] is the
      number of microseconds between 1970-01-01 00:00:00 and its wall-clock
      reading.
    - A Python [float] is a binary64 primitive float.  JSON numbers are
      floats; integer literals of a JSON body are the floats of the same
      value.
    - A Python [dict] is an association list in insertion order with unique
      keys: keyed by strings where the code writes the keys itself or reads
      them from the selection, keyed by values where the keys are what the
      upstream sent.
    - The local time zone is [utc_offset] microseconds ahead of UTC, the
      whole year round.
    - An exception is a value of type [exn]; code that can raise returns a
      [result]. *)

From Stdlib Require Import ZArith List String Ascii Bool Lia.
From Stdlib Require Import Floats.
From Stdlib Require Uint63 DecimalString.
Import ListNotations.

Set Warnings "-register-all,-inexact-float".
Local Open Scope string_scope.
Local Open Scope list_scope.
Local Open Scope Z_scope.

(** ** Python values, dictionaries and exceptions *)

Module Py.

(** What made a [requests.exceptions.RequestException]. *)
Inductive cause : Type :=
| HTTPError (status : Z)            (* raise_for_status() on a 4xx or 5xx *)
| ConnectionFailure (msg : string)  (* ConnectionError, Timeout, ... from session.get *)
| JSONDecodeError.                  (* response.json() on a body that is not JSON *)

Inductive exn : Type :=
| RequestException (c : cause)
| KeyError (key : string)
| IndexError
| TypeError
| AttributeError
| ValueError (msg : string)
| ZeroDivisionError
| OverflowError
| OSError
| IntegrityError
    (* Exception(f"Request failed after {max_retries} attempts: {str(e)}") *)
| RequestFailed (max_retries : nat) (c : cause)
    (* Exception("Max retries exceeded") *)
| MaxRetriesExceeded
    (* Exception(f"{context}: {str(e)}") *)
| Failed (context : string) (inner : exn).

Inductive result (A : Type) : Type :=
| Ret (a : A)
| Raise (e : exn).
Arguments Ret {A} a.
Arguments Raise {A} e.

Definition rbind {A B} (r : result A) (k : A -> result B) : result B :=
  match r with
  | Ret a => k a
  | Raise e => Raise e
  end.

(** [for x in xs: ys.append(f(x))], stopping at the first exception. *)
Fixpoint rmap {A B} (f : A -> result B) (xs : list A) : result (list B) :=
  match xs with
  | [] => Ret []
  | x :: xs' =>
      rbind (f x) (fun y => rbind (rmap f xs') (fun ys => Ret (y :: ys)))
  end.

(** Values of a parsed JSON body and of the dictionaries built from them.
    [PStamp t] is the float that [datetime.timestamp()] returns for the naive
    datetime [t]; it is kept as the datetime it encodes, because its only
    consumer is [datetime.fromtimestamp], which gives [t] back. *)
Inductive pyval : Type :=
| PNone
| PBool (b : bool)
| PNum (x : float)
| PStr (s : string)
| PList (l : list pyval)
| PDict (kv : list (string * pyval))
| PStamp (t : Z).

Definition dict (V : Type) : Type := list (string * V).

Fixpoint dict_get {V} (d : dict V) (k : string) : option V :=
  match d with
  | [] => None
  | (k', v) :: d' => if String.eqb k k' then Some v else dict_get d' k
  end.

Definition dict_mem {V} (d : dict V) (k : string) : bool :=
  match dict_get d k with Some _ => true | None => false end.

(** [d[k] = v]: an existing key keeps its place, a new key goes last. *)
Fixpoint dict_set {V} (d : dict V) (k : string) (v : V) : dict V :=
  match d with
  | [] => [(k, v)]
  | (k', v') :: d' =>
      if String.eqb k k' then (k', v) :: d' else (k', v') :: dict_set d' k v
  end.

Definition is_substring (s t : string) : bool :=
  match String.index 0 s t with Some _ => true | None => false end.

Definition is_str (k : string) (v : pyval) : bool :=
  match v with PStr s => String.eqb k s | _ => false end.

(** [k in v] for a string [k]. *)
Definition contains (v : pyval) (k : string) : result bool :=
  match v with
  | PDict kv => Ret (dict_mem kv k)
  | PList l => Ret (existsb (is_str k) l)
  | PStr s => Ret (is_substring k s)
  | _ => Raise TypeError
  end.

(** [v[k]] for a string [k]. *)
Definition getitem (v : pyval) (k : string) : result pyval :=
  match v with
  | PDict kv =>
      match dict_get kv k with Some x => Ret x | None => Raise (KeyError k) end
  | _ => Raise TypeError
  end.

(** [v.get(k, default)] for a string [k]. *)
Definition get (v : pyval) (k : string) (default : pyval) : result pyval :=
  match v with
  | PDict kv =>
      Ret (match dict_get kv k with Some x => x | None => default end)
  | _ => Raise AttributeError
  end.

Fixpoint chars (s : string) : list pyval :=
  match s with
  | EmptyString => []
  | String c s' => PStr (String c EmptyString) :: chars s'
  end.

(** The items that [for item in v] goes through. *)
Definition iter (v : pyval) : result (list pyval) :=
  match v with
  | PList l => Ret l
  | PDict kv => Ret (map (fun p => PStr (fst p)) kv)
  | PStr s => Ret (chars s)
  | _ => Raise TypeError
  end.

(** [v[n]] for a natural number [n]; the keys of a dictionary of a JSON
    body are strings, so that a dictionary has no key [n]. *)
Definition index (v : pyval) (n : nat) : result pyval :=
  match v with
  | PList l =>
      match nth_error l n with Some x => Ret x | None => Raise IndexError end
  | PStr s =>
      match nth_error (chars s) n with Some x => Ret x | None => Raise IndexError end
  | PDict _ => Raise (KeyError "")
  | _ => Raise TypeError
  end.

(** The number a value stands for in arithmetic ([bool] is a subclass of
    [int]). *)
Definition as_number (v : pyval) : option float :=
  match v with
  | PNum x => Some x
  | PBool true => Some 1%float
  | PBool false => Some 0%float
  | _ => None
  end.

(** [v > 0]. *)
Definition gt0 (v : pyval) : result bool :=
  match as_number v with
  | Some x => Ret (PrimFloat.ltb 0 x)
  | None => Raise TypeError
  end.

(** [a / b]. *)
Definition truediv (a b : pyval) : result pyval :=
  match as_number a, as_number b with
  | Some x, Some y =>
      if PrimFloat.eqb y 0 then Raise ZeroDivisionError
      else Ret (PNum (x / y)%float)
  | _, _ => Raise TypeError
  end.

(** [a - b]. *)
Definition sub (a b : pyval) : result pyval :=
  match as_number a, as_number b with
  | Some x, Some y => Ret (PNum (x - y)%float)
  | _, _ => Raise TypeError
  end.

(** [bool(d)] of a dictionary: false exactly when it is empty. *)
Definition truthy {A} (d : list A) : bool :=
  match d with [] => false | _ => true end.

(** [hash(v)] succeeds: lists and dictionaries are unhashable. *)
Definition hashable (v : pyval) : bool :=
  match v with
  | PList _ | PDict _ => false
  | _ => true
  end.

(** [a == b] for two hashable values, as a dictionary compares its keys: a
    string equals the same string, a number the numbers of the same value
    ([True] is 1 and [False] is 0), a NaN equals nothing, and a stamp of the
    store equals the same stamp. *)
Definition key_eqb (a b : pyval) : bool :=
  match a, b with
  | PStr s, PStr t => String.eqb s t
  | PNone, PNone => true
  | PStamp s, PStamp t => s =? t
  | _, _ =>
      match as_number a, as_number b with
      | Some x, Some y => PrimFloat.eqb x y
      | _, _ => false
      end
  end.

(** A dictionary keyed by values. *)
Definition vdict : Type := list (pyval * pyval).

(** [d[k] = v] for a hashable [k]: an existing key keeps its place and its
    own spelling, a new key goes last. *)
Fixpoint vdict_set (d : vdict) (k v : pyval) : vdict :=
  match d with
  | [] => [(k, v)]
  | (k', v') :: d' =>
      if key_eqb k k' then (k', v) :: d' else (k', v') :: vdict_set d' k v
  end.

(** A dictionary keyed by strings, seen as a dictionary keyed by values. *)
Definition keyed (d : dict pyval) : vdict :=
  map (fun item => (PStr (fst item), snd item)) d.

(** The dictionary keyed by strings that a dictionary keyed by values is,
    when all its keys are strings. *)
Fixpoint string_keyed (d : vdict) : option (dict pyval) :=
  match d with
  | [] => Some []
  | (PStr s, v) :: d' =>
      match string_keyed d' with
      | Some r => Some ((s, v) :: r)
      | None => None
      end
  | _ => None
  end.

End Py.
Import Py.

(** ** The calendar of naive datetimes *)

Module Datetime.

Definition second : Z := 1000000.
Definition minute : Z := 60 * second.
Definition hour : Z := 60 * minute.
Definition day : Z := 24 * hour.

Definition seconds (n : Z) : Z := n * second.

(** [timedelta(minutes=n)], [timedelta(hours=n)], [timedelta(days=n)]. *)
Definition timedelta_minutes (n : Z) : Z := n * minute.
Definition timedelta_hours (n : Z) : Z := n * hour.
Definition timedelta_days (n : Z) : Z := n * day.

Definition is_leap (y : Z) : bool :=
  (y mod 4 =? 0) && (negb (y mod 100 =? 0) || (y mod 400 =? 0)).

Definition days_in_month (y m : Z) : Z :=
  if m =? 2 then (if is_leap y then 29 else 28)
  else if (m =? 4) || (m =? 6) || (m =? 9) || (m =? 11) then 30
  else 31.

(** Day number (0 is 1970-01-01) of the civil date [y]-[m]-[d] in the
    proleptic Gregorian calendar. *)
Definition days_from_civil (y m d : Z) : Z :=
  let y' := if m <=? 2 then y - 1 else y in
  let era := y' / 400 in
  let yoe := y' - era * 400 in
  let mp := (m + 9) mod 12 in
  let doy := (153 * mp + 2) / 5 + d - 1 in
  let doe := yoe * 365 + yoe / 4 - yoe / 100 + doy in
  era * 146097 + doe - 719468.

(** The civil date (year, month, day of month) of a day number. *)
Definition civil_from_days (z : Z) : Z * Z * Z :=
  let z' := z + 719468 in
  let era := z' / 146097 in
  let doe := z' - era * 146097 in
  let yoe := (doe - doe / 1460 + doe / 36524 - doe / 146096) / 365 in
  let doy := doe - (365 * yoe + yoe / 4 - yoe / 100) in
  let mp := (5 * doy + 2) / 153 in
  let d := doy - (153 * mp + 2) / 5 + 1 in
  let m := if mp <? 10 then mp + 3 else mp - 9 in
  let y := yoe + era * 400 + (if m <=? 2 then 1 else 0) in
  (y, m, d).

Definition date_of (t : Z) : Z * Z * Z := civil_from_days (t / day).
Definition time_of_day (t : Z) : Z := t mod day.

(** [t.day]. *)
Definition day_of_month (t : Z) : Z :=
  let '(_, _, d) := date_of t in d.

(** [datetime(y, m, d, H, M, S)]. *)
Definition make (y m d H M S : Z) : Z :=
  days_from_civil y m d * day + H * hour + M * minute + S * second.

(** The range of a C [int]. *)
Definition c_int_min : Z := - 2 ^ 31.
Definition c_int_max : Z := 2 ^ 31 - 1.

Definition fits_c_int (n : Z) : bool := (c_int_min <=? n) && (n <=? c_int_max).

(** [t.replace(day=d)]: the same month and time of day on day [d]; an
    [OverflowError] when [d] does not fit the C [int] that the argument is
    converted to, a [ValueError] when the month has no such day. *)
Definition replace_day (t d : Z) : result Z :=
  if negb (fits_c_int d) then Raise OverflowError
  else
    let '(y, m, _) := date_of t in
    if (1 <=? d) && (d <=? days_in_month y m)
    then Ret (days_from_civil y m d * day + time_of_day t)
    else Raise (ValueError "day is out of range for month").

(** [num / den] rounded to the nearest integer, a tie to the even one. *)
Definition round_half_even (num den : Z) : Z :=
  let q := num / den in
  let r := num mod den in
  if 2 * r <? den then q
  else if den <? 2 * r then q + 1
  else if Z.even q then q else q + 1.

(** A finite float as [m * 2 ^ e]. *)
Definition float_parts (x : float) : option (Z * Z) :=
  match Prim2SF x with
  | S754_zero _ => Some (0, 0)
  | S754_finite s m e => Some (if s then - Z.pos m else Z.pos m, e)
  | _ => None
  end.

(** The float of an integer of magnitude below [2 ^ 63]. *)
Definition float_of_Z (n : Z) : float :=
  let x := PrimFloat.of_uint63 (Uint63.of_Z (Z.abs n)) in
  if n <? 0 then (- x)%float else x.

(** The whole seconds and the microseconds that the conversion of a float
    timestamp gives: the fraction that [modf] splits off is multiplied by
    a million in floating point, rounded half to even, and a rounded
    fraction outside [0, 10^6) is carried into the seconds. *)
Definition timeval_of_float (x : float) : option (Z * Z) :=
  match float_parts x with
  | None => None
  | Some (m, e) =>
      if 0 <=? e then Some (m * 2 ^ e, 0)
      else
        let intpart := Z.quot m (2 ^ (- e)) in
        let floatpart := (x - float_of_Z intpart)%float in
        match float_parts (floatpart * 1000000)%float with
        | None => None
        | Some (m', e') =>
            let us := if 0 <=? e' then m' * 2 ^ e'
                      else round_half_even m' (2 ^ (- e')) in
            if second <=? us then Some (intpart + 1, us - second)
            else if us <? 0 then Some (intpart - 1, us + second)
            else Some (intpart, us)
        end
  end.

(** The naive datetimes Python can represent: years 1 to 9999. *)
Definition min_datetime : Z := make 1 1 1 0 0 0.
Definition max_datetime : Z := make 10000 1 1 0 0 0 - 1.

(** The year of a naive datetime. *)
Definition year_of (t : Z) : Z :=
  let '(y, _, _) := date_of t in y.

Definition decimal (n : Z) : string := DecimalString.NilZero.string_of_int (Z.to_int n).

(** [datetime.fromtimestamp(v)] in a time zone [utc_offset] ahead of UTC:
    an [OverflowError] when the seconds are beyond the range of [time_t]
    as a float, an [OSError]
    when the year does not fit the [int] of a [struct tm], and a
    [ValueError] for a year outside 1 to 9999, be it the year of the result
    or the year of the day before, which is looked at to tell a repeated
    hour. *)
Definition fromtimestamp (utc_offset : Z) (v : pyval) : result Z :=
  match v with
  | PStamp t => Ret t
  | _ =>
      match as_number v with
      | None => Raise TypeError
      | Some x =>
          if PrimFloat.is_nan x
          then Raise (ValueError "Invalid value NaN (not a number)")
          else match timeval_of_float x with
               | None => Raise OverflowError
               | Some (sec, us) =>
                   if negb ((- 2 ^ 63 <=? sec) && (sec <=? 2 ^ 63))
                   then Raise OverflowError
                   else
                     let t := sec * second + us + utc_offset in
                     let y := year_of t in
                     let probe := year_of (t - day) in
                     if negb (fits_c_int (y - 1900)) then Raise OSError
                     else if negb ((1 <=? y) && (y <=? 9999))
                     then Raise (ValueError ("year " ++ decimal y
                                             ++ " is out of range"))
                     else if probe <? 1
                     then Raise (ValueError ("year " ++ decimal probe
                                             ++ " is out of range"))
                     else Ret t
               end
      end
  end.

End Datetime.

(** ** The world of the client: clock, upstream and trace *)

Module World.

(** The three places of [crypto_api.py] that call [time.sleep]. *)
Inductive sleep_site : Type :=
| Limiter       (* _rate_limit_delay *)
| RateLimited   (* after a 429, in _make_request_with_retry *)
| Backoff.      (* after a RequestException, in _make_request_with_retry *)

(** The values of a query string. *)
Inductive param : Type :=
| QStr (s : string)
| QInt (n : Z)
| QBool (b : bool).

Record request : Type := mkRequest {
  url : string;
  params : dict param;
  timeout : Z
}.

(** What comes back from the upstream: a response with its status code and
    its body ([None] when the body is not JSON), or no response at all. *)
Inductive outcome : Type :=
| Response (status : Z) (body : option pyval)
| NoResponse (msg : string).

Record reply : Type := mkReply {
  latency : N;         (* microseconds that session.get takes *)
  answer : outcome
}.

(** The upstream answers the [n]-th request of the run (counted from 0). *)
Definition upstream : Type := nat -> request -> reply.

Inductive event : Type :=
| EvSleep (site : sleep_site) (duration : Z)
| EvGet (sent_at : Z) (r : request)
    (* st.warning(f"{context}: {str(e)}") *)
| EvWarning (context : string) (e : exn)
    (* st.error(f"{context}: {str(e)}") *)
| EvError (context : string) (e : exn).

Record world : Type := mkWorld {
  clock : Z;                 (* time.time() *)
  last_request_time : Z;     (* self.last_request_time *)
  sent : nat;                (* requests issued so far *)
  trace : list event         (* oldest first *)
}.

Definition M (A : Type) : Type := world -> result A * world.

Definition ret {A} (a : A) : M A := fun w => (Ret a, w).
Definition raise {A} (e : exn) : M A := fun w => (Raise e, w).
Definition bind {A B} (m : M A) (k : A -> M B) : M B :=
  fun w => match m w with
           | (Ret a, w') => k a w'
           | (Raise e, w') => (Raise e, w')
           end.
(** [try: m  except Exception as e: h e]. *)
Definition try_except {A} (m : M A) (h : exn -> M A) : M A :=
  fun w => match m w with
           | (Ret a, w') => (Ret a, w')
           | (Raise e, w') => h e w'
           end.
Definition lift {A} (r : result A) : M A := fun w => (r, w).

Definition log (e : event) : M unit :=
  fun w => (Ret tt, mkWorld (clock w) (last_request_time w) (sent w)
                            (trace w ++ [e])).

(** [time.time()]. *)
Definition time_time : M Z := fun w => (Ret (clock w), w).

(** [time.sleep(d)] called from [site]. *)
Definition time_sleep (site : sleep_site) (d : Z) : M unit :=
  fun w => (Ret tt, mkWorld (clock w + d) (last_request_time w) (sent w)
                            (trace w ++ [EvSleep site d])).

Definition get_last_request_time : M Z :=
  fun w => (Ret (last_request_time w), w).

(** [self.last_request_time = t]. *)
Definition set_last_request_time (t : Z) : M unit :=
  fun w => (Ret tt, mkWorld (clock w) t (sent w) (trace w)).

End World.
Import World.

Declare Scope py_scope.
Delimit Scope py_scope with py.
Notation "x <- m ;; k" := (bind m (fun x => k))
  (at level 61, m at next level, right associativity) : py_scope.
Notation "m ;; k" := (bind m (fun _ => k))
  (at level 61, right associativity) : py_scope.
Declare Scope res_scope.
Delimit Scope res_scope with res.
Notation "x <- m ;; k" := (rbind m (fun x => k))
  (at level 61, m at next level, right associativity) : res_scope.
Local Open Scope py_scope.

(** ** crypto_api.py *)

Module CoinGeckoAPI.

Import Datetime.

Definition base_url : string := "https://api.coingecko.com/api/v3".

(** [self.min_request_interval = 1.1]. *)
Definition min_request_interval : Z := 1100000.

(** How one pass through the body of the retry loop ends. *)
Inductive step (A : Type) : Type :=
| Continue
| Return (a : A).
Arguments Continue {A}.
Arguments Return {A} a.

Section Client.

Variable up : upstream.
Variable utc_offset : Z.

(** [datetime.now()]. *)
Definition datetime_now : M Z := fun w => (Ret (clock w + utc_offset), w).

(** [self.session.get(url, params=params, timeout=timeout)]: the request
    goes out when the call is made and the answer arrives [latency]
    later. *)
Definition session_get (r : request) : M (Z * option pyval) :=
  fun w =>
    let rp := up (sent w) r in
    let w' := mkWorld (clock w + Z.of_N (latency rp)) (last_request_time w)
                      (S (sent w)) (trace w ++ [EvGet (clock w) r]) in
    match answer rp with
    | Response status body => (Ret (status, body), w')
    | NoResponse msg => (Raise (RequestException (ConnectionFailure msg)), w')
    end.

(** [response.raise_for_status()]. *)
Definition raise_for_status (response : Z * option pyval) : M unit :=
  let status := fst response in
  if (400 <=? status) && (status <? 600)
  then raise (RequestException (HTTPError status))
  else ret tt.

(** [response.json()]. *)
Definition response_json (response : Z * option pyval) : M pyval :=
  match snd response with
  | Some j => ret j
  | None => raise (RequestException JSONDecodeError)
  end.

Definition _rate_limit_delay : M unit :=
  current_time <- time_time ;;
  last <- get_last_request_time ;;
  let time_since_last := current_time - last in
  (if time_since_last <? min_request_interval
   then time_sleep Limiter (min_request_interval - time_since_last)
   else ret tt) ;;
  now <- time_time ;;
  set_last_request_time now.

(** [except requests.exceptions.RequestException as e: h e]; any other
    exception goes on. *)
Definition except_request {A} (m : M A) (h : cause -> M A) : M A :=
  try_except m (fun e => match e with
                         | RequestException c => h c
                         | _ => raise e
                         end).

(** The body of [for attempt in range(max_retries)]. *)
Definition attempt_body (url : string) (params : dict param)
    (max_retries attempt : nat) : M (step pyval) :=
  except_request
    (_rate_limit_delay ;;
     response <- session_get (mkRequest url params (seconds 15)) ;;
     if fst response =? 429
     then
       let wait_time := 2 ^ Z.of_nat attempt * 5 in
       time_sleep RateLimited (seconds wait_time) ;;
       ret Continue
     else
       raise_for_status response ;;
       j <- response_json response ;;
       ret (Return j))
    (fun e =>
       if Nat.eqb attempt (max_retries - 1)
       then raise (RequestFailed max_retries e)
       else time_sleep Backoff (seconds (2 ^ Z.of_nat attempt)) ;;
            ret Continue).

(** The loop, with [remaining] passes left, the next one numbered
    [attempt]. *)
Fixpoint retry_loop (url : string) (params : dict param) (max_retries : nat)
    (remaining attempt : nat) : M pyval :=
  match remaining with
  | O => raise MaxRetriesExceeded
  | S remaining' =>
      s <- attempt_body url params max_retries attempt ;;
      match s with
      | Return j => ret j
      | Continue => retry_loop url params max_retries remaining' (S attempt)
      end
  end.

Definition _make_request_with_retry (url : string) (params : dict param)
    (max_retries : nat) : M pyval :=
  retry_loop url params max_retries max_retries 0%nat.

(** [max_retries: int = 3]. *)
Definition default_max_retries : nat := 3.

(** *** get_current_prices *)

(** One pass of [for coin in market_data], [acc] being the dictionary
    [result] so far: the entry is built first and then stored under
    [coin['id']], whatever hashable value that is. *)
Definition add_coin (acc : vdict) (coin : pyval) : result vdict :=
  (coin_id <- getitem coin "id" ;;
   usd <- getitem coin "current_price" ;;
   change <- get coin "price_change_percentage_24h" (PNum 0) ;;
   vol <- get coin "total_volume" (PNum 0) ;;
   cap <- get coin "market_cap" (PNum 0) ;;
   updated <- get coin "last_updated" (PStr "") ;;
   let entry := PDict [("usd", usd); ("usd_24h_change", change);
                       ("usd_24h_vol", vol); ("usd_market_cap", cap);
                       ("last_updated_at", updated)] in
   if hashable coin_id then Ret (vdict_set acc coin_id entry)
   else Raise TypeError)%res.

(** [result = {}] and then [for coin in market_data], [acc] being the
    dictionary [result] so far. *)
Fixpoint add_coins (acc : vdict) (coins : list pyval) : result vdict :=
  match coins with
  | [] => Ret acc
  | coin :: coins' =>
      (acc' <- add_coin acc coin ;; add_coins acc' coins')%res
  end.

Definition markets_params (coin_ids : list string) : dict param :=
  [("vs_currency", QStr "usd");
   ("ids", QStr (String.concat "," coin_ids));
   ("order", QStr "market_cap_desc");
   ("per_page", QInt (Z.of_nat (List.length coin_ids)));
   ("page", QInt 1);
   ("sparkline", QBool false);
   ("price_change_percentage", QStr "24h")].

Definition get_current_prices (coin_ids : list string) : M vdict :=
  match coin_ids with
  | [] => ret []
  | _ =>
      try_except
        (market_data <- _make_request_with_retry (base_url ++ "/coins/markets")
                          (markets_params coin_ids) default_max_retries ;;
         coins <- lift (iter market_data) ;;
         lift (add_coins [] coins))
        (fun e => raise (Failed "Failed to fetch current prices" e))
  end.

(** *** get_trading_pairs *)

Definition pair_entry (price change : pyval) (base quote : string) : pyval :=
  PDict [("price", price); ("change_24h", change);
         ("base", PStr base); ("quote", PStr quote)].

(** [a and b] on two tests, the second evaluated only when the first
    holds. *)
Definition and_then (a : result bool) (b : result bool) : result bool :=
  rbind a (fun x => if x then b else Ret false).

(** The crypto-crypto pairs computed from the two USD quotes. *)
Definition crypto_pairs (crypto_data : pyval) : result (dict pyval) :=
  (both <- and_then (contains crypto_data "bitcoin")
                    (contains crypto_data "ethereum") ;;
   if both then
     btc <- getitem crypto_data "bitcoin" ;;
     btc_price_usd <- getitem btc "usd" ;;
     eth <- getitem crypto_data "ethereum" ;;
     eth_price_usd <- getitem eth "usd" ;;
     btc_change_24h <- get btc "usd_24h_change" (PNum 0) ;;
     eth_change_24h <- get eth "usd_24h_change" (PNum 0) ;;
     positive <- and_then (gt0 btc_price_usd) (gt0 eth_price_usd) ;;
     if positive then
       eth_btc_rate <- truediv eth_price_usd btc_price_usd ;;
       eth_btc_change <- sub eth_change_24h btc_change_24h ;;
       let trading_pairs :=
         dict_set [] "ETH/BTC"
           (pair_entry eth_btc_rate eth_btc_change "Ethereum" "Bitcoin") in
       btc_eth_rate <- truediv btc_price_usd eth_price_usd ;;
       btc_eth_change <- sub btc_change_24h eth_change_24h ;;
       Ret (dict_set trading_pairs "BTC/ETH"
              (pair_entry btc_eth_rate btc_eth_change "Bitcoin" "Ethereum"))
     else Ret []
   else Ret [])%res.

(** The approximate EUR/USD rate of the fallbacks. *)
Definition fallback_rate : float := 1.08%float.

Definition eur_usd_fallback : pyval :=
  pair_entry (PNum fallback_rate) (PNum 0) "Euro" "US Dollar".

(** The inner [try] block once the exchange rates have arrived. *)
Definition exchange_pairs (exchange_data : pyval) (trading_pairs : dict pyval)
    : result (dict pyval) :=
  (has_eur <- and_then (contains exchange_data "rates")
                       (rates <- getitem exchange_data "rates" ;;
                        contains rates "eur") ;;
   if has_eur then
     rates <- getitem exchange_data "rates" ;;
     eur <- getitem rates "eur" ;;
     usd_eur_rate <- getitem eur "value" ;;
     positive <- gt0 usd_eur_rate ;;
     if positive then
       eur_usd_rate <- truediv (PNum 1) usd_eur_rate ;;
       Ret (dict_set trading_pairs "EUR/USD"
              (pair_entry eur_usd_rate (PNum 0) "Euro" "US Dollar"))
     else Ret trading_pairs
   else Ret (dict_set trading_pairs "EUR/USD" eur_usd_fallback))%res.

Definition crypto_url : string := base_url ++ "/simple/price".
Definition crypto_params : dict param :=
  [("ids", QStr "bitcoin,ethereum");
   ("vs_currencies", QStr "usd");
   ("include_24hr_change", QBool true)].
Definition exchange_url : string := base_url ++ "/exchange_rates".

(** The EUR/USD part of [get_trading_pairs]: the inner [try] and its
    handler. *)
Definition exchange_leg (trading_pairs : dict pyval) : M (dict pyval) :=
  try_except
    (exchange_data <- _make_request_with_retry exchange_url []
                        default_max_retries ;;
     lift (exchange_pairs exchange_data trading_pairs))
    (fun _ => ret (dict_set trading_pairs "EUR/USD" eur_usd_fallback)).

Definition get_trading_pairs : M (dict pyval) :=
  try_except
    (crypto_data <- _make_request_with_retry crypto_url crypto_params
                      default_max_retries ;;
     trading_pairs <- lift (crypto_pairs crypto_data) ;;
     exchange_leg trading_pairs)
    (fun e => raise (Failed "Failed to fetch trading pairs" e)).

(** *** Historical series *)

Definition market_chart_url (coin : string) : string :=
  base_url ++ "/coins/" ++ coin ++ "/market_chart".

Definition market_chart_params (vs_currency : string) (days : Z) : dict param :=
  [("vs_currency", QStr vs_currency);
   ("days", QInt days);
   ("interval", QStr (if days <=? 7 then "hourly" else "daily"))].

(** [[datetime.fromtimestamp(item[0] / 1000) for item in prices_data]]. *)
Definition series_timestamps (prices_data : pyval) : result (list Z) :=
  (items <- iter prices_data ;;
   rmap (fun item =>
           ms <- index item 0 ;;
           secs <- truediv ms (PNum 1000) ;;
           fromtimestamp utc_offset secs) items)%res.

(** [[item[1] for item in prices_data]]. *)
Definition series_prices (prices_data : pyval) : result (list pyval) :=
  (items <- iter prices_data ;;
   rmap (fun item => index item 1) items)%res.

Definition no_price_data : exn := ValueError "No price data found in response".

Definition get_historical_data (coin_id : string) (days : Z)
    : M (list Z * list pyval) :=
  try_except
    (data <- _make_request_with_retry (market_chart_url coin_id)
               (market_chart_params "usd" days) default_max_retries ;;
     has_prices <- lift (contains data "prices") ;;
     if negb has_prices then raise no_price_data
     else
       prices_data <- lift (getitem data "prices") ;;
       timestamps <- lift (series_timestamps prices_data) ;;
       prices <- lift (series_prices prices_data) ;;
       ret (timestamps, prices))
    (fun e => raise (Failed ("Failed to fetch historical data for " ++ coin_id) e)).

Definition _get_crypto_pair_history (base_coin quote_currency : string)
    (days : Z) : M (list Z * list pyval) :=
  response <- session_get (mkRequest (market_chart_url base_coin)
                             (market_chart_params quote_currency days)
                             (seconds 15)) ;;
  raise_for_status response ;;
  data <- response_json response ;;
  has_prices <- lift (contains data "prices") ;;
  if negb has_prices then raise no_price_data
  else
    prices_data <- lift (getitem data "prices") ;;
    timestamps <- lift (series_timestamps prices_data) ;;
    prices <- lift (series_prices prices_data) ;;
    ret (timestamps, prices).

(** [range(n, 0, -1)]. *)
Definition range_down (n : Z) : list Z :=
  map (fun k => n - Z.of_nat k) (seq 0 (Z.to_nat n)).

(** [t - timedelta(hours=i)], an [OverflowError] outside the years 1 to
    9999. *)
Definition minus_hours (t i : Z) : result Z :=
  let r := t - timedelta_hours i in
  if (min_datetime <=? r) && (r <=? max_datetime) then Ret r
  else Raise OverflowError.

(** The flat line at the fallback rate: one point per hour of the last
    [days] days. *)
Definition flat_series (days : Z) : M (list Z * list pyval) :=
  let current_rate := PNum fallback_rate in
  now <- datetime_now ;;
  timestamps <- lift (rmap (minus_hours now) (range_down (24 * days))) ;;
  let prices := repeat current_rate (List.length timestamps) in
  ret (timestamps, prices).

(** One pass of [for i in range(min(len(usd_prices), len(eur_prices)))]:
    the rate appended at index [i]. *)
Definition rate_at (usd_prices eur_prices : list pyval) (i : nat)
    : result pyval :=
  match nth_error eur_prices i, nth_error usd_prices i with
  | Some eur, Some usd =>
      (positive <- gt0 eur ;;
       if positive then truediv usd eur else Ret (PNum fallback_rate))%res
  | _, _ => Raise IndexError
  end.

(** The [try] block of [_get_fiat_pair_history]. *)
Definition fiat_pair_series (currency : string) (days : Z)
    : M (list Z * list pyval) :=
  response <- session_get (mkRequest (market_chart_url "bitcoin")
                             (market_chart_params currency days)
                             (seconds 15)) ;;
  raise_for_status response ;;
  data <- response_json response ;;
  has_prices <- lift (contains data "prices") ;;
  if negb has_prices then flat_series days
  else
    prices_data <- lift (getitem data "prices") ;;
    timestamps <- lift (series_timestamps prices_data) ;;
    usd_response <- session_get (mkRequest (market_chart_url "bitcoin")
                                   (market_chart_params "usd" days)
                                   (seconds 15)) ;;
    raise_for_status usd_response ;;
    usd_data <- response_json usd_response ;;
    has_usd <- lift (contains usd_data "prices") ;;
    if has_usd then
      usd_prices_data <- lift (getitem usd_data "prices") ;;
      usd_prices <- lift (series_prices usd_prices_data) ;;
      eur_prices <- lift (series_prices prices_data) ;;
      eur_usd_rates <-
        lift (rmap (rate_at usd_prices eur_prices)
                (seq 0 (Nat.min (List.length usd_prices) (List.length eur_prices)))) ;;
      ret (firstn (List.length eur_usd_rates) timestamps, eur_usd_rates)
    else
      let current_rate := PNum fallback_rate in
      ret (timestamps, repeat current_rate (List.length timestamps)).

(** The [try] block and its handler, the flat series. *)
Definition _get_fiat_pair_history (currency : string) (days : Z)
    : M (list Z * list pyval) :=
  try_except (fiat_pair_series currency days) (fun _ => flat_series days).

Definition get_pair_historical_data (pair_name : string) (days : Z)
    : M (list Z * list pyval) :=
  try_except
    (if String.eqb pair_name "ETH/BTC"
     then _get_crypto_pair_history "ethereum" "btc" days
     else if String.eqb pair_name "BTC/ETH"
     then _get_crypto_pair_history "bitcoin" "eth" days
     else if String.eqb pair_name "EUR/USD"
     then _get_fiat_pair_history "eur" days
     else raise (ValueError ("Unsupported trading pair: " ++ pair_name)))
    (fun e => raise (Failed ("Failed to fetch historical data for " ++ pair_name) e)).

(** *** get_coin_info *)

Definition coin_info_params : dict param :=
  [("localization", QBool false); ("tickers", QBool false);
   ("market_data", QBool true); ("community_data", QBool false);
   ("developer_data", QBool false); ("sparkline", QBool false)].

Definition get_coin_info (coin_id : string) : M pyval :=
  try_except
    (response <- session_get (mkRequest (base_url ++ "/coins/" ++ coin_id)
                                coin_info_params (seconds 10)) ;;
     raise_for_status response ;;
     response_json response)
    (fun e => match e with
              | RequestException _ =>
                  raise (Failed ("Failed to fetch coin info for " ++ coin_id) e)
              | _ => raise (Failed "Error processing coin info" e)
              end).

End Client.

End CoinGeckoAPI.

(** ** database.py *)

Module DatabaseManager.

Import Datetime.

(** A row of [coin_prices]. *)
Record CoinPrice : Type := mkCoinPrice {
  coin_id : string;
  coin_name : pyval;
  coin_symbol : pyval;
  price_usd : pyval;
  price_btc : pyval;
  price_eth : pyval;
  price_eur : pyval;
  market_cap : pyval;
  volume_24h : pyval;
  change_24h : pyval;
  timestamp : Z
}.

(** A row of [trading_pairs]. *)
Record TradingPair : Type := mkTradingPair {
  pair_name : string;
  base_currency : pyval;
  quote_currency : pyval;
  price : pyval;
  pair_change_24h : pyval;
  pair_timestamp : Z
}.

(** A row of [historical_data]. *)
Record HistoricalData : Type := mkHistoricalData {
  hist_coin_id : string;
  hist_price : pyval;
  hist_timestamp : Z
}.

(** A row of [pair_historical_data]. *)
Record PairHistoricalData : Type := mkPairHistoricalData {
  phist_pair_name : string;
  phist_price : pyval;
  phist_timestamp : Z
}.

(** The tables, each in the order in which an unordered query returns its
    rows. *)
Record store : Type := mkStore {
  coin_prices : list CoinPrice;
  trading_pairs : list TradingPair;
  historical_data : list HistoricalData;
  pair_historical_data : list PairHistoricalData
}.

Definition is_none (v : pyval) : bool :=
  match v with PNone => true | _ => false end.

(** [d.get(k, default)] on the dictionary [d]. *)
Definition field (d : pyval) (k : string) (default : pyval) : result pyval :=
  get d k default.

(** The row that one pass of the loop of [store_coin_prices] adds; the
    column default [datetime.utcnow] stamps it. *)
Definition coin_price_row (utcnow : Z) (coin_id : string) (data : pyval)
    : result CoinPrice :=
  (name <- field data "name" (PStr "") ;;
   symbol <- field data "symbol" (PStr "") ;;
   usd <- field data "usd" (PNum 0) ;;
   btc <- field data "btc" (PNum 0) ;;
   eth <- field data "eth" (PNum 0) ;;
   eur <- field data "eur" (PNum 0) ;;
   cap <- field data "usd_market_cap" (PNum 0) ;;
   vol <- field data "usd_24h_vol" (PNum 0) ;;
   change <- field data "usd_24h_change" (PNum 0) ;;
   Ret (mkCoinPrice coin_id name symbol usd btc eth eur cap vol change utcnow))%res.

(** The columns declared [nullable=False] hold a value. *)
Definition coin_price_valid (r : CoinPrice) : bool :=
  negb (is_none (coin_name r)) && negb (is_none (coin_symbol r))
  && negb (is_none (price_usd r)).

(** [session.commit()] of the added rows: an [IntegrityError] when one of
    them breaks a constraint. *)
Definition commit_rows {A} (valid : A -> bool) (rows : list A) : result unit :=
  if forallb valid rows then Ret tt else Raise IntegrityError.

(** One transaction: all the rows are added, or, after the rollback, none
    is and the exception goes to the caller. *)
Definition store_coin_prices (utcnow : Z) (coin_data : dict pyval) (st : store)
    : result unit * store :=
  match
    (rows <- rmap (fun item => coin_price_row utcnow (fst item) (snd item))
               coin_data ;;
     _ <- commit_rows coin_price_valid rows ;;
     Ret rows)%res
  with
  | Ret rows =>
      (Ret tt, mkStore (coin_prices st ++ rows) (trading_pairs st)
                       (historical_data st) (pair_historical_data st))
  | Raise e => (Raise e, st)
  end.

Definition trading_pair_row (utcnow : Z) (pair_name : string) (data : pyval)
    : result TradingPair :=
  (base <- field data "base" (PStr "") ;;
   quote <- field data "quote" (PStr "") ;;
   price <- field data "price" (PNum 0) ;;
   change <- field data "change_24h" (PNum 0) ;;
   Ret (mkTradingPair pair_name base quote price change utcnow))%res.

Definition trading_pair_valid (r : TradingPair) : bool :=
  negb (is_none (base_currency r)) && negb (is_none (quote_currency r))
  && negb (is_none (price r)).

Definition store_trading_pairs (utcnow : Z) (pair_data : dict pyval) (st : store)
    : result unit * store :=
  match
    (rows <- rmap (fun item => trading_pair_row utcnow (fst item) (snd item))
               pair_data ;;
     _ <- commit_rows trading_pair_valid rows ;;
     Ret rows)%res
  with
  | Ret rows =>
      (Ret tt, mkStore (coin_prices st) (trading_pairs st ++ rows)
                       (historical_data st) (pair_historical_data st))
  | Raise e => (Raise e, st)
  end.

(** [.order_by(timestamp.desc())]: a stable insertion sort, the greatest
    [key] first. *)
Fixpoint insert_desc {A} (key : A -> Z) (r : A) (sorted : list A) : list A :=
  match sorted with
  | [] => [r]
  | x :: xs =>
      if key x <=? key r then r :: x :: xs else x :: insert_desc key r xs
  end.

Definition order_by_desc {A} (key : A -> Z) (rows : list A) : list A :=
  fold_right (insert_desc key) [] rows.

(** [.first()]. *)
Definition first {A} (rows : list A) : option A := hd_error rows.

(** [session.query(CoinPrice).filter(CoinPrice.coin_id == id)
    .order_by(CoinPrice.timestamp.desc()).first()]. *)
Definition latest_coin_price (rows : list CoinPrice) (id : string)
    : option CoinPrice :=
  first (order_by_desc timestamp
           (filter (fun r => String.eqb (coin_id r) id) rows)).

(** The dictionary that [get_latest_coin_prices] makes of a row. *)
Definition coin_price_dict (latest : CoinPrice) : pyval :=
  PDict [("usd", price_usd latest);
         ("btc", price_btc latest);
         ("eth", price_eth latest);
         ("eur", price_eur latest);
         ("usd_market_cap", market_cap latest);
         ("usd_24h_vol", volume_24h latest);
         ("usd_24h_change", change_24h latest);
         ("last_updated_at", PStamp (timestamp latest))].

(** [for coin_id in coin_ids], [latest_prices] being the dictionary so
    far. *)
Fixpoint latest_coin_prices_loop (rows : list CoinPrice)
    (coin_ids : list string) (latest_prices : dict pyval) : dict pyval :=
  match coin_ids with
  | [] => latest_prices
  | id :: coin_ids' =>
      latest_coin_prices_loop rows coin_ids'
        (match latest_coin_price rows id with
         | Some latest => dict_set latest_prices id (coin_price_dict latest)
         | None => latest_prices
         end)
  end.

Definition get_latest_coin_prices (coin_ids : list string) (st : store)
    : dict pyval :=
  latest_coin_prices_loop (coin_prices st) coin_ids [].

Definition trading_pair_dict (pair : TradingPair) : pyval :=
  PDict [("price", price pair);
         ("change_24h", pair_change_24h pair);
         ("base", base_currency pair);
         ("quote", quote_currency pair)].

(** [latest_pairs = session.query(TradingPair).all()] and then
    [for pair in latest_pairs: pairs[pair.pair_name] = {...}]. *)
Definition get_latest_trading_pairs (st : store) : dict pyval :=
  fold_left (fun pairs pair =>
               dict_set pairs (pair_name pair) (trading_pair_dict pair))
            (trading_pairs st) [].

(** [.filter(timestamp < cutoff_date).delete()]: the rows that stay. *)
Definition delete_before {A} (key : A -> Z) (cutoff_date : Z) (rows : list A)
    : list A :=
  filter (fun r => negb (key r <? cutoff_date)) rows.

(** [cutoff_date = datetime.utcnow().replace(day=datetime.utcnow().day - days)]. *)
Definition cutoff (utcnow days : Z) : result Z :=
  replace_day utcnow (day_of_month utcnow - days).

(** One transaction: the four deletions are committed together, and an
    exception rolls back to the store as it was. *)
Definition cleanup_old_data (utcnow days : Z) (st : store) : result unit * store :=
  match cutoff utcnow days with
  | Ret cutoff_date =>
      (Ret tt,
       mkStore (delete_before timestamp cutoff_date (coin_prices st))
               (delete_before pair_timestamp cutoff_date (trading_pairs st))
               (delete_before hist_timestamp cutoff_date (historical_data st))
               (delete_before phist_timestamp cutoff_date
                  (pair_historical_data st)))
  | Raise e => (Raise e, st)
  end.

(** [days: int = 30]. *)
Definition default_days : Z := 30.

(** *** The historical tables *)

(** [t - timedelta(days=n)], an [OverflowError] outside the years 1 to
    9999. *)
Definition minus_days (t n : Z) : result Z :=
  let r := t - timedelta_days n in
  if (min_datetime <=? r) && (r <=? max_datetime) then Ret r
  else Raise OverflowError.

(** [.order_by(timestamp.asc())]: a stable insertion sort, the least [key]
    first. *)
Fixpoint insert_asc {A} (key : A -> Z) (r : A) (sorted : list A) : list A :=
  match sorted with
  | [] => [r]
  | x :: xs =>
      if key r <=? key x then r :: x :: xs else x :: insert_asc key r xs
  end.

Definition order_by_asc {A} (key : A -> Z) (rows : list A) : list A :=
  fold_right (insert_asc key) [] rows.

(** [for timestamp, price in zip(timestamps, prices)]: one row of
    [historical_data] per pair. *)
Definition historical_rows (coin_id : string) (timestamps : list Z)
    (prices : list pyval) : list HistoricalData :=
  map (fun tp => mkHistoricalData coin_id (snd tp) (fst tp))
      (combine timestamps prices).

Definition historical_valid (r : HistoricalData) : bool :=
  negb (is_none (hist_price r)).

(** The rows that stay after
    [.filter(coin_id == id, timestamp < cutoff_date).delete()]. *)
Definition delete_coin_before (id : string) (cutoff_date : Z)
    (rows : list HistoricalData) : list HistoricalData :=
  filter (fun r => negb (String.eqb (hist_coin_id r) id
                         && (hist_timestamp r <? cutoff_date))) rows.

(** One transaction: the old rows of the coin are deleted and the new ones
    added, or, after the rollback, the store is as it was.  The cutoff is
    computed inside the [try] block, with the literal 30. *)
Definition store_historical_data (utcnow : Z) (coin_id : string)
    (timestamps : list Z) (prices : list pyval) (st : store)
    : result unit * store :=
  match
    (cutoff_date <- cutoff utcnow 30 ;;
     let rows := historical_rows coin_id timestamps prices in
     _ <- commit_rows historical_valid rows ;;
     Ret (delete_coin_before coin_id cutoff_date (historical_data st) ++ rows))%res
  with
  | Ret rows =>
      (Ret tt, mkStore (coin_prices st) (trading_pairs st) rows
                       (pair_historical_data st))
  | Raise e => (Raise e, st)
  end.

Definition pair_historical_rows (pair_name : string) (timestamps : list Z)
    (prices : list pyval) : list PairHistoricalData :=
  map (fun tp => mkPairHistoricalData pair_name (snd tp) (fst tp))
      (combine timestamps prices).

Definition pair_historical_valid (r : PairHistoricalData) : bool :=
  negb (is_none (phist_price r)).

Definition delete_pair_before (name : string) (cutoff_date : Z)
    (rows : list PairHistoricalData) : list PairHistoricalData :=
  filter (fun r => negb (String.eqb (phist_pair_name r) name
                         && (phist_timestamp r <? cutoff_date))) rows.

Definition store_pair_historical_data (utcnow : Z) (pair_name : string)
    (timestamps : list Z) (prices : list pyval) (st : store)
    : result unit * store :=
  match
    (cutoff_date <- cutoff utcnow 30 ;;
     let rows := pair_historical_rows pair_name timestamps prices in
     _ <- commit_rows pair_historical_valid rows ;;
     Ret (delete_pair_before pair_name cutoff_date (pair_historical_data st)
          ++ rows))%res
  with
  | Ret rows =>
      (Ret tt, mkStore (coin_prices st) (trading_pairs st) (historical_data st)
                       rows)
  | Raise e => (Raise e, st)
  end.

(** The rows of [get_historical_data]: those of the coin from
    [utcnow - timedelta(days=days)] on, the oldest first. *)
Definition historical_window (cutoff_date : Z) (coin_id : string)
    (rows : list HistoricalData) : list HistoricalData :=
  order_by_asc hist_timestamp
    (filter (fun r => String.eqb (hist_coin_id r) coin_id
                      && (cutoff_date <=? hist_timestamp r)) rows).

Definition get_historical_data (utcnow : Z) (coin_id : string) (days : Z)
    (st : store) : result (list Z * list pyval) :=
  (cutoff_date <- minus_days utcnow days ;;
   let historical_data := historical_window cutoff_date coin_id
                            (historical_data st) in
   Ret (map hist_timestamp historical_data, map hist_price historical_data))%res.

Definition pair_historical_window (cutoff_date : Z) (pair_name : string)
    (rows : list PairHistoricalData) : list PairHistoricalData :=
  order_by_asc phist_timestamp
    (filter (fun r => String.eqb (phist_pair_name r) pair_name
                      && (cutoff_date <=? phist_timestamp r)) rows).

Definition get_pair_historical_data (utcnow : Z) (pair_name : string)
    (days : Z) (st : store) : result (list Z * list pyval) :=
  (cutoff_date <- minus_days utcnow days ;;
   let historical_data := pair_historical_window cutoff_date pair_name
                            (pair_historical_data st) in
   Ret (map phist_timestamp historical_data, map phist_price historical_data))%res.

(** *** The user preferences *)

(** A row of [user_preferences].  The column [selected_coins] holds the
    text [json.dumps(selected_coins)] of a list of strings; it is kept as
    the list it encodes, which [json.loads] gives back. *)
Record UserPreferences : Type := mkUserPreferences {
  session_id : string;
  selected_coins : list string;
  auto_refresh : bool;
  refresh_interval : Z;
  created_at : Z;
  updated_at : Z
}.

(** [session.query(UserPreferences).filter(session_id == id).first()]. *)
Definition find_preferences (table : list UserPreferences) (id : string)
    : option UserPreferences :=
  first (filter (fun r => String.eqb (session_id r) id) table).

(** The table after the attributes of the first row of the session have
    been assigned. *)
Fixpoint update_preferences (utcnow : Z) (id : string)
    (coins : list string) (auto : bool) (interval : Z)
    (table : list UserPreferences) : list UserPreferences :=
  match table with
  | [] => []
  | r :: table' =>
      if String.eqb (session_id r) id
      then mkUserPreferences (session_id r) coins auto interval
                             (created_at r) utcnow :: table'
      else r :: update_preferences utcnow id coins auto interval table'
  end.

Definition save_user_preferences (utcnow : Z) (id : string)
    (coins : list string) (auto : bool) (interval : Z)
    (table : list UserPreferences) : list UserPreferences :=
  match find_preferences table id with
  | Some _ => update_preferences utcnow id coins auto interval table
  | None =>
      table ++ [mkUserPreferences id coins auto interval utcnow utcnow]
  end.

Definition load_user_preferences (id : string) (table : list UserPreferences)
    : option (list string * bool * Z) :=
  match find_preferences table id with
  | Some preferences =>
      Some (selected_coins preferences, auto_refresh preferences,
            refresh_interval preferences)
  | None => None
  end.

End DatabaseManager.

(** ** app.py: the loader of the current prices *)

Module App.

Import Datetime.

(** [st.session_state.use_database] and [db], which is [None] when the
    database manager could not be made. *)
Record session : Type := mkSession {
  use_database : bool;
  db : option DatabaseManager.store
}.

Section Loader.

Variable up : upstream.
Variable utc_offset : Z.

(** What [db.store_coin_prices] does, at a given time, with a dictionary in
    which a key is not a string: the key is bound to the [String] column
    [coin_id], and what becomes of it there is decided by the database
    engine, not by the code. *)
Variable engine_store :
  Z -> vdict -> DatabaseManager.store -> result unit * DatabaseManager.store.

(** [db.store_coin_prices(prices)]. *)
Definition store_fetched (utcnow : Z) (prices : vdict)
    (st : DatabaseManager.store)
    : result unit * DatabaseManager.store :=
  match string_keyed prices with
  | Some coin_data => DatabaseManager.store_coin_prices utcnow coin_data st
  | None => engine_store utcnow prices st
  end.

(** The freshness window of the cached prices. *)
Definition freshness_window : Z := timedelta_minutes 2.

(** The test of one item of [cached_prices.items()]: it has a
    [last_updated_at] that is less than two minutes before [now]. *)
Definition is_recent (now : Z) (data : pyval) : result bool :=
  (has <- contains data "last_updated_at" ;;
   if has then
     stamp <- getitem data "last_updated_at" ;;
     last_update <- fromtimestamp utc_offset stamp ;;
     Ret (now - last_update <? freshness_window)
   else Ret false)%res.

(** [for coin_id, data in cached_prices.items()]: [true] when the loop
    reaches [return cached_prices]. *)
Fixpoint any_recent (now : Z) (items : dict pyval) : result bool :=
  match items with
  | [] => Ret false
  | (_, data) :: items' =>
      (recent <- is_recent now data ;;
       if recent then Ret true else any_recent now items')%res
  end.

(** The first half of the [try] block: the cached prices when the function
    returns them, [None] when it goes on to the API. *)
Definition cached_prices_if_recent (coin_ids : list string) (s : session)
    (now : Z) : result (option (dict pyval)) :=
  match use_database s, db s with
  | true, Some st =>
      let cached_prices := DatabaseManager.get_latest_coin_prices coin_ids st in
      if truthy cached_prices then
        (recent <- any_recent now cached_prices ;;
         Ret (if recent then Some cached_prices else None))%res
      else Ret None
  | _, _ => Ret None
  end.

Definition failed_to_load (e : exn) : event :=
  EvError "Failed to load current prices" e.

(** The second half of the [try] block with the handler of the function:
    the prices of [coin_ids] are fetched from the API and, when the database
    is in use, stored. *)
Definition fetch_fresh_prices (coin_ids : list string) (s : session)
    (w : world) : vdict * session * world :=
  match CoinGeckoAPI.get_current_prices up coin_ids w with
  | (Raise e, w') => ([], s, snd (log (failed_to_load e) w'))
  | (Ret prices, w') =>
      match use_database s, db s with
      | true, Some st =>
          if truthy prices then
            match store_fetched (clock w') prices st with
            | (Ret _, st') => (prices, mkSession (use_database s) (Some st'), w')
            | (Raise db_error, _) =>
                (prices, s,
                 snd (log (EvWarning "Database storage failed" db_error) w'))
            end
          else (prices, s, w')
      | _, _ => (prices, s, w')
      end
  end.

(** The body of [load_current_prices]; [st.cache_data(ttl=60)] memoizes it
    for a minute. *)
Definition load_current_prices (coin_ids : list string) (s : session)
    (w : world) : vdict * session * world :=
  match cached_prices_if_recent coin_ids s (clock w + utc_offset) with
  | Raise e => ([], s, snd (log (failed_to_load e) w))
  | Ret (Some cached_prices) => (keyed cached_prices, s, w)
  | Ret None => fetch_fresh_prices coin_ids s w
  end.


(** The body of [load_historical_data]; [st.cache_data(ttl=1800)] memoizes
    it for half an hour. *)
Definition load_historical_data (coin_id : string) (days : Z) (w : world)
    : (list Z * list pyval) * world :=
  match CoinGeckoAPI.get_historical_data up utc_offset coin_id days w with
  | (Ret series, w') => (series, w')
  | (Raise e, w') =>
      (([], []),
       snd (log (EvError ("Failed to load historical data for " ++ coin_id) e)
              w'))
  end.

(** The second half of the [try] block of [load_trading_pairs] with the
    handler of the function. *)
Definition fetch_fresh_pairs (s : session) (w : world)
    : dict pyval * session * world :=
  match CoinGeckoAPI.get_trading_pairs up w with
  | (Raise e, w') =>
      ([], s, snd (log (EvError "Failed to load trading pairs" e) w'))
  | (Ret pairs, w') =>
      match use_database s, db s with
      | true, Some st =>
          if truthy pairs then
            match DatabaseManager.store_trading_pairs (clock w') pairs st with
            | (Ret _, st') => (pairs, mkSession (use_database s) (Some st'), w')
            | (Raise db_error, _) =>
                (pairs, s,
                 snd (log (EvWarning "Database storage failed" db_error) w'))
            end
          else (pairs, s, w')
      | _, _ => (pairs, s, w')
      end
  end.

(** The body of [load_trading_pairs]; [st.cache_data(ttl=60)] memoizes it
    for a minute. *)
Definition load_trading_pairs (s : session) (w : world)
    : dict pyval * session * world :=
  match use_database s, db s with
  | true, Some st =>
      let cached_pairs := DatabaseManager.get_latest_trading_pairs st in
      if truthy cached_pairs then (cached_pairs, s, w)
      else fetch_fresh_pairs s w
  | _, _ => fetch_fresh_pairs s w
  end.

(** In [main]: [if len(selected_coins) > 10: selected_coins =
    selected_coins[:10]]. *)
Definition cap_selected_coins (selected_coins : list string) : list string :=
  if (10 <? List.length selected_coins)%nat then firstn 10 selected_coins
  else selected_coins.

End Loader.

End App.

(** ** What the properties are stated with *)

Module Observe.

Import Datetime CoinGeckoAPI.

(** The sleep of [_rate_limit_delay], when it sleeps. *)
Definition limiter_wait (w : world) : list event :=
  let time_since_last := clock w - last_request_time w in
  if time_since_last <? min_request_interval
  then [EvSleep Limiter (min_request_interval - time_since_last)]
  else [].

(** The time at which [_rate_limit_delay] returns. *)
Definition slot_time (w : world) : Z :=
  let time_since_last := clock w - last_request_time w in
  if time_since_last <? min_request_interval
  then clock w + (min_request_interval - time_since_last)
  else clock w.

(** The world after [_rate_limit_delay]. *)
Definition after_limiter (w : world) : world :=
  mkWorld (slot_time w) (slot_time w) (sent w) (trace w ++ limiter_wait w).

(** The world after [session.get] of the request [r]. *)
Definition after_get (up : upstream) (r : request) (w : world) : world :=
  mkWorld (clock w + Z.of_N (latency (up (sent w) r))) (last_request_time w)
          (S (sent w)) (trace w ++ [EvGet (clock w) r]).

(** The world after [time.sleep(d)] at [site]. *)
Definition after_sleep (site : sleep_site) (d : Z) (w : world) : world :=
  mkWorld (clock w + d) (last_request_time w) (sent w)
          (trace w ++ [EvSleep site d]).

(** The exception that an answer makes the body of the retry loop catch:
    no response, an error status other than 429, or a body that is not
    JSON. *)
Definition failure_cause (o : outcome) : option cause :=
  match o with
  | NoResponse msg => Some (ConnectionFailure msg)
  | Response status body =>
      if status =? 429 then None
      else if (400 <=? status) && (status <? 600) then Some (HTTPError status)
      else match body with
           | None => Some JSONDecodeError
           | Some _ => None
           end
  end.

(** The body of an answer that [_make_request_with_retry] returns. *)
Definition success_body (o : outcome) : option pyval :=
  match o with
  | NoResponse _ => None
  | Response status body =>
      if (status =? 429) || ((400 <=? status) && (status <? 600)) then None
      else body
  end.

Definition is_rate_limited (o : outcome) : bool :=
  match o with
  | Response status _ => status =? 429
  | NoResponse _ => false
  end.

(** A trace without its limiter waits and without the times and
    descriptors of its requests. *)
Inductive mark : Type :=
| Attempt
| Slept (site : sleep_site) (duration : Z).

Fixpoint schedule (evs : list event) : list mark :=
  match evs with
  | [] => []
  | EvGet _ _ :: evs' => Attempt :: schedule evs'
  | EvSleep Limiter _ :: evs' => schedule evs'
  | EvSleep site d :: evs' => Slept site d :: schedule evs'
  | _ :: evs' => schedule evs'
  end.

Definition is_attempt (m : mark) : bool :=
  match m with Attempt => true | Slept _ _ => false end.

Definition attempts (evs : list event) : nat :=
  List.length (filter is_attempt (schedule evs)).

(** The schedule of a request that fails [remaining] times from the pass
    numbered [attempt] on, the last of them being the last pass of the
    loop: a backoff of [2 ^ attempt] seconds after every failure but the
    last. *)
Fixpoint failing_schedule (remaining attempt : nat) : list mark :=
  match remaining with
  | O => []
  | S remaining' =>
      Attempt ::
      match remaining' with
      | O => []
      | S _ =>
          Slept Backoff (seconds (2 ^ Z.of_nat attempt))
          :: failing_schedule remaining' (S attempt)
      end
  end.

(** The request of [_make_request_with_retry]. *)
Definition governed_request (url : string) (params : dict param) : request :=
  mkRequest url params (seconds 15).

(** The price of a pair in the result of [get_trading_pairs]. *)
Definition price_of (pairs : dict pyval) (name : string) : option float :=
  match dict_get pairs name with
  | Some (PDict kv) =>
      match dict_get kv "price" with
      | Some (PNum x) => Some x
      | _ => None
      end
  | _ => None
  end.

(** The body of [/simple/price] for the two reference assets. *)
Definition simple_price_body (btc_usd btc_change eth_usd eth_change : float)
    : pyval :=
  PDict [("bitcoin", PDict [("usd", PNum btc_usd);
                            ("usd_24h_change", PNum btc_change)]);
         ("ethereum", PDict [("usd", PNum eth_usd);
                             ("usd_24h_change", PNum eth_change)])].

(** The body of [/exchange_rates] with the rate [value] for the euro. *)
Definition exchange_rates_body (value : pyval) : pyval :=
  PDict [("rates", PDict [("eur", PDict [("name", PStr "Euro");
                                         ("value", value)])])].

(** The time at which a cached entry was observed. *)
Definition observed_at (data : pyval) : option Z :=
  match data with
  | PDict kv =>
      match dict_get kv "last_updated_at" with
      | Some (PStamp t) => Some t
      | _ => None
      end
  | _ => None
  end.





(** The two lists of a series have one length. *)
Definition paired {A B} (r : result (list A * list B) * world) : Prop :=
  match fst r with
  | Ret (timestamps, prices) => List.length timestamps = List.length prices
  | Raise _ => True
  end.

End Observe.

(** ** Stubs of the upstream and stores for the examples *)

Module Stub.

Import Datetime CoinGeckoAPI DatabaseManager Observe.

Definition noon : Z := make 2024 6 15 12 0 0.

(** A client that has sent nothing yet, at noon on 2024-06-15. *)
Definition w0 : world := mkWorld noon 0 0 [].

(** A client whose last governed request started at this very moment. *)
Definition w_busy : world := mkWorld noon noon 1 [].

Definition ok (j : pyval) : reply := mkReply 200000 (Response 200 (Some j)).
Definition too_many : reply := mkReply 100000 (Response 429 None).
Definition down : reply := mkReply 0 (NoResponse "connection refused").

(** A database engine that refuses a key that is not a string. *)
Definition strict_engine (utcnow : Z) (prices : vdict) (st : store)
    : result unit * store :=
  (Raise IntegrityError, st).

(** An upstream that never answers. *)
Definition always_down : upstream := fun _ _ => down.

(** An upstream that answers 429 twice and then succeeds. *)
Definition twice_limited (j : pyval) : upstream :=
  fun n _ => match n with
             | O | S O => too_many
             | _ => ok j
             end.

(** An upstream that answers the request for the two quotes with
    [quotes] and the request for the exchange rates with [rates]. *)
Definition quotes_then (quotes rates : reply) : upstream :=
  fun n _ => match n with
             | O => quotes
             | _ => rates
             end.

(** A chart of three hourly points. *)
Definition chart (p1 p2 p3 : float) : pyval :=
  PDict [("prices",
          PList [PList [PNum 1718445600000; PNum p1];
                 PList [PNum 1718449200000; PNum p2];
                 PList [PNum 1718452800000; PNum p3]])].

Definition always_chart : upstream := fun _ _ => ok (chart 60000 61000 62000).

(** An entry of the body of [/coins/markets]. *)
Definition market (id : string) (usd : float) : pyval :=
  PDict [("id", PStr id);
         ("current_price", PNum usd);
         ("price_change_percentage_24h", PNum 1.5);
         ("total_volume", PNum 1000000);
         ("market_cap", PNum 1000000000);
         ("last_updated", PStr "2024-06-15T12:00:00.000Z")].

(** An upstream that serves the markets of bitcoin and ethereum. *)
Definition always_markets : upstream :=
  fun _ _ => ok (PList [market "bitcoin" 67000; market "ethereum" 3500]).

Definition row (id : string) (usd : float) (t : Z) : CoinPrice :=
  mkCoinPrice id (PStr "") (PStr "") (PNum usd) (PNum 0) (PNum 0) (PNum 0)
              (PNum 0) (PNum 0) (PNum 0) t.

Definition pair_row (name : string) (p : float) (t : Z) : TradingPair :=
  mkTradingPair name (PStr "Ethereum") (PStr "Bitcoin") (PNum p) (PNum 0) t.


(** A store with a bitcoin quote one minute old and an ethereum quote one
    hour old at noon. *)
Definition st_one_stale : store :=
  mkStore [row "ethereum" 3500 (noon - timedelta_hours 1);
           row "bitcoin" 67000 (noon - timedelta_minutes 1)] [] [] [].

(** A store with two quotes one minute old at noon. *)
Definition st_all_fresh : store :=
  mkStore [row "bitcoin" 67000 (noon - timedelta_minutes 1);
           row "ethereum" 3500 (noon - timedelta_minutes 1)] [] [] [].

(** A store whose quotes are an hour old at noon. *)
Definition st_all_stale : store :=
  mkStore [row "bitcoin" 67000 (noon - timedelta_hours 1);
           row "ethereum" 3500 (noon - timedelta_hours 1)] [] [] [].

(** A store in which the row of ETH/BTC returned last by an unordered query
    is the older one. *)
Definition st_pairs_out_of_order : store :=
  mkStore [] [pair_row "ETH/BTC" 0.052 (noon - timedelta_minutes 1);
              pair_row "ETH/BTC" 0.05 (noon - timedelta_hours 1)] [] [].

(** A store with a quote of 2024-01-01 and a quote of 2024-06-15. *)
Definition st_old_and_new : store :=
  mkStore [row "bitcoin" 42000 (make 2024 1 1 0 0 0);
           row "bitcoin" 67000 (make 2024 6 15 11 0 0)] [] [] [].

End Stub.


(** ** Shapes of runs, for the further properties *)

Module Shape.

Import Datetime CoinGeckoAPI Observe.

(** Every request of a trace goes out at least [min_request_interval]
    after the one before it, the first at least that long after [last]. *)
Fixpoint well_spaced (last : Z) (evs : list event) : Prop :=
  match evs with
  | [] => True
  | EvGet t _ :: evs' => last + min_request_interval <= t /\ well_spaced t evs'
  | _ :: evs' => well_spaced last evs'
  end.

(** The schedule of a request answered 429 [remaining] times from the pass
    numbered [attempt] on: a sleep of [5 * 2 ^ attempt] seconds after every
    one of them. *)
Fixpoint rate_limited_schedule (remaining attempt : nat) : list mark :=
  match remaining with
  | O => []
  | S remaining' =>
      Attempt :: Slept RateLimited (seconds (2 ^ Z.of_nat attempt * 5))
      :: rate_limited_schedule remaining' (S attempt)
  end.

(** The schedule of a request that fails [failures] times from the pass
    numbered [attempt] on and then succeeds. *)
Fixpoint recovering_schedule (failures attempt : nat) : list mark :=
  match failures with
  | O => [Attempt]
  | S failures' =>
      Attempt :: Slept Backoff (seconds (2 ^ Z.of_nat attempt))
      :: recovering_schedule failures' (S attempt)
  end.

(** The two exceptions that [_make_request_with_retry] raises itself. *)
Definition retry_error (max_retries : nat) (e : exn) : Prop :=
  e = MaxRetriesExceeded \/ exists c, e = RequestFailed max_retries c.

(** What a run of the retry loop with [remaining] passes left does to the
    world [w]. *)
Definition retry_run (max_retries remaining : nat) (w : world)
    (out : result pyval * world) : Prop :=
  exists evs,
    trace (snd out) = trace w ++ evs
    /\ sent (snd out) = (sent w + attempts evs)%nat
    /\ (attempts evs <= remaining)%nat
    /\ well_spaced (last_request_time w) evs
    /\ match fst out with
       | Ret _ => True
       | Raise e => retry_error max_retries e
       end.

(** A list of integers in ascending order. *)
Fixpoint ascending (l : list Z) : Prop :=
  match l with
  | [] => True
  | x :: l' => (forall y, In y l' -> x <= y) /\ ascending l'
  end.

(** The row of a pair that an unordered query returns last. *)
Fixpoint last_named (rows : list DatabaseManager.TradingPair) (name : string)
    : option DatabaseManager.TradingPair :=
  match rows with
  | [] => None
  | r :: rows' =>
      match last_named rows' name with
      | Some x => Some x
      | None =>
          if String.eqb (DatabaseManager.pair_name r) name then Some r else None
      end
  end.

(** [k in d] for a dictionary keyed by values. *)
Definition vdict_mem (d : vdict) (k : pyval) : bool :=
  existsb (fun item => key_eqb k (fst item)) d.

(** No key of the list equals, as a key, one that comes before it. *)
Fixpoint distinct_keys (ks : list pyval) : Prop :=
  match ks with
  | [] => True
  | k :: ks' => (forall k', In k' ks' -> key_eqb k' k = false) /\ distinct_keys ks'
  end.

(** The five keys of an entry of the result of [get_current_prices]. *)
Definition quote_keys : list string :=
  ["usd"; "usd_24h_change"; "usd_24h_vol"; "usd_market_cap"; "last_updated_at"].

(** A cached entry observed less than the freshness window before [now]. *)
Definition fresh_entry (now : Z) (item : string * pyval) : bool :=
  match observed_at (snd item) with
  | Some t => now - t <? App.freshness_window
  | None => false
  end.

End Shape.
(** * Properties *)

Import Datetime CoinGeckoAPI Observe.

(** Reduction of the state monad and of the projections of a world, leaving
    arithmetic alone. *)
Ltac run_monad :=
  cbv beta iota zeta delta
    [bind ret raise lift try_except time_time time_sleep
     get_last_request_time set_last_request_time log];
  cbn [clock last_request_time sent trace fst snd].

Ltac unfold_worlds :=
  unfold after_sleep, after_get, after_limiter;
  cbn [clock last_request_time sent trace].

Section Transport.

Variable up : upstream.

Lemma rate_limit_delay_eq (w : world) :
  _rate_limit_delay w = (Ret tt, after_limiter w).
Proof.
  unfold _rate_limit_delay, after_limiter, slot_time, limiter_wait.
  run_monad.
  destruct (clock w - last_request_time w <? min_request_interval); run_monad.
  - reflexivity.
  - now rewrite app_nil_r.
Qed.

Lemma session_get_eq (r : request) (w : world) :
  session_get up r w =
  (match answer (up (sent w) r) with
   | Response status body => Ret (status, body)
   | NoResponse msg => Raise (RequestException (ConnectionFailure msg))
   end, after_get up r w).
Proof.
  unfold session_get, after_get.
  destruct (answer (up (sent w) r)); reflexivity.
Qed.

(** The limiter leaves [min_request_interval] between the start of the
    previous governed call and the moment the next request goes out. *)
Lemma limiter_spacing (w : world) :
  last_request_time w + min_request_interval <= clock (after_limiter w)
  /\ last_request_time (after_limiter w) = clock (after_limiter w).
Proof.
  unfold after_limiter, slot_time; cbn [clock last_request_time].
  destruct (Z.ltb_spec (clock w - last_request_time w) min_request_interval); lia.
Qed.

Lemma sent_after_limiter (w : world) : sent (after_limiter w) = sent w.
Proof. reflexivity. Qed.

Lemma attempt_fails url params max_retries attempt w c :
  failure_cause (answer (up (sent w) (governed_request url params))) = Some c ->
  attempt_body up url params max_retries attempt w =
  let w' := after_get up (governed_request url params) (after_limiter w) in
  if Nat.eqb attempt (max_retries - 1)
  then (Raise (RequestFailed max_retries c), w')
  else (Ret Continue, after_sleep Backoff (seconds (2 ^ Z.of_nat attempt)) w').
Proof.
  intros Hc.
  unfold attempt_body, except_request, try_except, bind.
  rewrite rate_limit_delay_eq.
  fold (governed_request url params).
  rewrite session_get_eq, sent_after_limiter.
  unfold failure_cause in Hc.
  destruct (answer (up (sent w) (governed_request url params)))
    as [status body | msg]; cbn [fst snd].
  - destruct (status =? 429); [discriminate|].
    unfold raise_for_status, response_json; cbn [fst snd].
    destruct ((400 <=? status) && (status <? 600)).
    + injection Hc as <-. run_monad.
      destruct (Nat.eqb attempt (max_retries - 1)); reflexivity.
    + destruct body; [discriminate|]. injection Hc as <-. run_monad.
      destruct (Nat.eqb attempt (max_retries - 1)); reflexivity.
  - injection Hc as <-. run_monad.
    destruct (Nat.eqb attempt (max_retries - 1)); reflexivity.
Qed.

Lemma schedule_app (a b : list event) :
  schedule (a ++ b) = schedule a ++ schedule b.
Proof.
  induction a as [|e a IH]; [reflexivity|].
  destruct e as [[] d|t r|m|m]; cbn [schedule app]; now rewrite IH.
Qed.

Lemma schedule_limiter_wait (w : world) : schedule (limiter_wait w) = [].
Proof.
  unfold limiter_wait.
  now destruct (clock w - last_request_time w <? min_request_interval).
Qed.

Lemma failing_schedule_attempts (remaining attempt : nat) :
  List.length (filter is_attempt (failing_schedule remaining attempt)) = remaining.
Proof.
  revert attempt.
  induction remaining as [|r IH]; intros attempt; [reflexivity|].
  destruct r as [|r']; [reflexivity|].
  cbn [failing_schedule filter is_attempt List.length].
  f_equal. apply (IH (S attempt)).
Qed.

Lemma retry_loop_all_fail url params max_retries (c : nat -> cause) :
  forall remaining attempt w,
    (0 < remaining)%nat ->
    (attempt + remaining = max_retries)%nat ->
    (forall i, (i < remaining)%nat ->
       failure_cause (answer (up (sent w + i)%nat (governed_request url params)))
       = Some (c (attempt + i)%nat)) ->
    exists evs w',
      retry_loop up url params max_retries remaining attempt w
      = (Raise (RequestFailed max_retries (c (max_retries - 1)%nat)), w')
      /\ trace w' = trace w ++ evs
      /\ sent w' = (sent w + remaining)%nat
      /\ schedule evs = failing_schedule remaining attempt.
Proof.
  induction remaining as [|r IH]; intros attempt w Hpos Hsum Hfail; [lia|].
  assert (H0 : failure_cause
                 (answer (up (sent w) (governed_request url params)))
               = Some (c attempt)).
  { specialize (Hfail 0%nat ltac:(lia)).
    now rewrite !Nat.add_0_r in Hfail. }
  cbn [retry_loop]. unfold bind at 1.
  rewrite (attempt_fails _ _ _ _ _ _ H0). cbv zeta.
  destruct r as [|r'].
  - replace (Nat.eqb attempt (max_retries - 1)) with true
      by (symmetry; apply Nat.eqb_eq; lia).
    eexists _, _. split; [|split; [|split]].
    + replace (max_retries - 1)%nat with attempt by lia. reflexivity.
    + unfold_worlds. rewrite <- app_assoc. reflexivity.
    + unfold_worlds. lia.
    + rewrite schedule_app, schedule_limiter_wait. reflexivity.
  - replace (Nat.eqb attempt (max_retries - 1)) with false
      by (symmetry; apply Nat.eqb_neq; lia).
    set (w2 := after_sleep Backoff (seconds (2 ^ Z.of_nat attempt))
                 (after_get up (governed_request url params) (after_limiter w))).
    assert (Hsent2 : sent w2 = S (sent w)) by reflexivity.
    assert (Htr2 : trace w2 =
                   trace w ++ limiter_wait w
                   ++ [EvGet (slot_time w) (governed_request url params);
                       EvSleep Backoff (seconds (2 ^ Z.of_nat attempt))]).
    { subst w2. unfold_worlds. now rewrite <- !app_assoc. }
    destruct (IH (S attempt) w2) as (evs & w' & Hrun & Htr & Hsent & Hsch).
    + lia.
    + lia.
    + intros i Hi. specialize (Hfail (S i) ltac:(lia)).
      replace (sent w2 + i)%nat with (sent w + S i)%nat by (rewrite Hsent2; lia).
      replace (S attempt + i)%nat with (attempt + S i)%nat by lia.
      exact Hfail.
    + eexists _, w'. split; [exact Hrun|]. split; [|split].
      * rewrite Htr, Htr2. rewrite <- !app_assoc. reflexivity.
      * rewrite Hsent, Hsent2. lia.
      * rewrite !schedule_app, schedule_limiter_wait.
        cbn [schedule app failing_schedule].
        rewrite Hsch. reflexivity.
Qed.

(** C4: a request whose every attempt fails at transport level is tried
    exactly [max_retries] times, with a backoff of [2 ^ attempt] seconds
    after every failed attempt but the last, and then raises the error that
    carries the cause of the last failure. *)
Theorem failing_request_exhausts_retries
    (url : string) (params : dict param) (max_retries : nat) (w : world)
    (c : nat -> cause)
    (Hpos : (0 < max_retries)%nat)
    (Hfail : forall i, (i < max_retries)%nat ->
       failure_cause (answer (up (sent w + i)%nat (governed_request url params)))
       = Some (c i)) :
  exists evs w',
    _make_request_with_retry up url params max_retries w
    = (Raise (RequestFailed max_retries (c (max_retries - 1)%nat)), w')
    /\ trace w' = trace w ++ evs
    /\ sent w' = (sent w + max_retries)%nat
    /\ attempts evs = max_retries
    /\ schedule evs = failing_schedule max_retries 0.
Proof.
  destruct (retry_loop_all_fail url params max_retries c max_retries 0%nat w)
    as (evs & w' & Hrun & Htr & Hsent & Hsch); [lia|lia|exact Hfail|].
  exists evs, w'. repeat split; try assumption.
  unfold attempts. rewrite Hsch. apply failing_schedule_attempts.
Qed.

Lemma attempt_rate_limited url params max_retries attempt w :
  is_rate_limited (answer (up (sent w) (governed_request url params))) = true ->
  attempt_body up url params max_retries attempt w =
  (Ret Continue,
   after_sleep RateLimited (seconds (2 ^ Z.of_nat attempt * 5))
     (after_get up (governed_request url params) (after_limiter w))).
Proof.
  intros H.
  unfold attempt_body, except_request, try_except, bind.
  rewrite rate_limit_delay_eq.
  fold (governed_request url params).
  rewrite session_get_eq, sent_after_limiter.
  destruct (answer (up (sent w) (governed_request url params)))
    as [status body | msg]; [|discriminate].
  cbn [is_rate_limited] in H. cbn [fst snd]. rewrite H. reflexivity.
Qed.

Lemma attempt_succeeds url params max_retries attempt w j :
  success_body (answer (up (sent w) (governed_request url params))) = Some j ->
  attempt_body up url params max_retries attempt w =
  (Ret (Return j), after_get up (governed_request url params) (after_limiter w)).
Proof.
  intros H.
  unfold attempt_body, except_request, try_except, bind.
  rewrite rate_limit_delay_eq.
  fold (governed_request url params).
  rewrite session_get_eq, sent_after_limiter.
  destruct (answer (up (sent w) (governed_request url params)))
    as [status body | msg]; [|discriminate].
  cbn [success_body] in H. cbn [fst snd].
  destruct (status =? 429); [discriminate|].
  unfold raise_for_status, response_json; cbn [fst snd].
  destruct ((400 <=? status) && (status <? 600)); [discriminate|].
  cbn [orb] in H. subst body. reflexivity.
Qed.

(** The limiter lets a request out at once when [min_request_interval] has
    gone by since the last governed one. *)
Lemma limiter_idle (w : world) :
  min_request_interval <= clock w - last_request_time w ->
  after_limiter w = mkWorld (clock w) (clock w) (sent w) (trace w).
Proof.
  intros H. unfold after_limiter, slot_time, limiter_wait.
  replace (clock w - last_request_time w <? min_request_interval) with false
    by (symmetry; apply Z.ltb_ge; exact H).
  now rewrite app_nil_r.
Qed.

(** C5: when the upstream answers 429 to the first two attempts and
    succeeds at the third, the response of the third is returned, and the
    only sleeps after the first request are one of 5 seconds after the first
    429 and one of 10 seconds after the second. *)
Theorem two_rate_limits_then_success
    (url : string) (params : dict param) (w : world) (j : pyval)
    (H0 : is_rate_limited
            (answer (up (sent w) (governed_request url params))) = true)
    (H1 : is_rate_limited
            (answer (up (S (sent w)) (governed_request url params))) = true)
    (H2 : success_body
            (answer (up (S (S (sent w))) (governed_request url params))) = Some j) :
  let r := governed_request url params in
  let t0 := slot_time w in
  let t1 := t0 + Z.of_N (latency (up (sent w) r)) + seconds 5 in
  let t2 := t1 + Z.of_N (latency (up (S (sent w)) r)) + seconds 10 in
  exists w',
    _make_request_with_retry up url params default_max_retries w = (Ret j, w')
    /\ trace w' =
       trace w ++ limiter_wait w ++
       [EvGet t0 r; EvSleep RateLimited (seconds 5);
        EvGet t1 r; EvSleep RateLimited (seconds 10);
        EvGet t2 r]
    /\ schedule (limiter_wait w ++
                 [EvGet t0 r; EvSleep RateLimited (seconds 5);
                  EvGet t1 r; EvSleep RateLimited (seconds 10);
                  EvGet t2 r])
       = [Attempt; Slept RateLimited (seconds 5);
          Attempt; Slept RateLimited (seconds 10); Attempt]
    /\ sent w' = (sent w + 3)%nat.
Proof.
  intros r t0 t1 t2.
  unfold _make_request_with_retry, default_max_retries.
  cbn [retry_loop]. unfold bind at 1.
  rewrite (attempt_rate_limited url params 3 0 w H0).
  change (seconds (2 ^ Z.of_nat 0 * 5)) with (seconds 5).
  fold r.
  set (w1 := after_sleep RateLimited (seconds 5) (after_get up r (after_limiter w))).
  assert (Hs1 : sent w1 = S (sent w)) by reflexivity.
  assert (Hc1 : clock w1 = t1) by reflexivity.
  assert (Hl1 : last_request_time w1 = t0) by reflexivity.
  assert (Ht1 : trace w1 = trace w ++ limiter_wait w
                           ++ [EvGet t0 r; EvSleep RateLimited (seconds 5)]).
  { subst w1. unfold_worlds. now rewrite <- !app_assoc. }
  assert (Hidle1 : after_limiter w1 = mkWorld t1 t1 (sent w1) (trace w1)).
  { rewrite limiter_idle; [now rewrite Hc1|].
    rewrite Hc1, Hl1. subst t1.
    unfold min_request_interval, seconds, second. lia. }
  unfold bind at 1.
  rewrite (attempt_rate_limited url params 3 1 w1) by (rewrite Hs1; exact H1).
  change (seconds (2 ^ Z.of_nat 1 * 5)) with (seconds 10).
  fold r. rewrite Hidle1.
  set (w2 := after_sleep RateLimited (seconds 10)
               (after_get up r (mkWorld t1 t1 (sent w1) (trace w1)))).
  assert (Hs2 : sent w2 = S (S (sent w))).
  { subst w2. unfold_worlds. now rewrite Hs1. }
  assert (Hc2 : clock w2 = t2).
  { subst w2 t2. unfold_worlds. now rewrite Hs1. }
  assert (Hl2 : last_request_time w2 = t1) by reflexivity.
  assert (Ht2 : trace w2 = trace w ++ limiter_wait w
                           ++ [EvGet t0 r; EvSleep RateLimited (seconds 5);
                               EvGet t1 r; EvSleep RateLimited (seconds 10)]).
  { subst w2. unfold_worlds. rewrite Ht1, <- !app_assoc. reflexivity. }
  assert (Hidle2 : after_limiter w2 = mkWorld t2 t2 (sent w2) (trace w2)).
  { rewrite limiter_idle; [now rewrite Hc2|].
    rewrite Hc2, Hl2. subst t2.
    unfold min_request_interval, seconds, second. lia. }
  unfold bind at 1.
  rewrite (attempt_succeeds url params 3 2 w2 j) by (rewrite Hs2; exact H2).
  fold r. rewrite Hidle2.
  eexists. split; [reflexivity|]. split; [|split].
  - unfold_worlds. rewrite Ht2, <- !app_assoc. reflexivity.
  - rewrite schedule_app, schedule_limiter_wait. reflexivity.
  - unfold_worlds. rewrite Hs2. lia.
Qed.

End Transport.

Lemma failing_request_exhausts_retries_witness :
  exists evs w',
    _make_request_with_retry Stub.always_down "u" [] 3 Stub.w0
    = (Raise (RequestFailed 3 (ConnectionFailure "connection refused")), w')
    /\ trace w' = trace Stub.w0 ++ evs
    /\ sent w' = (sent Stub.w0 + 3)%nat
    /\ attempts evs = 3%nat
    /\ schedule evs = failing_schedule 3 0.
Proof.
  apply (failing_request_exhausts_retries Stub.always_down "u" [] 3 Stub.w0
           (fun _ => ConnectionFailure "connection refused")).
  - lia.
  - intros i _. reflexivity.
Defined.

Lemma two_rate_limits_then_success_witness :
  exists w',
    _make_request_with_retry (Stub.twice_limited (PStr "done")) "u" [] 3 Stub.w0
    = (Ret (PStr "done"), w')
    /\ schedule (trace w')
       = [Attempt; Slept RateLimited (seconds 5);
          Attempt; Slept RateLimited (seconds 10); Attempt].
Proof.
  destruct (two_rate_limits_then_success (Stub.twice_limited (PStr "done"))
              "u" [] Stub.w0 (PStr "done") eq_refl eq_refl eq_refl)
    as (w' & Hrun & Htr & Hsch & _).
  exists w'. split; [exact Hrun|].
  rewrite Htr. exact Hsch.
Defined.

(** The run of the always-failing stub, event by event: three requests, a
    backoff of one second and one of two seconds between them. *)
Example always_down_trace :
  schedule (trace (snd (_make_request_with_retry Stub.always_down "u" [] 3 Stub.w0)))
  = [Attempt; Slept Backoff (seconds 1); Attempt; Slept Backoff (seconds 2); Attempt].
Proof. vm_compute. reflexivity. Qed.

(** C9: for the empty list of ids, [get_current_prices] returns the empty
    dictionary and leaves the world as it was: nothing is sent and nothing
    sleeps. *)
Theorem no_ids_no_request (up : upstream) (w : world) :
  get_current_prices up [] w = (Ret [], w).
Proof. reflexivity. Qed.

Section Limiter.

Variable up : upstream.
Variable utc_offset : Z.

Lemma slot_time_spaced (w : world) :
  last_request_time w + min_request_interval <= slot_time w.
Proof.
  unfold slot_time.
  destruct (Z.ltb_spec (clock w - last_request_time w) min_request_interval); lia.
Qed.

(** Every pass of the retry loop takes a limiter slot first: its request
    goes out at [slot_time], at least [min_request_interval] after the start
    of the previous governed call, and that moment is recorded as the start
    of this one. *)
Lemma attempt_takes_slot url params max_retries attempt w :
  exists res rest w',
    attempt_body up url params max_retries attempt w = (res, w')
    /\ trace w' = trace w ++ limiter_wait w
                  ++ EvGet (slot_time w) (governed_request url params) :: rest
    /\ last_request_time w' = slot_time w
    /\ last_request_time w + min_request_interval <= slot_time w.
Proof.
  unfold attempt_body, except_request, try_except, bind.
  rewrite rate_limit_delay_eq.
  fold (governed_request url params).
  rewrite session_get_eq, sent_after_limiter.
  destruct (answer (up (sent w) (governed_request url params)))
    as [status body | msg]; cbn [fst snd].
  - destruct (status =? 429).
    + run_monad. eexists _, _, _. split; [reflexivity|].
      unfold_worlds. rewrite <- !app_assoc. cbn [app].
      repeat split. apply slot_time_spaced.
    + unfold raise_for_status, response_json; cbn [fst snd].
      destruct ((400 <=? status) && (status <? 600)); run_monad.
      * destruct (Nat.eqb attempt (max_retries - 1)); run_monad;
          eexists _, _, _; (split; [reflexivity|]);
          unfold_worlds; rewrite <- !app_assoc; cbn [app];
          repeat split; apply slot_time_spaced.
      * destruct body; run_monad.
        -- eexists _, _, _. split; [reflexivity|].
           unfold_worlds. rewrite <- !app_assoc. cbn [app].
           repeat split. apply slot_time_spaced.
        -- destruct (Nat.eqb attempt (max_retries - 1)); run_monad;
             eexists _, _, _; (split; [reflexivity|]);
             unfold_worlds; rewrite <- !app_assoc; cbn [app];
             repeat split; apply slot_time_spaced.
  - run_monad.
    destruct (Nat.eqb attempt (max_retries - 1)); run_monad;
      eexists _, _, _; (split; [reflexivity|]);
      unfold_worlds; rewrite <- !app_assoc; cbn [app];
      repeat split; apply slot_time_spaced.
Qed.

(** The pair history sends its request when it is called, whatever the
    time of the last governed call, and does not record it: the world it
    leaves is the one after the bare [session.get]. *)
Lemma pair_history_sends_at_once base_coin quote_currency days w :
  exists res,
    _get_crypto_pair_history up utc_offset base_coin quote_currency days w
    = (res, after_get up (mkRequest (market_chart_url base_coin)
                            (market_chart_params quote_currency days)
                            (seconds 15)) w).
Proof.
  unfold _get_crypto_pair_history.
  unfold bind at 1. rewrite session_get_eq.
  destruct (answer _) as [status body | msg]; [|eexists; reflexivity].
  unfold raise_for_status, response_json; cbn [fst snd].
  destruct ((400 <=? status) && (status <? 600)); run_monad;
    [eexists; reflexivity|].
  destruct body as [data|]; run_monad; [|eexists; reflexivity].
  destruct (contains data "prices") as [[]|]; run_monad;
    try (eexists; reflexivity).
  destruct (getitem data "prices") as [prices_data|]; run_monad;
    [|eexists; reflexivity].
  destruct (series_timestamps utc_offset prices_data); run_monad;
    [|eexists; reflexivity].
  destruct (series_prices prices_data); run_monad; eexists; reflexivity.
Qed.

(** The coin details likewise. *)
Lemma coin_info_sends_at_once coin_id w :
  exists res,
    get_coin_info up coin_id w
    = (res, after_get up (mkRequest (base_url ++ "/coins/" ++ coin_id)
                            coin_info_params (seconds 10)) w).
Proof.
  unfold get_coin_info, try_except.
  unfold bind at 1. rewrite session_get_eq.
  destruct (answer _) as [status body | msg]; [|eexists; reflexivity].
  unfold raise_for_status, response_json; cbn [fst snd].
  destruct ((400 <=? status) && (status <? 600)); run_monad;
    [eexists; reflexivity|].
  destruct body as [data|]; run_monad; eexists; reflexivity.
Qed.

End Limiter.

(** C7 at a failing input: the client has just started a governed request
    (at noon); the pair history called at that moment sends its own request
    at noon as well, without the 1.1 seconds of the limiter in between and
    without a limiter sleep. *)
Example pair_history_skips_limiter :
  let w' := snd (_get_crypto_pair_history Stub.always_chart 0
                   "ethereum" "btc" 7 Stub.w_busy) in
  last_request_time Stub.w_busy = Stub.noon
  /\ trace w'
     = [EvGet Stub.noon
          (mkRequest (market_chart_url "ethereum")
             (market_chart_params "btc" 7) (seconds 15))]
  /\ Stub.noon - last_request_time Stub.w_busy < min_request_interval.
Proof. vm_compute. repeat split. Qed.

(** The two requests of the fiat pair history go out 0.2 seconds apart, the
    latency of the first, and the coin details right after a governed
    call. *)
Example fiat_history_skips_limiter :
  map (fun e => match e with EvGet t _ => t - Stub.noon | _ => -1 end)
      (trace (snd (_get_fiat_pair_history Stub.always_chart 0 "eur" 7 Stub.w_busy)))
  = [0; 200000].
Proof. vm_compute. reflexivity. Qed.

(** ** The historical series *)

Section Series.

Variable up : upstream.
Variable utc_offset : Z.

Lemma rmap_length {A B} (f : A -> result B) (xs : list A) (ys : list B) :
  rmap f xs = Ret ys -> List.length ys = List.length xs.
Proof.
  revert ys. induction xs as [|x xs IH]; intros ys H; cbn [rmap] in H.
  - now injection H as <-.
  - destruct (f x) as [y|]; cbn [rbind] in H; [|discriminate].
    destruct (rmap f xs) as [ys'|]; cbn [rbind] in H; [|discriminate].
    injection H as <-. cbn [List.length]. f_equal. now apply IH.
Qed.

(** The timestamps and the prices read from one list of points are as many
    as the points. *)
Lemma series_same_length prices_data timestamps prices :
  series_timestamps utc_offset prices_data = Ret timestamps ->
  series_prices prices_data = Ret prices ->
  List.length timestamps = List.length prices.
Proof.
  unfold series_timestamps, series_prices.
  destruct (iter prices_data) as [items|]; cbn [rbind]; [|discriminate].
  intros Ht Hp.
  apply rmap_length in Ht. apply rmap_length in Hp. congruence.
Qed.

Lemma flat_series_paired days w : paired (flat_series utc_offset days w).
Proof.
  unfold flat_series, datetime_now. run_monad.
  destruct (rmap _ _) as [timestamps|]; run_monad; unfold paired; cbn [fst].
  - now rewrite repeat_length.
  - exact I.
Qed.

Lemma series_of_data_paired data w :
  paired
    ((has_prices <- lift (contains data "prices") ;;
      if negb has_prices then raise no_price_data
      else
        prices_data <- lift (getitem data "prices") ;;
        timestamps <- lift (series_timestamps utc_offset prices_data) ;;
        prices <- lift (series_prices prices_data) ;;
        ret (timestamps, prices)) w).
Proof.
  run_monad.
  destruct (contains data "prices") as [[]|]; cbn [negb]; try exact I.
  destruct (getitem data "prices") as [prices_data|]; try exact I.
  destruct (series_timestamps utc_offset prices_data) as [ts|] eqn:Ht; try exact I.
  destruct (series_prices prices_data) as [ps|] eqn:Hp; try exact I.
  unfold paired; cbn [fst]. exact (series_same_length _ _ _ Ht Hp).
Qed.

Lemma get_historical_data_paired coin_id days w :
  paired (get_historical_data up utc_offset coin_id days w).
Proof.
  unfold get_historical_data, try_except.
  unfold bind at 1.
  destruct (_make_request_with_retry _ _ _ _ w) as [[data|e] w1]; [|exact I].
  pose proof (series_of_data_paired data w1) as H.
  unfold paired in *.
  destruct ((has_prices <- lift (contains data "prices") ;; _) w1) as [[[ts ps]|e] w2];
    [exact H|exact I].
Qed.

Lemma crypto_pair_history_paired base_coin quote_currency days w :
  paired (_get_crypto_pair_history up utc_offset base_coin quote_currency days w).
Proof.
  unfold _get_crypto_pair_history.
  unfold bind at 1. rewrite session_get_eq.
  destruct (answer _) as [status body | msg]; [|exact I].
  unfold bind at 1.
  unfold raise_for_status; cbn [fst snd].
  destruct ((400 <=? status) && (status <? 600)); [exact I|].
  unfold ret at 1. unfold bind at 1.
  unfold response_json; cbn [snd].
  destruct body as [data|]; [|exact I].
  unfold ret at 1.
  apply series_of_data_paired.
Qed.

Lemma fiat_pair_series_paired currency days w :
  paired (fiat_pair_series up utc_offset currency days w).
Proof.
  unfold fiat_pair_series.
  unfold bind at 1. rewrite session_get_eq.
  destruct (answer _) as [status body | msg]; [|exact I].
  unfold bind at 1. unfold raise_for_status; cbn [fst snd].
  destruct ((400 <=? status) && (status <? 600)); [exact I|].
  unfold ret at 1. unfold bind at 1. unfold response_json; cbn [snd].
  destruct body as [data|]; [|exact I].
  unfold ret at 1. unfold bind at 1, lift at 1.
  destruct (contains data "prices") as [[]|]; cbn [negb];
    [|apply flat_series_paired|exact I].
  unfold bind at 1, lift at 1.
  destruct (getitem data "prices") as [prices_data|]; [|exact I].
  unfold bind at 1, lift at 1.
  destruct (series_timestamps utc_offset prices_data) as [timestamps|] eqn:Ht;
    [|exact I].
  unfold bind at 1. rewrite session_get_eq.
  destruct (answer _) as [status' body' | msg]; [|exact I].
  unfold bind at 1. unfold raise_for_status; cbn [fst snd].
  destruct ((400 <=? status') && (status' <? 600)); [exact I|].
  unfold ret at 1. unfold bind at 1. unfold response_json; cbn [snd].
  destruct body' as [usd_data|]; [|exact I].
  unfold ret at 1. unfold bind at 1, lift at 1.
  destruct (contains usd_data "prices") as [[]|]; [| |exact I].
  - unfold bind at 1, lift at 1.
    destruct (getitem usd_data "prices") as [usd_prices_data|]; [|exact I].
    unfold bind at 1, lift at 1.
    destruct (series_prices usd_prices_data) as [usd_prices|]; [|exact I].
    unfold bind at 1, lift at 1.
    destruct (series_prices prices_data) as [eur_prices|] eqn:He; [|exact I].
    unfold bind at 1, lift at 1.
    destruct (rmap _ _) as [eur_usd_rates|] eqn:Hr; [|exact I].
    unfold ret, paired; cbn [fst].
    apply rmap_length in Hr. rewrite length_seq in Hr.
    pose proof (series_same_length _ _ _ Ht He) as Hlen.
    rewrite length_firstn. lia.
  - cbv zeta. unfold ret, paired; cbn [fst]. now rewrite repeat_length.
Qed.

Lemma fiat_pair_history_paired currency days w :
  paired (_get_fiat_pair_history up utc_offset currency days w).
Proof.
  unfold _get_fiat_pair_history, try_except.
  pose proof (fiat_pair_series_paired currency days w) as H.
  destruct (fiat_pair_series up utc_offset currency days w) as [[series|e] w'].
  - exact H.
  - apply flat_series_paired.
Qed.

(** C10: whenever one of the three historical-series operations returns,
    its list of timestamps and its list of prices have the same length. *)
Theorem series_are_paired (subject currency quote_currency : string)
    (days : Z) (w : world) :
  paired (get_historical_data up utc_offset subject days w)
  /\ paired (_get_crypto_pair_history up utc_offset subject quote_currency days w)
  /\ paired (_get_fiat_pair_history up utc_offset currency days w).
Proof.
  split; [|split].
  - apply get_historical_data_paired.
  - apply crypto_pair_history_paired.
  - apply fiat_pair_history_paired.
Qed.

End Series.

(** The three operations on an upstream that serves a chart of three
    points, and the fiat pair on an upstream that is down: each returns as
    many timestamps as prices. *)
Example series_lengths :
  let lengths r :=
    match fst r with
    | Ret (ts, ps) => Some (List.length ts, List.length ps)
    | Raise _ => None
    end in
  lengths (get_historical_data Stub.always_chart 0 "bitcoin" 7 Stub.w0)
  = Some (3, 3)%nat
  /\ lengths (_get_crypto_pair_history Stub.always_chart 0 "ethereum" "btc" 7 Stub.w0)
     = Some (3, 3)%nat
  /\ lengths (_get_fiat_pair_history Stub.always_chart 0 "eur" 7 Stub.w0)
     = Some (3, 3)%nat
  /\ lengths (_get_fiat_pair_history Stub.always_down 0 "eur" 7 Stub.w0)
     = Some (168, 168)%nat.
Proof. vm_compute. repeat split. Qed.

(** ** The trading pairs *)

Lemma positive_is_nonzero (x : float) :
  PrimFloat.ltb 0 x = true -> PrimFloat.eqb x 0 = false.
Proof.
  rewrite ltb_spec, eqb_spec.
  change (Prim2SF 0) with (S754_zero false).
  destruct (Prim2SF x) as [s|s| |s m e]; cbn; try discriminate.
  - destruct s; [discriminate|reflexivity].
  - destruct s; [discriminate|reflexivity].
Qed.

Lemma dict_get_set {V} (d : dict V) (k k' : string) (v : V) :
  dict_get (dict_set d k v) k'
  = if String.eqb k' k then Some v else dict_get d k'.
Proof.
  induction d as [|[k0 v0] d IH]; cbn [dict_set dict_get].
  - reflexivity.
  - destruct (String.eqb_spec k k0) as [->|Hk]; cbn [dict_get].
    + destruct (String.eqb k' k0); reflexivity.
    + rewrite IH.
      destruct (String.eqb_spec k' k0) as [->|Hk'].
      * destruct (String.eqb_spec k0 k) as [->|_]; [contradiction|reflexivity].
      * reflexivity.
Qed.

(** With two positive quotes, the two crypto pairs are the two direct
    ratios, and their changes the two differences. *)
Lemma crypto_pairs_positive (btc_usd btc_change eth_usd eth_change : float) :
  PrimFloat.ltb 0 btc_usd = true ->
  PrimFloat.ltb 0 eth_usd = true ->
  crypto_pairs (simple_price_body btc_usd btc_change eth_usd eth_change)
  = Ret [("ETH/BTC",
          pair_entry (PNum (eth_usd / btc_usd)) (PNum (eth_change - btc_change))
            "Ethereum" "Bitcoin");
         ("BTC/ETH",
          pair_entry (PNum (btc_usd / eth_usd)) (PNum (btc_change - eth_change))
            "Bitcoin" "Ethereum")].
Proof.
  intros Hb He.
  pose proof (positive_is_nonzero _ Hb) as Hb0.
  pose proof (positive_is_nonzero _ He) as He0.
  unfold crypto_pairs, simple_price_body.
  cbn [contains getitem get and_then rbind dict_mem dict_get String.eqb Ascii.eqb
       Bool.eqb gt0 as_number truediv sub dict_set].
  rewrite Hb. cbn [rbind]. rewrite He. cbn [rbind].
  rewrite Hb0, He0. reflexivity.
Qed.

(** What the inner [try] block leaves of the pairs it is given: the same
    dictionary, or that dictionary with an entry for EUR/USD. *)
Lemma exchange_pairs_shape exchange_data trading_pairs pairs :
  exchange_pairs exchange_data trading_pairs = Ret pairs ->
  pairs = trading_pairs
  \/ exists entry, pairs = dict_set trading_pairs "EUR/USD" entry.
Proof.
  unfold exchange_pairs, and_then.
  destruct (contains exchange_data "rates") as [[]|]; cbn [rbind];
    [| intros [= <-]; right; eexists; reflexivity | discriminate].
  destruct (getitem exchange_data "rates") as [rates|]; cbn [rbind];
    [|discriminate].
  destruct (contains rates "eur") as [[]|]; cbn [rbind];
    [| intros [= <-]; right; eexists; reflexivity | discriminate].
  destruct (getitem rates "eur") as [eur|]; cbn [rbind]; [|discriminate].
  destruct (getitem eur "value") as [usd_eur_rate|]; cbn [rbind]; [|discriminate].
  destruct (gt0 usd_eur_rate) as [[]|]; cbn [rbind];
    [| intros [= <-]; left; reflexivity | discriminate].
  destruct (truediv (PNum 1) usd_eur_rate); cbn [rbind]; [|discriminate].
  intros [= <-]. right. eexists. reflexivity.
Qed.

Section Pairs.

Variable up : upstream.

(** The EUR/USD part never raises, and it leaves the other pairs alone. *)
Lemma exchange_leg_returns trading_pairs w :
  exists pairs w',
    exchange_leg up trading_pairs w = (Ret pairs, w')
    /\ (pairs = trading_pairs
        \/ exists entry, pairs = dict_set trading_pairs "EUR/USD" entry).
Proof.
  unfold exchange_leg, try_except. unfold bind at 1.
  destruct (_make_request_with_retry up exchange_url [] default_max_retries w)
    as [[exchange_data|e] w1].
  - unfold lift.
    destruct (exchange_pairs exchange_data trading_pairs) as [pairs|e] eqn:E.
    + exists pairs, w1. split; [reflexivity|].
      exact (exchange_pairs_shape _ _ _ E).
    + eexists _, w1. split; [reflexivity|]. right. eexists. reflexivity.
  - eexists _, w1. split; [reflexivity|]. right. eexists. reflexivity.
Qed.

(** When the request for the exchange rates fails, the fallback entry is
    there. *)
Lemma exchange_leg_falls_back trading_pairs w e w1 :
  _make_request_with_retry up exchange_url [] default_max_retries w = (Raise e, w1) ->
  exchange_leg up trading_pairs w
  = (Ret (dict_set trading_pairs "EUR/USD" eur_usd_fallback), w1).
Proof.
  intros H. unfold exchange_leg, try_except. unfold bind at 1.
  rewrite H. reflexivity.
Qed.

(** When the rate that arrives is a number that is not positive, no entry
    for EUR/USD is made at all. *)
Lemma exchange_leg_drops_pair trading_pairs w (rate : float) w1 :
  _make_request_with_retry up exchange_url [] default_max_retries w
  = (Ret (exchange_rates_body (PNum rate)), w1) ->
  PrimFloat.ltb 0 rate = false ->
  exchange_leg up trading_pairs w = (Ret trading_pairs, w1).
Proof.
  intros H Hrate. unfold exchange_leg, try_except. unfold bind at 1.
  rewrite H. unfold lift, exchange_pairs, exchange_rates_body.
  cbn [contains getitem and_then rbind dict_mem dict_get String.eqb Ascii.eqb
       Bool.eqb gt0 as_number].
  rewrite Hrate. reflexivity.
Qed.

(** C8, as the code has it: when the request for the two quotes returns two
    positive prices, the result maps ETH/BTC to the ETH price divided by the
    BTC price and BTC/ETH to the BTC price divided by the ETH price, each a
    float division of its own, and the change of each pair is the difference
    of the two 24h changes; prices of 100 and 50 give 0.5 and 2. *)
Theorem pair_rates_are_direct_ratios
    (w w1 : world) (btc_usd btc_change eth_usd eth_change : float)
    (Hleg : _make_request_with_retry up crypto_url crypto_params
              default_max_retries w
            = (Ret (simple_price_body btc_usd btc_change eth_usd eth_change), w1))
    (Hbtc : PrimFloat.ltb 0 btc_usd = true)
    (Heth : PrimFloat.ltb 0 eth_usd = true) :
  (exists pairs w2,
     get_trading_pairs up w = (Ret pairs, w2)
     /\ dict_get pairs "ETH/BTC"
        = Some (pair_entry (PNum (eth_usd / btc_usd))
                  (PNum (eth_change - btc_change)) "Ethereum" "Bitcoin")
     /\ dict_get pairs "BTC/ETH"
        = Some (pair_entry (PNum (btc_usd / eth_usd))
                  (PNum (btc_change - eth_change)) "Bitcoin" "Ethereum"))
  /\ crypto_pairs (simple_price_body 100 btc_change 50 eth_change)
     = Ret [("ETH/BTC",
             pair_entry (PNum 0.5) (PNum (eth_change - btc_change))
               "Ethereum" "Bitcoin");
            ("BTC/ETH",
             pair_entry (PNum 2) (PNum (btc_change - eth_change))
               "Bitcoin" "Ethereum")].
Proof.
  split; [|now apply crypto_pairs_positive].
  unfold get_trading_pairs, try_except. unfold bind at 1. rewrite Hleg.
  unfold bind at 1, lift at 1.
  rewrite (crypto_pairs_positive _ _ _ _ Hbtc Heth).
  destruct (exchange_leg_returns
              [("ETH/BTC",
                pair_entry (PNum (eth_usd / btc_usd))
                  (PNum (eth_change - btc_change)) "Ethereum" "Bitcoin");
               ("BTC/ETH",
                pair_entry (PNum (btc_usd / eth_usd))
                  (PNum (btc_change - eth_change)) "Bitcoin" "Ethereum")] w1)
    as (pairs & w2 & Hrun & Hshape).
  rewrite Hrun. exists pairs, w2. split; [reflexivity|].
  destruct Hshape as [->|[entry ->]].
  - split; reflexivity.
  - rewrite !dict_get_set. split; reflexivity.
Qed.

End Pairs.

Lemma pair_rates_are_direct_ratios_witness :
  (exists pairs w2,
     get_trading_pairs
       (Stub.quotes_then (Stub.ok (simple_price_body 100 1.5 50 2.5))
          (Stub.ok (exchange_rates_body (PNum 0.9)))) Stub.w0
     = (Ret pairs, w2)
     /\ dict_get pairs "ETH/BTC"
        = Some (pair_entry (PNum (50 / 100)) (PNum (2.5 - 1.5))
                  "Ethereum" "Bitcoin")
     /\ dict_get pairs "BTC/ETH"
        = Some (pair_entry (PNum (100 / 50)) (PNum (1.5 - 2.5))
                  "Bitcoin" "Ethereum"))
  /\ crypto_pairs (simple_price_body 100 1.5 50 2.5)
     = Ret [("ETH/BTC",
             pair_entry (PNum 0.5) (PNum (2.5 - 1.5)) "Ethereum" "Bitcoin");
            ("BTC/ETH",
             pair_entry (PNum 2) (PNum (1.5 - 2.5)) "Bitcoin" "Ethereum")].
Proof.
  eapply (pair_rates_are_direct_ratios
            (Stub.quotes_then (Stub.ok (simple_price_body 100 1.5 50 2.5))
               (Stub.ok (exchange_rates_body (PNum 0.9))))
            Stub.w0 _ 100 1.5 50 2.5).
  - vm_compute. reflexivity.
  - reflexivity.
  - reflexivity.
Defined.

(** C8 as stated fails: with a BTC price of 49000 and an ETH price of 1000
    the price of BTC/ETH, 49, is not the reciprocal of the price of ETH/BTC,
    which is 49.000000000000007. *)
Lemma reciprocal_is_not_exact :
  exists pairs w' eth_btc btc_eth,
    get_trading_pairs
      (Stub.quotes_then (Stub.ok (simple_price_body 49000 1.5 1000 2.5))
         (Stub.ok (exchange_rates_body (PNum 0.9)))) Stub.w0
    = (Ret pairs, w')
    /\ price_of pairs "ETH/BTC" = Some eth_btc
    /\ price_of pairs "BTC/ETH" = Some btc_eth
    /\ PrimFloat.eqb btc_eth (1 / eth_btc) = false.
Proof.
  eexists _, _, _, _. vm_compute. repeat split.
Qed.

(** C2 at a failing input: the two quotes arrive, and the exchange rates
    arrive with a rate of zero for the euro; the result has the two crypto
    pairs and no entry for EUR/USD. *)
Example zero_rate_loses_eur_usd :
  exists pairs w',
    get_trading_pairs
      (Stub.quotes_then (Stub.ok (simple_price_body 67000 1.5 3500 2.5))
         (Stub.ok (exchange_rates_body (PNum 0)))) Stub.w0
    = (Ret pairs, w')
    /\ map fst pairs = ["ETH/BTC"; "BTC/ETH"]
    /\ dict_get pairs "EUR/USD" = None.
Proof.
  eexists _, _. vm_compute. repeat split.
Qed.

(** The same run with the upstream down for the exchange rates: there the
    fallback entry is made. *)
Example request_failure_keeps_eur_usd :
  exists pairs w',
    get_trading_pairs
      (Stub.quotes_then (Stub.ok (simple_price_body 67000 1.5 3500 2.5))
         Stub.down) Stub.w0
    = (Ret pairs, w')
    /\ dict_get pairs "EUR/USD"
       = Some (pair_entry (PNum 1.08) (PNum 0) "Euro" "US Dollar").
Proof.
  eexists _, _. vm_compute. repeat split.
Qed.

(** ** The cache store *)

Import DatabaseManager.

Section Latest.

Context {A : Type} (key : A -> Z).

Lemma first_insert_desc (r : A) (sorted : list A) :
  first (insert_desc key r sorted)
  = Some (match first sorted with
          | None => r
          | Some x => if key x <=? key r then r else x
          end).
Proof.
  destruct sorted as [|x xs]; cbn [insert_desc first hd_error]; [reflexivity|].
  destruct (key x <=? key r); reflexivity.
Qed.

(** The first row of the descending order is a row of the table with the
    greatest key, and there is one unless the table is empty. *)
Lemma first_order_by_desc (rows : list A) :
  match first (order_by_desc key rows) with
  | None => rows = []
  | Some r => In r rows /\ forall r', In r' rows -> key r' <= key r
  end.
Proof.
  induction rows as [|r rows IH]; [reflexivity|].
  unfold order_by_desc in *. cbn [fold_right].
  rewrite first_insert_desc.
  destruct (first (fold_right (insert_desc key) [] rows)) as [x|].
  - destruct IH as [Hin Hmax].
    destruct (Z.leb_spec (key x) (key r)) as [Hle|Hlt].
    + split; [now left|].
      intros r' [<-|Hr']; [lia|]. specialize (Hmax r' Hr'). lia.
    + split; [now right|].
      intros r' [<-|Hr']; [lia|]. now apply Hmax.
  - subst rows. split; [now left|].
    intros r' [<-|[]]. lia.
Qed.

End Latest.

(** The latest row of a coin is a row of that coin, and no row of that coin
    has a later timestamp. *)
Lemma latest_coin_price_some rows id r :
  latest_coin_price rows id = Some r ->
  In r rows /\ coin_id r = id
  /\ forall r', In r' rows -> coin_id r' = id -> timestamp r' <= timestamp r.
Proof.
  unfold latest_coin_price. intros H.
  pose proof (first_order_by_desc timestamp
                (filter (fun r => String.eqb (coin_id r) id) rows)) as Hf.
  rewrite H in Hf. destruct Hf as [Hin Hmax].
  apply filter_In in Hin. destruct Hin as [Hin Hid].
  apply String.eqb_eq in Hid.
  split; [exact Hin|]. split; [exact Hid|].
  intros r' Hr' Hid'. apply Hmax. apply filter_In.
  split; [exact Hr'|]. now apply String.eqb_eq.
Qed.

(** A coin has no latest row only when it has no row. *)
Lemma latest_coin_price_none rows id :
  latest_coin_price rows id = None ->
  forall r, In r rows -> coin_id r <> id.
Proof.
  unfold latest_coin_price. intros H r Hr Hid.
  pose proof (first_order_by_desc timestamp
                (filter (fun r => String.eqb (coin_id r) id) rows)) as Hf.
  rewrite H in Hf.
  assert (Hin : In r (filter (fun r => String.eqb (coin_id r) id) rows)).
  { apply filter_In. split; [exact Hr|]. now apply String.eqb_eq. }
  rewrite Hf in Hin. exact Hin.
Qed.

Lemma latest_loop_get rows coin_ids latest_prices k :
  dict_get (latest_coin_prices_loop rows coin_ids latest_prices) k
  = if existsb (String.eqb k) coin_ids
    then match latest_coin_price rows k with
         | Some latest => Some (coin_price_dict latest)
         | None => dict_get latest_prices k
         end
    else dict_get latest_prices k.
Proof.
  revert latest_prices.
  induction coin_ids as [|id coin_ids IH]; intros latest_prices;
    cbn [latest_coin_prices_loop existsb]; [reflexivity|].
  rewrite IH.
  destruct (String.eqb_spec k id) as [->|Hk]; cbn [orb].
  - destruct (latest_coin_price rows id) as [latest|].
    + rewrite dict_get_set, String.eqb_refl.
      destruct (existsb (String.eqb id) coin_ids); reflexivity.
    + destruct (existsb (String.eqb id) coin_ids); reflexivity.
  - destruct (latest_coin_price rows id) as [latest|]; [|reflexivity].
    rewrite dict_get_set.
    destruct (String.eqb_spec k id) as [->|_]; [contradiction|reflexivity].
Qed.

(** The latest read of the spot quotes: a requested coin with rows is
    mapped to its row of the greatest timestamp, and any other key is
    absent. *)
Lemma get_latest_coin_prices_spec coin_ids st k :
  dict_get (get_latest_coin_prices coin_ids st) k
  = if existsb (String.eqb k) coin_ids
    then option_map coin_price_dict (latest_coin_price (coin_prices st) k)
    else None.
Proof.
  unfold get_latest_coin_prices. rewrite latest_loop_get.
  destruct (existsb (String.eqb k) coin_ids); [|reflexivity].
  destruct (latest_coin_price (coin_prices st) k); reflexivity.
Qed.

(** C6 at a failing input: the table of pairs holds two rows of ETH/BTC,
    and the one that the unordered query returns last is the older; the
    latest read of the pairs answers with that older row. *)
Example latest_pair_is_not_latest :
  let rows := trading_pairs Stub.st_pairs_out_of_order in
  map (fun r => (price r, pair_timestamp r - Stub.noon)) rows
  = [(PNum 0.052, - timedelta_minutes 1); (PNum 0.05, - timedelta_hours 1)]
  /\ get_latest_trading_pairs Stub.st_pairs_out_of_order
     = [("ETH/BTC", trading_pair_dict (Stub.pair_row "ETH/BTC" 0.05
                                         (Stub.noon - timedelta_hours 1)))]
  /\ Observe.price_of (get_latest_trading_pairs Stub.st_pairs_out_of_order)
       "ETH/BTC" = Some 0.05%float.
Proof. vm_compute. repeat split. Qed.

(** With the same two rows as rows of [coin_prices], the latest read of the
    spot quotes answers with the newer one. *)
Example latest_coin_is_latest :
  get_latest_coin_prices ["bitcoin"]
    (mkStore [Stub.row "bitcoin" 67000 (Stub.noon - timedelta_minutes 1);
              Stub.row "bitcoin" 66000 (Stub.noon - timedelta_hours 1)] [] [] [])
  = [("bitcoin", coin_price_dict
                   (Stub.row "bitcoin" 67000 (Stub.noon - timedelta_minutes 1)))].
Proof. vm_compute. reflexivity. Qed.

(** The day of the month is at least 1. *)
Lemma day_of_month_positive (t : Z) : 1 <= day_of_month t.
Proof.
  unfold day_of_month, date_of, civil_from_days. cbv beta iota zeta.
  match goal with
  | |- 1 <= ?doy - (153 * ((5 * ?doy + 2) / 153) + 2) / 5 + 1 =>
      generalize doy; intros n
  end.
  pose proof (Z.mul_div_le (5 * n + 2) 153 ltac:(lia)) as H.
  assert (H' : (153 * ((5 * n + 2) / 153) + 2) / 5 < n + 1)
    by (apply Z.div_lt_upper_bound; lia).
  lia.
Qed.

(** A cutoff of [days] days on a day of the month that is not after
    [days]: the day asked of [replace] is 0 or negative, which is a
    [ValueError] as long as it fits a C [int] and an [OverflowError]
    beyond. *)
Lemma cutoff_raises (utcnow days : Z) :
  day_of_month utcnow <= days ->
  cutoff utcnow days
  = Raise (if c_int_min <=? day_of_month utcnow - days
           then ValueError "day is out of range for month"
           else OverflowError).
Proof.
  intros Hd. unfold cutoff, replace_day, fits_c_int.
  destruct (Z.leb_spec c_int_min (day_of_month utcnow - days)) as [Hmin|Hmin];
    [|reflexivity].
  replace (day_of_month utcnow - days <=? c_int_max) with true
    by (symmetry; apply Z.leb_le; unfold c_int_max; lia).
  cbn [andb negb].
  destruct (date_of utcnow) as [[y m] d].
  replace (1 <=? day_of_month utcnow - days) with false
    by (symmetry; apply Z.leb_gt; lia).
  reflexivity.
Qed.

(** On any day of the month but the 31st, the cutoff date of a cleanup of
    30 days does not exist: the cleanup raises and deletes nothing. *)
Lemma cleanup_raises_before_the_31st (utcnow : Z) (st : store) :
  day_of_month utcnow <= 30 ->
  cleanup_old_data utcnow default_days st
  = (Raise (ValueError "day is out of range for month"), st).
Proof.
  intros Hd. unfold cleanup_old_data, default_days.
  rewrite (cutoff_raises _ _ Hd).
  pose proof (day_of_month_positive utcnow) as Hpos.
  replace (c_int_min <=? day_of_month utcnow - 30) with true
    by (symmetry; apply Z.leb_le; unfold c_int_min; lia).
  reflexivity.
Qed.

(** C3 at a failing input: at noon on 2024-06-15 the store holds a quote of
    2024-01-01, more than 30 days old; the cleanup of 30 days raises a
    [ValueError] and the quote is still there. *)
Example cleanup_deletes_nothing :
  cleanup_old_data Stub.noon default_days Stub.st_old_and_new
  = (Raise (ValueError "day is out of range for month"), Stub.st_old_and_new)
  /\ exists r, In r (coin_prices Stub.st_old_and_new)
               /\ timestamp r < Stub.noon - timedelta_days 30.
Proof.
  split; [vm_compute; reflexivity|].
  exists (Stub.row "bitcoin" 42000 (make 2024 1 1 0 0 0)).
  split; [now left|]. vm_compute. reflexivity.
Qed.

(** On a 31st the cutoff is the 1st of the month, 30 days earlier, and the
    cleanup deletes the older rows and keeps the others. *)
Example cleanup_on_the_31st :
  let utcnow := make 2024 1 31 12 0 0 in
  let old := Stub.row "bitcoin" 42000 (make 2023 12 25 0 0 0) in
  let recent := Stub.row "bitcoin" 43000 (make 2024 1 20 0 0 0) in
  cutoff utcnow default_days = Ret (utcnow - timedelta_days 30)
  /\ cleanup_old_data utcnow default_days (mkStore [old; recent] [] [] [])
     = (Ret tt, mkStore [recent] [] [] []).
Proof. vm_compute. repeat split. Qed.

(** ** What the retrying transport does to the world *)

Import Shape.

Lemma outcome_cases (o : outcome) :
  is_rate_limited o = true
  \/ (exists c, failure_cause o = Some c)
  \/ (exists j, success_body o = Some j).
Proof.
  destruct o as [status body|msg]; cbn [is_rate_limited failure_cause success_body].
  - destruct (status =? 429); [now left|right]. cbn [orb].
    destruct ((400 <=? status) && (status <? 600)); [left; eauto|].
    destruct body; [right|left]; eauto.
  - right. left. eauto.
Qed.

Lemma attempts_app (a b : list event) :
  attempts (a ++ b) = (attempts a + attempts b)%nat.
Proof.
  unfold attempts. now rewrite schedule_app, filter_app, length_app.
Qed.

Lemma attempts_limiter_wait (w : world) : attempts (limiter_wait w) = 0%nat.
Proof. unfold attempts. now rewrite schedule_limiter_wait. Qed.

Lemma well_spaced_limiter_wait (w : world) (last : Z) (evs : list event) :
  well_spaced last (limiter_wait w ++ evs) <-> well_spaced last evs.
Proof.
  unfold limiter_wait.
  destruct (clock w - last_request_time w <? min_request_interval); reflexivity.
Qed.

Section RetryRuns.

Variable up : upstream.
Variables (url : string) (params : dict param) (max_retries : nat).

Let r := governed_request url params.

(** A pass that ends the loop. *)
Lemma retry_run_stop remaining w res :
  match res with
  | Ret _ => True
  | Raise e => retry_error max_retries e
  end ->
  retry_run max_retries (S remaining) w (res, after_get up r (after_limiter w)).
Proof.
  intros Hres. exists (limiter_wait w ++ [EvGet (slot_time w) r]).
  cbn [fst snd]. unfold_worlds.
  split; [now rewrite <- app_assoc|].
  assert (Hatt : attempts (limiter_wait w ++ [EvGet (slot_time w) r]) = 1%nat).
  { now rewrite attempts_app, attempts_limiter_wait. }
  split; [rewrite Hatt; lia|].
  split; [rewrite Hatt; lia|].
  split; [|exact Hres].
  apply well_spaced_limiter_wait. cbn [well_spaced].
  split; [apply slot_time_spaced|exact I].
Qed.

(** A pass that sleeps and goes on. *)
Lemma retry_run_continue remaining w site d out :
  site <> Limiter ->
  retry_run max_retries remaining
    (after_sleep site d (after_get up r (after_limiter w))) out ->
  retry_run max_retries (S remaining) w out.
Proof.
  intros Hsite (evs & Htr & Hsent & Hle & Hsp & Hres).
  exists (limiter_wait w ++ [EvGet (slot_time w) r; EvSleep site d] ++ evs).
  revert Htr Hsent Hsp. unfold_worlds. intros Htr Hsent Hsp.
  assert (Hatt : attempts (limiter_wait w ++ [EvGet (slot_time w) r; EvSleep site d] ++ evs)
                 = S (attempts evs)).
  { rewrite !attempts_app, attempts_limiter_wait.
    destruct site; [contradiction| |]; reflexivity. }
  split; [rewrite Htr, <- !app_assoc; reflexivity|].
  split; [rewrite Hsent, Hatt; lia|].
  split; [rewrite Hatt; lia|].
  split; [|exact Hres].
  apply well_spaced_limiter_wait. cbn [well_spaced app].
  split; [apply slot_time_spaced|].
  destruct site; exact Hsp.
Qed.

Lemma retry_loop_run :
  forall remaining attempt w,
    retry_run max_retries remaining w
      (retry_loop up url params max_retries remaining attempt w).
Proof.
  induction remaining as [|remaining IH]; intros attempt w.
  - exists []. cbn [retry_loop]. unfold raise; cbn [fst snd].
    rewrite app_nil_r. repeat split; try reflexivity.
    + unfold attempts; cbn [schedule filter List.length]. lia.
    + now left.
  - cbn [retry_loop]. unfold bind at 1.
    destruct (outcome_cases (answer (up (sent w) (governed_request url params))))
      as [H429|[[c Hc]|[j Hj]]].
    + rewrite (attempt_rate_limited up url params max_retries attempt w H429).
      cbv beta iota.
      eapply (retry_run_continue remaining w RateLimited); [discriminate|].
      apply IH.
    + rewrite (attempt_fails up url params max_retries attempt w c Hc). cbv zeta.
      destruct (Nat.eqb attempt (max_retries - 1)); cbv beta iota.
      * apply retry_run_stop. right. now exists c.
      * eapply (retry_run_continue remaining w Backoff); [discriminate|].
        apply IH.
    + rewrite (attempt_succeeds up url params max_retries attempt w j Hj).
      cbv beta iota. unfold ret. apply (retry_run_stop remaining w (Ret j)). exact I.
Qed.

End RetryRuns.




(** ** The loader of the current prices *)

Import App.

Lemma in_dict_set {V} (d : dict V) (k k' : string) (v v' : V) :
  In (k', v') (dict_set d k v) -> (k', v') = (k, v) \/ In (k', v') d.
Proof.
  induction d as [|[k0 v0] d IH]; cbn [dict_set].
  - intros [H|[]]. left. now symmetry.
  - destruct (String.eqb_spec k k0) as [->|Hk].
    + intros [H|H]; [left; now symmetry|right; now right].
    + intros [H|H]; [right; now left|].
      destruct (IH H) as [H'|H']; [now left|right; now right].
Qed.

(** Every entry of the cached prices is the dictionary of a row of the
    store. *)
Lemma latest_loop_entries rows coin_ids latest_prices k d :
  In (k, d) (latest_coin_prices_loop rows coin_ids latest_prices) ->
  In (k, d) latest_prices
  \/ exists r, In r rows /\ coin_id r = k /\ d = coin_price_dict r.
Proof.
  revert latest_prices.
  induction coin_ids as [|id coin_ids IH]; intros latest_prices;
    cbn [latest_coin_prices_loop]; [now left|].
  intros H. apply IH in H. destruct H as [H|H]; [|now right].
  destruct (latest_coin_price rows id) as [latest|] eqn:E; [|now left].
  apply in_dict_set in H. destruct H as [[= -> ->]|H]; [|now left].
  right. exists latest.
  destruct (latest_coin_price_some _ _ _ E) as (Hin & Hid & _). auto.
Qed.

Lemma cached_entries coin_ids st k d :
  In (k, d) (get_latest_coin_prices coin_ids st) ->
  exists r, In r (coin_prices st) /\ coin_id r = k /\ d = coin_price_dict r.
Proof.
  unfold get_latest_coin_prices. intros H.
  apply latest_loop_entries in H. destruct H as [[]|H]. exact H.
Qed.

Section Loader.

Variable up : upstream.
Variable utc_offset : Z.
Variable engine_store : Z -> vdict -> store -> result unit * store.

Lemma observed_at_row r : observed_at (coin_price_dict r) = Some (timestamp r).
Proof. reflexivity. Qed.

(** The test of the loop on the dictionary of a row. *)
Lemma is_recent_row now r :
  is_recent utc_offset now (coin_price_dict r)
  = Ret (now - timestamp r <? freshness_window).
Proof. reflexivity. Qed.





(** Without the database the loader goes to the API with the whole list. *)
Lemma loader_without_cache coin_ids s w :
  use_database s = false \/ db s = None ->
  load_current_prices up utc_offset engine_store coin_ids s w
  = fetch_fresh_prices up engine_store coin_ids s w.
Proof.
  intros H. unfold load_current_prices, cached_prices_if_recent.
  destruct H as [-> | ->]; [reflexivity|].
  destruct (use_database s); reflexivity.
Qed.



End Loader.



(** Two fresh rows for the two requested ids are served from the cache; and
    so are a fresh row and a row one hour old, the stale one included. *)
Example fresh_rows_are_served :
  let ids := ["bitcoin"; "ethereum"] in
  let s := mkSession true (Some Stub.st_all_fresh) in
  load_current_prices Stub.always_down 0 Stub.strict_engine ids s Stub.w0
  = (keyed (get_latest_coin_prices ids Stub.st_all_fresh), s, Stub.w0).
Proof. vm_compute. reflexivity. Qed.

Example stale_row_is_served :
  let ids := ["ethereum"; "bitcoin"] in
  let s := mkSession true (Some Stub.st_one_stale) in
  load_current_prices Stub.always_down 0 Stub.strict_engine ids s Stub.w0
  = (keyed (get_latest_coin_prices ids Stub.st_one_stale), s, Stub.w0)
  /\ option_map observed_at
       (dict_get (get_latest_coin_prices ids Stub.st_one_stale) "ethereum")
     = Some (Some (Stub.noon - timedelta_hours 1)).
Proof. vm_compute. repeat split. Qed.

(** With two rows an hour old the loader asks the API for both ids in one
    request, returns what it answers and stores it. *)
Example stale_rows_are_refetched :
  let ids := ["bitcoin"; "ethereum"] in
  let s := mkSession true (Some Stub.st_all_stale) in
  let '(prices, s', w') :=
    load_current_prices Stub.always_markets 0 Stub.strict_engine ids s Stub.w0 in
  map (fun e => match e with
                | EvGet _ r => dict_get (params r) "ids"
                | _ => None
                end) (trace w')
  = [Some (QStr "bitcoin,ethereum")]
  /\ map fst prices = [PStr "bitcoin"; PStr "ethereum"]
  /\ option_map (fun st => List.length (coin_prices st)) (db s') = Some 4%nat.
Proof. vm_compute. repeat split. Qed.

(** In a time zone five hours behind UTC a row stored four hours ago has a
    negative age and is served from the cache. *)
Example old_row_is_served_behind_utc :
  let ids := ["bitcoin"] in
  let st := mkStore [Stub.row "bitcoin" 67000 (Stub.noon - timedelta_hours 4)]
              [] [] [] in
  let s := mkSession true (Some st) in
  load_current_prices Stub.always_down (- timedelta_hours 5) Stub.strict_engine
    ids s Stub.w0
  = (keyed (get_latest_coin_prices ids st), s, Stub.w0).
Proof. vm_compute. reflexivity. Qed.

(** * Further properties *)

(** ** The retrying transport *)

(** Whatever the upstream answers, [_make_request_with_retry] sends at most
    [max_retries] requests, and it ends with a body or with one of its own
    two exceptions: no [RequestException] comes out of it. *)
Theorem retry_sends_at_most_max_retries
    (up : upstream) (url : string) (params : dict param) (max_retries : nat)
    (w : world) :
  let out := _make_request_with_retry up url params max_retries w in
  exists evs,
    trace (snd out) = trace w ++ evs
    /\ sent (snd out) = (sent w + attempts evs)%nat
    /\ (attempts evs <= max_retries)%nat
    /\ match fst out with
       | Ret _ => True
       | Raise e =>
           e = MaxRetriesExceeded \/ exists c, e = RequestFailed max_retries c
       end.
Proof.
  cbv zeta.
  destruct (retry_loop_run up url params max_retries max_retries 0%nat w)
    as (evs & Htr & Hsent & Hle & _ & Hres).
  exists evs. repeat split; assumption.
Qed.

(** Whatever the upstream answers, every request that
    [_make_request_with_retry] sends goes out at least 1.1 seconds after the
    one before it, and the first at least 1.1 seconds after the start of
    the last governed request before the call. *)
Theorem governed_requests_are_spaced
    (up : upstream) (url : string) (params : dict param) (max_retries : nat)
    (w : world) :
  let out := _make_request_with_retry up url params max_retries w in
  exists evs,
    trace (snd out) = trace w ++ evs
    /\ well_spaced (last_request_time w) evs.
Proof.
  cbv zeta.
  destruct (retry_loop_run up url params max_retries max_retries 0%nat w)
    as (evs & Htr & _ & _ & Hsp & _).
  exists evs. split; assumption.
Qed.

Section RetrySchedules.

Variable up : upstream.
Variables (url : string) (params : dict param) (max_retries : nat).

Lemma retry_loop_all_limited :
  forall remaining attempt w,
    (forall i, (i < remaining)%nat ->
       is_rate_limited
         (answer (up (sent w + i)%nat (governed_request url params))) = true) ->
    exists evs w',
      retry_loop up url params max_retries remaining attempt w
      = (Raise MaxRetriesExceeded, w')
      /\ trace w' = trace w ++ evs
      /\ sent w' = (sent w + remaining)%nat
      /\ schedule evs = rate_limited_schedule remaining attempt.
Proof.
  induction remaining as [|remaining IH]; intros attempt w Hlim.
  - exists [], w. cbn [retry_loop]. rewrite app_nil_r, Nat.add_0_r.
    repeat split.
  - assert (H0 : is_rate_limited
                   (answer (up (sent w) (governed_request url params))) = true).
    { specialize (Hlim 0%nat ltac:(lia)). now rewrite Nat.add_0_r in Hlim. }
    cbn [retry_loop]. unfold bind at 1.
    rewrite (attempt_rate_limited up url params max_retries attempt w H0).
    cbv beta iota.
    set (w2 := after_sleep RateLimited (seconds (2 ^ Z.of_nat attempt * 5))
                 (after_get up (governed_request url params) (after_limiter w))).
    assert (Hsent2 : sent w2 = S (sent w)) by reflexivity.
    assert (Htr2 : trace w2 =
                   trace w ++ limiter_wait w
                   ++ [EvGet (slot_time w) (governed_request url params);
                       EvSleep RateLimited (seconds (2 ^ Z.of_nat attempt * 5))]).
    { subst w2. unfold_worlds. now rewrite <- !app_assoc. }
    destruct (IH (S attempt) w2) as (evs & w' & Hrun & Htr & Hsent & Hsch).
    { intros i Hi. specialize (Hlim (S i) ltac:(lia)).
      replace (sent w2 + i)%nat with (sent w + S i)%nat by (rewrite Hsent2; lia).
      exact Hlim. }
    eexists _, w'. split; [exact Hrun|]. split; [|split].
    + rewrite Htr, Htr2, <- !app_assoc. reflexivity.
    + rewrite Hsent, Hsent2. lia.
    + rewrite !schedule_app, schedule_limiter_wait.
      cbn [schedule app rate_limited_schedule]. now rewrite Hsch.
Qed.

Lemma retry_loop_recovers (c : nat -> cause) (j : pyval) :
  forall failures remaining attempt w,
    (failures < remaining)%nat ->
    (attempt + remaining = max_retries)%nat ->
    (forall i, (i < failures)%nat ->
       failure_cause (answer (up (sent w + i)%nat (governed_request url params)))
       = Some (c (attempt + i)%nat)) ->
    success_body
      (answer (up (sent w + failures)%nat (governed_request url params)))
    = Some j ->
    exists evs w',
      retry_loop up url params max_retries remaining attempt w = (Ret j, w')
      /\ trace w' = trace w ++ evs
      /\ sent w' = (sent w + S failures)%nat
      /\ schedule evs = recovering_schedule failures attempt.
Proof.
  induction failures as [|failures IH]; intros remaining attempt w Hlt Hsum Hfail Hok.
  - destruct remaining as [|remaining]; [lia|].
    rewrite Nat.add_0_r in Hok.
    cbn [retry_loop]. unfold bind at 1.
    rewrite (attempt_succeeds up url params max_retries attempt w j Hok).
    cbv beta iota. unfold ret.
    eexists _, _. split; [reflexivity|]. split; [|split].
    + unfold_worlds. now rewrite <- app_assoc.
    + unfold_worlds. lia.
    + rewrite schedule_app, schedule_limiter_wait. reflexivity.
  - destruct remaining as [|remaining]; [lia|].
    assert (H0 : failure_cause
                   (answer (up (sent w) (governed_request url params)))
                 = Some (c attempt)).
    { specialize (Hfail 0%nat ltac:(lia)). now rewrite !Nat.add_0_r in Hfail. }
    cbn [retry_loop]. unfold bind at 1.
    rewrite (attempt_fails up url params max_retries attempt w _ H0). cbv zeta.
    replace (Nat.eqb attempt (max_retries - 1)) with false
      by (symmetry; apply Nat.eqb_neq; lia).
    cbv beta iota.
    set (w2 := after_sleep Backoff (seconds (2 ^ Z.of_nat attempt))
                 (after_get up (governed_request url params) (after_limiter w))).
    assert (Hsent2 : sent w2 = S (sent w)) by reflexivity.
    assert (Htr2 : trace w2 =
                   trace w ++ limiter_wait w
                   ++ [EvGet (slot_time w) (governed_request url params);
                       EvSleep Backoff (seconds (2 ^ Z.of_nat attempt))]).
    { subst w2. unfold_worlds. now rewrite <- !app_assoc. }
    destruct (IH remaining (S attempt) w2) as (evs & w' & Hrun & Htr & Hsent & Hsch).
    + lia.
    + lia.
    + intros i Hi. specialize (Hfail (S i) ltac:(lia)).
      replace (sent w2 + i)%nat with (sent w + S i)%nat by (rewrite Hsent2; lia).
      replace (S attempt + i)%nat with (attempt + S i)%nat by lia.
      exact Hfail.
    + replace (sent w2 + failures)%nat with (sent w + S failures)%nat
        by (rewrite Hsent2; lia).
      exact Hok.
    + eexists _, w'. split; [exact Hrun|]. split; [|split].
      * rewrite Htr, Htr2, <- !app_assoc. reflexivity.
      * rewrite Hsent, Hsent2. lia.
      * rewrite !schedule_app, schedule_limiter_wait.
        cbn [schedule app recovering_schedule]. now rewrite Hsch.
Qed.

(** When every attempt is answered 429, [_make_request_with_retry] sends
    [max_retries] requests, sleeps [5 * 2 ^ attempt] seconds after each of
    them, the last one included, and raises "Max retries exceeded", which
    carries no cause. *)
Theorem always_rate_limited_exhausts_retries (w : world)
    (Hlim : forall i, (i < max_retries)%nat ->
       is_rate_limited
         (answer (up (sent w + i)%nat (governed_request url params))) = true) :
  exists evs w',
    _make_request_with_retry up url params max_retries w
    = (Raise MaxRetriesExceeded, w')
    /\ trace w' = trace w ++ evs
    /\ sent w' = (sent w + max_retries)%nat
    /\ schedule evs = rate_limited_schedule max_retries 0.
Proof.
  exact (retry_loop_all_limited max_retries 0%nat w Hlim).
Qed.

(** When the first [failures] attempts fail at transport level, with
    [failures] less than [max_retries], and the next one succeeds,
    [_make_request_with_retry] returns the body of that one after
    [failures + 1] requests, with a backoff of [2 ^ attempt] seconds after
    each failure. *)
Theorem retry_recovers_after_failures (w : world) (failures : nat)
    (c : nat -> cause) (j : pyval)
    (Hlt : (failures < max_retries)%nat)
    (Hfail : forall i, (i < failures)%nat ->
       failure_cause (answer (up (sent w + i)%nat (governed_request url params)))
       = Some (c i))
    (Hok : success_body
             (answer (up (sent w + failures)%nat (governed_request url params)))
           = Some j) :
  exists evs w',
    _make_request_with_retry up url params max_retries w = (Ret j, w')
    /\ trace w' = trace w ++ evs
    /\ sent w' = (sent w + S failures)%nat
    /\ schedule evs = recovering_schedule failures 0.
Proof.
  apply (retry_loop_recovers c j failures max_retries 0%nat w); try assumption.
  reflexivity.
Qed.

End RetrySchedules.

Lemma always_rate_limited_exhausts_retries_witness :
  exists evs w',
    _make_request_with_retry (fun _ _ => Stub.too_many) "u" [] 3 Stub.w0
    = (Raise MaxRetriesExceeded, w')
    /\ trace w' = trace Stub.w0 ++ evs
    /\ sent w' = (sent Stub.w0 + 3)%nat
    /\ schedule evs
       = [Attempt; Slept RateLimited (seconds 5);
          Attempt; Slept RateLimited (seconds 10);
          Attempt; Slept RateLimited (seconds 20)].
Proof.
  apply (always_rate_limited_exhausts_retries (fun _ _ => Stub.too_many)
           "u" [] 3 Stub.w0).
  intros i _. reflexivity.
Defined.

Lemma retry_recovers_after_failures_witness :
  exists evs w',
    _make_request_with_retry
      (fun n _ => match n with O => Stub.down | _ => Stub.ok (PStr "done") end)
      "u" [] 3 Stub.w0
    = (Ret (PStr "done"), w')
    /\ trace w' = trace Stub.w0 ++ evs
    /\ sent w' = (sent Stub.w0 + 2)%nat
    /\ schedule evs = [Attempt; Slept Backoff (seconds 1); Attempt].
Proof.
  apply (retry_recovers_after_failures
           (fun n _ => match n with O => Stub.down | _ => Stub.ok (PStr "done") end)
           "u" [] 3 Stub.w0 1 (fun _ => ConnectionFailure "connection refused")
           (PStr "done")).
  - lia.
  - intros i Hi. assert (i = 0)%nat as -> by lia. reflexivity.
  - reflexivity.
Defined.

(** ** The cache store *)

(** The latest read of the spot quotes: a key of the result is a requested
    id, mapped to the dictionary of a row of that coin than which no row of
    the coin is later; a key is absent when it was not requested or the
    coin has no row. *)
Theorem latest_spot_quote_is_latest
    (coin_ids : list string) (st : store) (k : string) :
  match dict_get (get_latest_coin_prices coin_ids st) k with
  | Some d =>
      In k coin_ids
      /\ exists r, d = coin_price_dict r
                   /\ In r (coin_prices st) /\ coin_id r = k
                   /\ forall r', In r' (coin_prices st) -> coin_id r' = k ->
                                 timestamp r' <= timestamp r
  | None =>
      ~ In k coin_ids \/ forall r, In r (coin_prices st) -> coin_id r <> k
  end.
Proof.
  rewrite get_latest_coin_prices_spec.
  destruct (existsb (String.eqb k) coin_ids) eqn:E.
  - apply existsb_exists in E. destruct E as (k' & Hin & Hk).
    apply String.eqb_eq in Hk. subst k'.
    destruct (latest_coin_price (coin_prices st) k) as [r|] eqn:L; cbn [option_map].
    + split; [exact Hin|]. exists r.
      destruct (latest_coin_price_some _ _ _ L) as (H1 & H2 & H3). auto.
    + right. exact (latest_coin_price_none _ _ L).
  - left. intros Hin.
    assert (existsb (String.eqb k) coin_ids = true) as H.
    { apply existsb_exists. exists k. split; [exact Hin|apply String.eqb_refl]. }
    congruence.
Qed.

Lemma pairs_fold_get rows (acc : dict pyval) name :
  dict_get (fold_left (fun pairs pair =>
                         dict_set pairs (pair_name pair) (trading_pair_dict pair))
              rows acc) name
  = match last_named rows name with
    | Some r => Some (trading_pair_dict r)
    | None => dict_get acc name
    end.
Proof.
  revert acc. induction rows as [|r rows IH]; intros acc;
    cbn [fold_left last_named]; [reflexivity|].
  rewrite IH. destruct (last_named rows name); [reflexivity|].
  rewrite dict_get_set, String.eqb_sym.
  destruct (String.eqb (pair_name r) name); reflexivity.
Qed.

Lemma last_named_some rows name r :
  last_named rows name = Some r -> In r rows /\ pair_name r = name.
Proof.
  induction rows as [|x rows IH]; cbn [last_named]; [discriminate|].
  destruct (last_named rows name) as [y|].
  - intros [= <-]. destruct (IH eq_refl). split; [now right|assumption].
  - destruct (String.eqb_spec (pair_name x) name); [|discriminate].
    intros [= <-]. split; [now left|assumption].
Qed.

Lemma last_named_none rows name :
  last_named rows name = None -> forall r, In r rows -> pair_name r <> name.
Proof.
  induction rows as [|x rows IH]; cbn [last_named]; [intros _ r []|].
  destruct (last_named rows name) as [y|]; [discriminate|].
  destruct (String.eqb_spec (pair_name x) name); [discriminate|].
  intros _ r [<-|Hr]; [assumption|now apply IH].
Qed.

Lemma last_named_latest rows name r :
  ascending (map pair_timestamp rows) ->
  last_named rows name = Some r ->
  forall r', In r' rows -> pair_name r' = name ->
             pair_timestamp r' <= pair_timestamp r.
Proof.
  induction rows as [|x rows IH]; cbn [last_named map ascending];
    [discriminate|].
  intros [Hx Hasc] H r' Hr' Hname.
  destruct (last_named rows name) as [y|] eqn:E.
  - injection H as <-.
    destruct Hr' as [<-|Hr'].
    + apply Hx. apply in_map. exact (proj1 (last_named_some _ _ _ E)).
    + now apply IH.
  - destruct (String.eqb (pair_name x) name); [|discriminate].
    injection H as <-.
    destruct Hr' as [<-|Hr']; [lia|].
    exfalso. exact (last_named_none _ _ E r' Hr' Hname).
Qed.

(** The latest read of the pairs answers with the row of each pair that
    the unordered query returns last; when the query returns the rows in
    ascending order of timestamp, that row is one than which no row of the
    pair is later, and a pair is absent only when it has no row. *)
Theorem latest_pair_is_latest_when_ordered (st : store) (name : string)
    (Hordered : ascending (map pair_timestamp (trading_pairs st))) :
  match dict_get (get_latest_trading_pairs st) name with
  | Some d =>
      exists r, d = trading_pair_dict r
                /\ In r (trading_pairs st) /\ pair_name r = name
                /\ forall r', In r' (trading_pairs st) -> pair_name r' = name ->
                              pair_timestamp r' <= pair_timestamp r
  | None => forall r, In r (trading_pairs st) -> pair_name r <> name
  end.
Proof.
  unfold get_latest_trading_pairs. rewrite pairs_fold_get.
  destruct (last_named (trading_pairs st) name) as [r|] eqn:E.
  - exists r. destruct (last_named_some _ _ _ E) as [Hin Hname].
    repeat split; try assumption.
    exact (last_named_latest _ _ _ Hordered E).
  - cbn [dict_get]. exact (last_named_none _ _ E).
Qed.

Lemma latest_pair_is_latest_when_ordered_witness :
  match dict_get
          (get_latest_trading_pairs
             (mkStore [] [Stub.pair_row "ETH/BTC" 0.05
                            (Stub.noon - timedelta_hours 1);
                          Stub.pair_row "ETH/BTC" 0.052
                            (Stub.noon - timedelta_minutes 1)] [] []))
          "ETH/BTC" with
  | Some d =>
      exists r, d = trading_pair_dict r
                /\ In r [Stub.pair_row "ETH/BTC" 0.05
                           (Stub.noon - timedelta_hours 1);
                         Stub.pair_row "ETH/BTC" 0.052
                           (Stub.noon - timedelta_minutes 1)]
                /\ pair_name r = "ETH/BTC"
                /\ forall r', In r' [Stub.pair_row "ETH/BTC" 0.05
                                       (Stub.noon - timedelta_hours 1);
                                     Stub.pair_row "ETH/BTC" 0.052
                                       (Stub.noon - timedelta_minutes 1)] ->
                              pair_name r' = "ETH/BTC" ->
                              pair_timestamp r' <= pair_timestamp r
  | None => False
  end.
Proof.
  pose proof (latest_pair_is_latest_when_ordered
                (mkStore [] [Stub.pair_row "ETH/BTC" 0.05
                               (Stub.noon - timedelta_hours 1);
                             Stub.pair_row "ETH/BTC" 0.052
                               (Stub.noon - timedelta_minutes 1)] [] [])
                "ETH/BTC") as H.
  cbn [trading_pairs] in H.
  assert (Hord : ascending
                   (map pair_timestamp
                      [Stub.pair_row "ETH/BTC" 0.05 (Stub.noon - timedelta_hours 1);
                       Stub.pair_row "ETH/BTC" 0.052
                         (Stub.noon - timedelta_minutes 1)])).
  { cbn [map ascending Stub.pair_row pair_timestamp]. repeat split.
    - intros y [<-|[]]. vm_compute. discriminate.
    - intros y []. }
  specialize (H Hord).
  destruct (dict_get _ "ETH/BTC") as [d|] eqn:E.
  - exact H.
  - vm_compute in E. discriminate.
Defined.

Lemma rmap_in {A B} (f : A -> result B) (xs : list A) (ys : list B) :
  rmap f xs = Ret ys ->
  (forall x, In x xs -> exists y, f x = Ret y /\ In y ys)
  /\ (forall y, In y ys -> exists x, In x xs /\ f x = Ret y).
Proof.
  revert ys. induction xs as [|x xs IH]; intros ys H; cbn [rmap] in H.
  - injection H as <-. split; intros ? [].
  - destruct (f x) as [y|] eqn:Fx; cbn [rbind] in H; [|discriminate].
    destruct (rmap f xs) as [ys'|]; cbn [rbind] in H; [|discriminate].
    injection H as <-. destruct (IH ys' eq_refl) as [IH1 IH2]. split.
    + intros x' [<-|Hx'].
      * exists y. split; [exact Fx|now left].
      * destruct (IH1 x' Hx') as (y' & Hy' & Hin). exists y'. split; [exact Hy'|now right].
    + intros y' [<-|Hy'].
      * exists x. split; [now left|exact Fx].
      * destruct (IH2 y' Hy') as (x' & Hx' & Hfx). exists x'. split; [now right|exact Hfx].
Qed.

Lemma dict_get_in {V} (d : dict V) (k : string) (v : V) :
  dict_get d k = Some v -> In (k, v) d.
Proof.
  induction d as [|[k0 v0] d IH]; cbn [dict_get]; [discriminate|].
  destruct (String.eqb_spec k k0) as [->|_].
  - intros [= <-]. now left.
  - intros H. right. now apply IH.
Qed.

Lemma unique_key {V} (d : dict V) (k : string) (v v' : V) :
  NoDup (map fst d) -> In (k, v) d -> In (k, v') d -> v = v'.
Proof.
  induction d as [|[k0 v0] d IH]; cbn [map fst]; [intros _ []|].
  intros Hnd H H'. apply NoDup_cons_iff in Hnd as [Hnotin Hnd'].
  destruct H as [H|H]; destruct H' as [H'|H'].
  - congruence.
  - injection H as -> ->. exfalso. apply Hnotin.
    apply (in_map fst) in H'. exact H'.
  - injection H' as -> ->. exfalso. apply Hnotin.
    apply (in_map fst) in H. exact H.
  - now apply IH.
Qed.

Lemma coin_price_row_fields utcnow k data row :
  coin_price_row utcnow k data = Ret row ->
  coin_id row = k /\ timestamp row = utcnow
  /\ get data "usd" (PNum 0) = Ret (price_usd row).
Proof.
  unfold coin_price_row, field.
  destruct data; cbn [get rbind]; try discriminate.
  intros [= <-]. repeat split.
Qed.

(** What a successful [store_coin_prices] adds: the rows of the items, after
    the rows that were there. *)
Lemma store_coin_prices_rows utcnow coin_data st st' :
  store_coin_prices utcnow coin_data st = (Ret tt, st') ->
  exists rows,
    rmap (fun item => coin_price_row utcnow (fst item) (snd item)) coin_data
    = Ret rows
    /\ coin_prices st' = coin_prices st ++ rows.
Proof.
  unfold store_coin_prices.
  destruct (rmap _ coin_data) as [rows|]; cbn [rbind]; [|discriminate].
  destruct (commit_rows coin_price_valid rows); cbn [rbind]; [|discriminate].
  intros [= <-]. exists rows. split; reflexivity.
Qed.

(** After a successful store, the latest row of a stored coin is the row
    just stored, when the rows the coin had are older. *)
Lemma latest_after_store utcnow coin_data st st' k data :
  store_coin_prices utcnow coin_data st = (Ret tt, st') ->
  NoDup (map fst coin_data) ->
  dict_get coin_data k = Some data ->
  (forall r, In r (coin_prices st) -> coin_id r = k -> timestamp r < utcnow) ->
  exists row,
    coin_price_row utcnow k data = Ret row
    /\ latest_coin_price (coin_prices st') k = Some row.
Proof.
  intros Hstore Hnd Hget Hold.
  destruct (store_coin_prices_rows _ _ _ _ Hstore) as (rows & Hrows & Hst').
  destruct (rmap_in _ _ _ Hrows) as [Hfw Hbw].
  destruct (Hfw (k, data) (dict_get_in _ _ _ Hget)) as (row & Hrow & Hin).
  cbn [fst snd] in Hrow.
  exists row. split; [exact Hrow|].
  destruct (coin_price_row_fields _ _ _ _ Hrow) as (Hid & Hts & _).
  rewrite Hst'.
  destruct (latest_coin_price (coin_prices st ++ rows) k) as [r|] eqn:L.
  - destruct (latest_coin_price_some _ _ _ L) as (Hr & Hrid & Hmax).
    assert (Hle : timestamp row <= timestamp r).
    { apply Hmax; [apply in_or_app; now right|exact Hid]. }
    apply in_app_or in Hr. destruct Hr as [Hr|Hr].
    + specialize (Hold r Hr Hrid). lia.
    + destruct (Hbw r Hr) as ([k' data'] & Hitem & Hrow').
      cbn [fst snd] in Hrow'.
      destruct (coin_price_row_fields _ _ _ _ Hrow') as (Hid' & _ & _).
      assert (Ek : k' = k) by congruence. rewrite Ek in Hitem, Hrow'.
      assert (data' = data).
      { exact (unique_key _ _ _ _ Hnd Hitem (dict_get_in _ _ _ Hget)). }
      subst data'. congruence.
  - exfalso.
    apply (latest_coin_price_none _ _ L row); [apply in_or_app; now right|exact Hid].
Qed.

(** Round trip of the spot quotes: after [store_coin_prices] has stored a
    dictionary at the time [utcnow], the latest read of a stored and
    requested coin whose earlier rows are older returns the dictionary of
    the row just stored: its price is the ['usd'] that was stored and its
    [last_updated_at] is [utcnow]. *)
Theorem stored_quote_is_read_back
    (utcnow : Z) (coin_data : dict pyval) (st st' : store)
    (coin_ids : list string) (k : string) (data : pyval)
    (Hstore : store_coin_prices utcnow coin_data st = (Ret tt, st'))
    (Hkeys : NoDup (map fst coin_data))
    (Hdata : dict_get coin_data k = Some data)
    (Hrequested : In k coin_ids)
    (Hold : forall r, In r (coin_prices st) -> coin_id r = k ->
                      timestamp r < utcnow) :
  exists row,
    dict_get (get_latest_coin_prices coin_ids st') k = Some (coin_price_dict row)
    /\ get data "usd" (PNum 0) = Ret (price_usd row)
    /\ observed_at (coin_price_dict row) = Some utcnow.
Proof.
  destruct (latest_after_store _ _ _ _ _ _ Hstore Hkeys Hdata Hold)
    as (row & Hrow & Hlatest).
  destruct (coin_price_row_fields _ _ _ _ Hrow) as (_ & Hts & Husd).
  exists row. split; [|split].
  - rewrite get_latest_coin_prices_spec, Hlatest.
    replace (existsb (String.eqb k) coin_ids) with true; [reflexivity|].
    symmetry. apply existsb_exists. exists k.
    split; [exact Hrequested|apply String.eqb_refl].
  - exact Husd.
  - cbn [observed_at coin_price_dict dict_get String.eqb Ascii.eqb Bool.eqb].
    now rewrite Hts.
Qed.

Lemma stored_quote_is_read_back_witness :
  exists row,
    dict_get
      (get_latest_coin_prices ["bitcoin"]
         (snd (store_coin_prices Stub.noon
                 [("bitcoin", PDict [("usd", PNum 67000)])]
                 Stub.st_all_stale)))
      "bitcoin"
    = Some (coin_price_dict row)
    /\ get (PDict [("usd", PNum 67000)]) "usd" (PNum 0) = Ret (price_usd row)
    /\ observed_at (coin_price_dict row) = Some Stub.noon.
Proof.
  apply (stored_quote_is_read_back Stub.noon
           [("bitcoin", PDict [("usd", PNum 67000)])]
           Stub.st_all_stale _ ["bitcoin"] "bitcoin"
           (PDict [("usd", PNum 67000)])).
  - reflexivity.
  - repeat constructor. intros [].
  - reflexivity.
  - now left.
  - intros r Hr _. vm_compute in Hr.
    destruct Hr as [<-|[<-|[]]]; vm_compute; reflexivity.
Defined.

(** A cleanup of [days] days fails and leaves the four tables as they were
    whenever the day of the month is not greater than [days]: the cutoff
    is sought in the current month, as day number [day - days], which is a
    [ValueError] as long as that number fits a C [int] and an
    [OverflowError] beyond. *)
Theorem cleanup_fails_early_in_the_month (utcnow days : Z) (st : store)
    (Hday : day_of_month utcnow <= days) :
  cleanup_old_data utcnow days st
  = (Raise (if c_int_min <=? day_of_month utcnow - days
            then ValueError "day is out of range for month"
            else OverflowError), st).
Proof.
  unfold cleanup_old_data. now rewrite (cutoff_raises _ _ Hday).
Qed.

Lemma cleanup_fails_early_in_the_month_witness :
  cleanup_old_data Stub.noon 15 Stub.st_old_and_new
  = (Raise (if c_int_min <=? day_of_month Stub.noon - 15
            then ValueError "day is out of range for month"
            else OverflowError), Stub.st_old_and_new).
Proof.
  apply (cleanup_fails_early_in_the_month Stub.noon 15 Stub.st_old_and_new).
  vm_compute. discriminate.
Defined.

(** The two failures on 2024-06-15: a cleanup of 15 days asks for day 0,
    and a cleanup of [2 ^ 31 + 16] days for a day below the least C
    [int]. *)
Example cleanup_failures :
  fst (cleanup_old_data Stub.noon 15 Stub.st_old_and_new)
  = Raise (ValueError "day is out of range for month")
  /\ fst (cleanup_old_data Stub.noon (2 ^ 31 + 16) Stub.st_old_and_new)
     = Raise OverflowError.
Proof. vm_compute. repeat split. Qed.

Lemma delete_before_in {A} (key : A -> Z) (cutoff_date : Z) (rows : list A) r :
  In r (delete_before key cutoff_date rows)
  <-> In r rows /\ cutoff_date <= key r.
Proof.
  unfold delete_before. rewrite filter_In.
  rewrite negb_true_iff, Z.ltb_ge. reflexivity.
Qed.

(** When the cutoff date exists, the cleanup succeeds and each of the four
    tables keeps exactly its rows from the cutoff date on. *)
Theorem cleanup_keeps_rows_from_cutoff (utcnow days cutoff_date : Z) (st : store)
    (Hcutoff : cutoff utcnow days = Ret cutoff_date) :
  exists st',
    cleanup_old_data utcnow days st = (Ret tt, st')
    /\ (forall r, In r (coin_prices st')
                  <-> In r (coin_prices st) /\ cutoff_date <= timestamp r)
    /\ (forall r, In r (trading_pairs st')
                  <-> In r (trading_pairs st) /\ cutoff_date <= pair_timestamp r)
    /\ (forall r, In r (historical_data st')
                  <-> In r (historical_data st) /\ cutoff_date <= hist_timestamp r)
    /\ (forall r, In r (pair_historical_data st')
                  <-> In r (pair_historical_data st)
                      /\ cutoff_date <= phist_timestamp r).
Proof.
  unfold cleanup_old_data. rewrite Hcutoff.
  eexists. split; [reflexivity|].
  cbn [coin_prices trading_pairs historical_data pair_historical_data].
  split; [|split; [|split]]; intros r; apply delete_before_in.
Qed.

Lemma cleanup_keeps_rows_from_cutoff_witness :
  exists st',
    cleanup_old_data (make 2024 1 31 12 0 0) 30 Stub.st_old_and_new = (Ret tt, st')
    /\ (forall r, In r (coin_prices st')
                  <-> In r (coin_prices Stub.st_old_and_new)
                      /\ make 2024 1 1 12 0 0 <= timestamp r)
    /\ (forall r, In r (trading_pairs st')
                  <-> In r (trading_pairs Stub.st_old_and_new)
                      /\ make 2024 1 1 12 0 0 <= pair_timestamp r)
    /\ (forall r, In r (historical_data st')
                  <-> In r (historical_data Stub.st_old_and_new)
                      /\ make 2024 1 1 12 0 0 <= hist_timestamp r)
    /\ (forall r, In r (pair_historical_data st')
                  <-> In r (pair_historical_data Stub.st_old_and_new)
                      /\ make 2024 1 1 12 0 0 <= phist_timestamp r).
Proof.
  apply (cleanup_keeps_rows_from_cutoff (make 2024 1 31 12 0 0) 30
           (make 2024 1 1 12 0 0) Stub.st_old_and_new).
  vm_compute. reflexivity.
Defined.

(** On every day of the month but the 31st, [store_historical_data] and
    [store_pair_historical_data] raise a [ValueError] and store nothing:
    their cutoff of 30 days is sought in the current month. *)
Theorem historical_store_fails_before_the_31st
    (utcnow : Z) (subject : string) (timestamps : list Z) (prices : list pyval)
    (st : store) (Hday : day_of_month utcnow <= 30) :
  store_historical_data utcnow subject timestamps prices st
  = (Raise (ValueError "day is out of range for month"), st)
  /\ store_pair_historical_data utcnow subject timestamps prices st
     = (Raise (ValueError "day is out of range for month"), st).
Proof.
  unfold store_historical_data, store_pair_historical_data.
  rewrite (cutoff_raises _ _ Hday).
  pose proof (day_of_month_positive utcnow) as Hpos.
  replace (c_int_min <=? day_of_month utcnow - 30) with true
    by (symmetry; apply Z.leb_le; unfold c_int_min; lia).
  split; reflexivity.
Qed.

Lemma historical_store_fails_before_the_31st_witness :
  store_historical_data Stub.noon "bitcoin" [Stub.noon] [PNum 67000]
    Stub.st_old_and_new
  = (Raise (ValueError "day is out of range for month"), Stub.st_old_and_new)
  /\ store_pair_historical_data Stub.noon "bitcoin" [Stub.noon] [PNum 67000]
       Stub.st_old_and_new
     = (Raise (ValueError "day is out of range for month"), Stub.st_old_and_new).
Proof.
  apply (historical_store_fails_before_the_31st Stub.noon "bitcoin"
           [Stub.noon] [PNum 67000] Stub.st_old_and_new).
  vm_compute. discriminate.
Defined.

(** On a 31st the series of a coin is stored, one row per pair of a
    timestamp and a price. *)
Example historical_store_on_the_31st :
  let utcnow := make 2024 1 31 12 0 0 in
  let t1 := make 2024 1 31 10 0 0 in
  let t2 := make 2024 1 31 11 0 0 in
  store_historical_data utcnow "bitcoin" [t1; t2] [PNum 42000; PNum 42100]
    (mkStore [] [] [] [])
  = (Ret tt,
     mkStore [] [] [mkHistoricalData "bitcoin" (PNum 42000) t1;
                    mkHistoricalData "bitcoin" (PNum 42100) t2] []).
Proof. vm_compute. reflexivity. Qed.

Section Ascending.

Context {A : Type} (key : A -> Z).

Lemma insert_asc_in (r x : A) (l : list A) :
  In x (insert_asc key r l) <-> x = r \/ In x l.
Proof.
  induction l as [|y l IH]; cbn [insert_asc].
  - split; [intros [<-|[]]; now left|intros [->|[]]; now left].
  - destruct (key r <=? key y); cbn [In].
    + split; [intros [<-|H]; auto|intros [->|H]; auto].
    + rewrite IH. split; [intros [H|[H|H]]; auto|intros [H|[H|H]]; auto].
Qed.

Lemma insert_asc_length (r : A) (l : list A) :
  List.length (insert_asc key r l) = S (List.length l).
Proof.
  induction l as [|y l IH]; cbn [insert_asc]; [reflexivity|].
  destruct (key r <=? key y); cbn [List.length]; [reflexivity|now rewrite IH].
Qed.

Lemma insert_asc_ascending (r : A) (l : list A) :
  ascending (map key l) -> ascending (map key (insert_asc key r l)).
Proof.
  induction l as [|y l IH]; cbn [insert_asc map ascending].
  - intros _. split; [intros ? []|exact I].
  - intros [Hy Hl].
    destruct (Z.leb_spec (key r) (key y)) as [Hle|Hlt]; cbn [map ascending].
    + split; [|split; assumption].
      intros z [<-|Hz]; [exact Hle|]. specialize (Hy z Hz). lia.
    + split; [|now apply IH].
      intros z Hz. apply in_map_iff in Hz. destruct Hz as (x & <- & Hx).
      apply insert_asc_in in Hx. destruct Hx as [->|Hx]; [lia|].
      apply Hy. now apply in_map.
Qed.

Lemma order_by_asc_in (x : A) (l : list A) :
  In x (order_by_asc key l) <-> In x l.
Proof.
  unfold order_by_asc. induction l as [|y l IH]; cbn [fold_right In];
    [reflexivity|].
  rewrite insert_asc_in, IH. split; intros [H|H]; auto.
Qed.

Lemma order_by_asc_length (l : list A) :
  List.length (order_by_asc key l) = List.length l.
Proof.
  unfold order_by_asc. induction l as [|y l IH]; cbn [fold_right List.length];
    [reflexivity|].
  now rewrite insert_asc_length, IH.
Qed.

Lemma order_by_asc_ascending (l : list A) :
  ascending (map key (order_by_asc key l)).
Proof.
  unfold order_by_asc. induction l as [|y l IH]; cbn [fold_right];
    [exact I|].
  now apply insert_asc_ascending.
Qed.

End Ascending.

(** The series read of the store: when it returns, the timestamps and the
    prices are as many as the rows of the coin from
    [utcnow - timedelta(days=days)] on, the timestamps are in ascending
    order, none is before that cutoff, and the timestamp of every such row
    is among them; it raises only when the cutoff is not a date. *)
Theorem stored_series_is_the_ordered_window
    (utcnow : Z) (coin : string) (days : Z) (st : store) :
  let cutoff_date := utcnow - timedelta_days days in
  let in_window r :=
    String.eqb (hist_coin_id r) coin && (cutoff_date <=? hist_timestamp r) in
  match DatabaseManager.get_historical_data utcnow coin days st with
  | Ret (timestamps, prices) =>
      List.length timestamps = List.length prices
      /\ List.length timestamps
         = List.length (filter in_window (historical_data st))
      /\ ascending timestamps
      /\ (forall t, In t timestamps -> cutoff_date <= t)
      /\ (forall r, In r (historical_data st) -> in_window r = true ->
                    In (hist_timestamp r) timestamps)
  | Raise e => e = OverflowError
  end.
Proof.
  cbv zeta. unfold DatabaseManager.get_historical_data, minus_days.
  destruct ((min_datetime <=? utcnow - timedelta_days days)
            && (utcnow - timedelta_days days <=? max_datetime));
    cbn [rbind]; [|reflexivity].
  unfold historical_window.
  split; [now rewrite !length_map|].
  split; [now rewrite length_map, order_by_asc_length|].
  split; [apply order_by_asc_ascending|].
  split.
  - intros t Ht. apply in_map_iff in Ht. destruct Ht as (r & <- & Hr).
    apply order_by_asc_in, filter_In in Hr. destruct Hr as [_ Hr].
    apply andb_true_iff in Hr. destruct Hr as [_ Hr]. now apply Z.leb_le.
  - intros r Hr Hw. apply in_map. apply order_by_asc_in, filter_In.
    split; assumption.
Qed.

(** A read of a store whose rows are out of order and partly outside the
    window. *)
Example stored_series_example :
  let t h := make 2024 6 15 h 0 0 in
  DatabaseManager.get_historical_data Stub.noon "bitcoin" 1
    (mkStore [] []
       [mkHistoricalData "bitcoin" (PNum 3) (t 11);
        mkHistoricalData "ethereum" (PNum 9) (t 10);
        mkHistoricalData "bitcoin" (PNum 1) (make 2024 6 1 0 0 0);
        mkHistoricalData "bitcoin" (PNum 2) (t 9)] [])
  = Ret ([t 9; t 11], [PNum 2; PNum 3]).
Proof. vm_compute. reflexivity. Qed.

(** ** The user preferences *)

Lemma find_preferences_cons r table id :
  find_preferences (r :: table) id
  = if String.eqb (session_id r) id then Some r else find_preferences table id.
Proof.
  unfold find_preferences. cbn [filter].
  destruct (String.eqb (session_id r) id); reflexivity.
Qed.

Lemma find_preferences_app_none table id r :
  find_preferences table id = None ->
  find_preferences (table ++ [r]) id
  = if String.eqb (session_id r) id then Some r else None.
Proof.
  induction table as [|x table IH]; [intros _; apply find_preferences_cons|].
  cbn [app]. rewrite !find_preferences_cons.
  destruct (String.eqb (session_id x) id); [discriminate|exact IH].
Qed.

Lemma find_update utcnow id coins auto interval table id' :
  find_preferences (update_preferences utcnow id coins auto interval table) id'
  = match find_preferences table id' with
    | Some r =>
        if String.eqb id' id
        then Some (mkUserPreferences (session_id r) coins auto interval
                     (created_at r) utcnow)
        else Some r
    | None => None
    end.
Proof.
  induction table as [|x table IH]; cbn [update_preferences]; [reflexivity|].
  destruct (String.eqb_spec (session_id x) id) as [Hx|Hx].
  - rewrite !find_preferences_cons. cbn [session_id].
    destruct (String.eqb_spec (session_id x) id') as [Hx'|Hx'].
    + replace (String.eqb id' id) with true; [reflexivity|].
      symmetry. apply String.eqb_eq. congruence.
    + destruct (find_preferences table id') as [r|] eqn:E; [|reflexivity].
      replace (String.eqb id' id) with false; [reflexivity|].
      symmetry. apply String.eqb_neq. congruence.
  - rewrite !find_preferences_cons.
    destruct (String.eqb_spec (session_id x) id') as [Hx'|Hx']; [|exact IH].
    replace (String.eqb id' id) with false; [reflexivity|].
    symmetry. apply String.eqb_neq. congruence.
Qed.

Lemma update_preferences_length utcnow id coins auto interval table :
  List.length (update_preferences utcnow id coins auto interval table)
  = List.length table.
Proof.
  induction table as [|x table IH]; cbn [update_preferences]; [reflexivity|].
  destruct (String.eqb (session_id x) id); cbn [List.length];
    [reflexivity|now rewrite IH].
Qed.

(** Round trip of the preferences: after a save for a session, the load of
    that session gives back what was saved and the load of any other
    session is what it was; the save adds a row only when the session had
    none. *)
Theorem saved_preferences_are_loaded
    (utcnow : Z) (id : string) (coins : list string) (auto : bool)
    (interval : Z) (table : list UserPreferences) :
  let table' := save_user_preferences utcnow id coins auto interval table in
  load_user_preferences id table' = Some (coins, auto, interval)
  /\ (forall id', id' <> id ->
        load_user_preferences id' table' = load_user_preferences id' table)
  /\ List.length table'
     = match load_user_preferences id table with
       | Some _ => List.length table
       | None => S (List.length table)
       end.
Proof.
  cbv zeta. unfold save_user_preferences, load_user_preferences.
  destruct (find_preferences table id) as [r|] eqn:E.
  - split; [|split].
    + rewrite find_update, E, String.eqb_refl. reflexivity.
    + intros id' Hid'. rewrite find_update.
      destruct (find_preferences table id'); [|reflexivity].
      replace (String.eqb id' id) with false; [reflexivity|].
      symmetry. now apply String.eqb_neq.
    + apply update_preferences_length.
  - split; [|split].
    + rewrite (find_preferences_app_none _ _ _ E). cbn [session_id].
      rewrite String.eqb_refl. reflexivity.
    + intros id' Hid'.
      destruct (find_preferences table id') as [r'|] eqn:E'.
      * assert (H : find_preferences (table ++ [mkUserPreferences id coins auto
                                                   interval utcnow utcnow]) id'
                    = Some r').
        { clear E. induction table as [|x table IH]; [discriminate|].
          cbn [app]. rewrite find_preferences_cons in *.
          destruct (String.eqb (session_id x) id'); [exact E'|now apply IH]. }
        now rewrite H.
      * rewrite (find_preferences_app_none _ _ _ E'). cbn [session_id].
        replace (String.eqb id id') with false; [reflexivity|].
        symmetry. apply String.eqb_neq. congruence.
    + rewrite length_app. cbn [List.length]. lia.
Qed.

(** ** The loaders *)

Lemma dict_set_truthy {V} (d : dict V) (k : string) (v : V) :
  truthy (dict_set d k v) = true.
Proof.
  destruct d as [|[k0 v0] d]; cbn [dict_set]; [reflexivity|].
  destruct (String.eqb k k0); reflexivity.
Qed.

Lemma latest_pairs_truthy (st : store) :
  trading_pairs st <> [] -> truthy (get_latest_trading_pairs st) = true.
Proof.
  unfold get_latest_trading_pairs.
  destruct (trading_pairs st) as [|r rows]; [contradiction|]. intros _.
  cbn [fold_left].
  generalize (dict_set_truthy ([] : dict pyval) (pair_name r) (trading_pair_dict r)).
  generalize (dict_set ([] : dict pyval) (pair_name r) (trading_pair_dict r)).
  induction rows as [|x rows IH]; intros acc Hacc; cbn [fold_left]; [exact Hacc|].
  apply IH. apply dict_set_truthy.
Qed.

Section Loaders.

Variable up : upstream.
Variable utc_offset : Z.
Variable engine_store : Z -> vdict -> store -> result unit * store.

(** With the database in use, the pairs are read from the store whenever it
    holds a row of pairs, however old the rows are and whatever the clock
    says, and nothing is sent; only an empty table sends the loader to the
    API. *)
Theorem cached_pairs_are_served_at_any_age
    (s : session) (w : world) (st : store)
    (Huse : use_database s = true) (Hdb : db s = Some st) :
  (trading_pairs st <> [] ->
   load_trading_pairs up s w = (get_latest_trading_pairs st, s, w))
  /\ (trading_pairs st = [] ->
      load_trading_pairs up s w = fetch_fresh_pairs up s w).
Proof.
  unfold load_trading_pairs. rewrite Huse, Hdb. split.
  - intros Hrows. now rewrite (latest_pairs_truthy st Hrows).
  - intros Hrows. unfold get_latest_trading_pairs. rewrite Hrows. reflexivity.
Qed.

Lemma any_recent_rows now (items : dict pyval) :
  (forall k d, In (k, d) items -> exists r, d = coin_price_dict r) ->
  any_recent utc_offset now items = Ret (existsb (fresh_entry now) items).
Proof.
  induction items as [|[k d] items IH]; intros H; cbn [any_recent existsb];
    [reflexivity|].
  destruct (H k d (or_introl eq_refl)) as (r & ->).
  rewrite is_recent_row. cbn [rbind].
  unfold fresh_entry at 1. cbn [snd]. rewrite observed_at_row.
  destruct (now - timestamp r <? freshness_window); cbn [orb]; [reflexivity|].
  apply IH. intros k' d' Hin. apply (H k' d'). now right.
Qed.

Lemma cached_prices_decision coin_ids s st now :
  use_database s = true -> db s = Some st ->
  cached_prices_if_recent utc_offset coin_ids s now
  = Ret (if existsb (fresh_entry now) (get_latest_coin_prices coin_ids st)
         then Some (get_latest_coin_prices coin_ids st) else None).
Proof.
  intros Huse Hdb. unfold cached_prices_if_recent. rewrite Huse, Hdb.
  rewrite any_recent_rows.
  - destruct (get_latest_coin_prices coin_ids st) as [|item items];
      cbn [truthy rbind]; reflexivity.
  - intros k d Hin. destruct (cached_entries coin_ids st k d Hin) as (r & _ & _ & ->).
    now exists r.
Qed.


(** Store and load together: a quote stored at the UTC time [utcnow] is
    served from the cache, without a request, by every later load whose
    local time is less than two minutes after [utcnow]; local time is the
    clock plus the offset of the time zone, so that the offset counts as
    age. *)
Theorem stored_quote_is_served_while_fresh
    (utcnow : Z) (coin_data : dict pyval) (st st' : store)
    (coin_ids : list string) (k : string) (data : pyval) (w : world)
    (Hstore : store_coin_prices utcnow coin_data st = (Ret tt, st'))
    (Hkeys : NoDup (map fst coin_data))
    (Hdata : dict_get coin_data k = Some data)
    (Hrequested : In k coin_ids)
    (Hold : forall r, In r (coin_prices st) -> coin_id r = k ->
                      timestamp r < utcnow)
    (Hfresh : clock w + utc_offset - utcnow < freshness_window) :
  let s := mkSession true (Some st') in
  load_current_prices up utc_offset engine_store coin_ids s w
  = (keyed (get_latest_coin_prices coin_ids st'), s, w)
  /\ exists row,
       dict_get (get_latest_coin_prices coin_ids st') k
       = Some (coin_price_dict row)
       /\ get data "usd" (PNum 0) = Ret (price_usd row).
Proof.
  cbv zeta.
  destruct (latest_after_store _ _ _ _ _ _ Hstore Hkeys Hdata Hold)
    as (row & Hrow & Hlatest).
  destruct (coin_price_row_fields _ _ _ _ Hrow) as (_ & Hts & Husd).
  assert (Hget : dict_get (get_latest_coin_prices coin_ids st') k
                 = Some (coin_price_dict row)).
  { rewrite get_latest_coin_prices_spec, Hlatest.
    replace (existsb (String.eqb k) coin_ids) with true; [reflexivity|].
    symmetry. apply existsb_exists. exists k.
    split; [exact Hrequested|apply String.eqb_refl]. }
  split; [|exists row; split; assumption].
  unfold load_current_prices.
  rewrite (cached_prices_decision coin_ids (mkSession true (Some st')) st' _
             eq_refl eq_refl).
  replace (existsb (fresh_entry (clock w + utc_offset))
             (get_latest_coin_prices coin_ids st')) with true; [reflexivity|].
  symmetry. apply existsb_exists. exists (k, coin_price_dict row).
  split; [exact (dict_get_in _ _ _ Hget)|].
  unfold fresh_entry. cbn [snd]. rewrite observed_at_row, Hts.
  now apply Z.ltb_lt.
Qed.

(** [load_historical_data] never fails: it returns the series of the API,
    or two empty lists after an error message, and in both cases as many
    timestamps as prices. *)
Theorem loaded_series_is_paired (coin : string) (days : Z) (w : world) :
  let out := load_historical_data up utc_offset coin days w in
  List.length (fst (fst out)) = List.length (snd (fst out))
  /\ match fst (CoinGeckoAPI.get_historical_data up utc_offset coin days w) with
     | Ret series => fst out = series
     | Raise _ => fst out = ([], [])
     end.
Proof.
  cbv zeta. unfold load_historical_data.
  pose proof (get_historical_data_paired up utc_offset coin days w) as H.
  unfold paired in H.
  destruct (CoinGeckoAPI.get_historical_data up utc_offset coin days w)
    as [[[ts ps]|e] w'];
    cbn [fst snd] in *.
  - split; [exact H|reflexivity].
  - split; reflexivity.
Qed.

End Loaders.

(** The selection of coins used for fetching is the selection itself when
    it has at most ten coins, and its first ten coins, in their order,
    otherwise. *)
Theorem selection_is_capped_at_ten (selected_coins : list string) :
  cap_selected_coins selected_coins = firstn 10 selected_coins
  /\ (List.length (cap_selected_coins selected_coins) <= 10)%nat
  /\ ((List.length selected_coins <= 10)%nat ->
      cap_selected_coins selected_coins = selected_coins).
Proof.
  unfold cap_selected_coins.
  destruct (Nat.ltb_spec 10 (List.length selected_coins)) as [Hgt|Hle].
  - split; [reflexivity|]. split; [rewrite length_firstn; lia|lia].
  - rewrite (firstn_all2 selected_coins) by exact Hle.
    split; [reflexivity|]. split; [exact Hle|reflexivity].
Qed.

Lemma cached_pairs_are_served_at_any_age_witness :
  let s := mkSession true (Some Stub.st_pairs_out_of_order) in
  let w := mkWorld (make 2034 1 1 0 0 0) 0 0 [] in
  (trading_pairs Stub.st_pairs_out_of_order <> [] ->
   load_trading_pairs Stub.always_down s w
   = (get_latest_trading_pairs Stub.st_pairs_out_of_order, s, w))
  /\ (trading_pairs Stub.st_pairs_out_of_order = [] ->
      load_trading_pairs Stub.always_down s w
      = fetch_fresh_pairs Stub.always_down s w).
Proof.
  cbv zeta.
  apply (cached_pairs_are_served_at_any_age Stub.always_down
           (mkSession true (Some Stub.st_pairs_out_of_order))
           (mkWorld (make 2034 1 1 0 0 0) 0 0 [])
           Stub.st_pairs_out_of_order eq_refl eq_refl).
Defined.


Lemma stored_quote_is_served_while_fresh_witness :
  let coin_data := [("bitcoin", PDict [("usd", PNum 67000)])] in
  let st' := snd (store_coin_prices Stub.noon coin_data Stub.st_all_stale) in
  let s := mkSession true (Some st') in
  let w := mkWorld (Stub.noon + seconds 90) Stub.noon 1 [] in
  load_current_prices Stub.always_down 0 Stub.strict_engine ["bitcoin"] s w
  = (keyed (get_latest_coin_prices ["bitcoin"] st'), s, w)
  /\ exists row,
       dict_get (get_latest_coin_prices ["bitcoin"] st') "bitcoin"
       = Some (coin_price_dict row)
       /\ get (PDict [("usd", PNum 67000)]) "usd" (PNum 0)
          = Ret (price_usd row).
Proof.
  cbv zeta.
  apply (stored_quote_is_served_while_fresh Stub.always_down 0
           Stub.strict_engine Stub.noon
           [("bitcoin", PDict [("usd", PNum 67000)])] Stub.st_all_stale _
           ["bitcoin"] "bitcoin" (PDict [("usd", PNum 67000)])
           (mkWorld (Stub.noon + seconds 90) Stub.noon 1 [])).
  - reflexivity.
  - repeat constructor. intros [].
  - reflexivity.
  - now left.
  - intros r Hr _. vm_compute in Hr.
    destruct Hr as [<-|[<-|[]]]; vm_compute; reflexivity.
  - vm_compute. reflexivity.
Defined.

(** The offset of the time zone counts as age: a quote stored one second
    ago is refetched in a zone one hour ahead of UTC, and a quote stored
    four hours ago is served from the cache in a zone five hours behind. *)
Example offset_counts_as_age :
  let st := snd (store_coin_prices Stub.noon
                   [("bitcoin", PDict [("usd", PNum 67000)])]
                   (mkStore [] [] [] [])) in
  let s := mkSession true (Some st) in
  let served offset w :=
    match load_current_prices Stub.always_down offset Stub.strict_engine
            ["bitcoin"] s w with
    | (prices, _, w') => (map fst prices, sent w')
    end in
  served (timedelta_hours 1) (mkWorld (Stub.noon + seconds 1) 0 0 [])
  = ([], 3%nat)
  /\ served (- timedelta_hours 5) (mkWorld (Stub.noon + timedelta_hours 4) 0 0 [])
     = ([PStr "bitcoin"], 0%nat).
Proof. vm_compute. repeat split. Qed.

(** ** The client *)

Ltac step_result :=
  match goal with
  | |- rbind ?x _ = _ -> _ => destruct x; cbn [rbind]; [|discriminate]
  | |- (if ?b then _ else _) = _ -> _ => destruct b
  end.

Lemma crypto_pairs_shape crypto_data pairs :
  crypto_pairs crypto_data = Ret pairs ->
  pairs = []
  \/ exists eth_btc btc_eth,
       pairs = [("ETH/BTC", eth_btc); ("BTC/ETH", btc_eth)].
Proof.
  unfold crypto_pairs.
  repeat step_result; intros [= <-]; try (now left).
  right. eexists _, _. reflexivity.
Qed.

(** Whatever the upstream answers, a result of [get_trading_pairs] has the
    two crypto pairs together or neither of them, and no key besides the
    three pairs; and the only exception that comes out is the one that
    wraps the failure of the request for the two quotes or of their
    reading. *)
Theorem trading_pairs_come_together (up : upstream) (w : world) :
  match fst (get_trading_pairs up w) with
  | Ret pairs =>
      dict_mem pairs "ETH/BTC" = dict_mem pairs "BTC/ETH"
      /\ forall name, dict_mem pairs name = true ->
           name = "ETH/BTC" \/ name = "BTC/ETH" \/ name = "EUR/USD"
  | Raise e => exists inner, e = Failed "Failed to fetch trading pairs" inner
  end.
Proof.
  unfold get_trading_pairs, try_except. unfold bind at 1.
  destruct (_make_request_with_retry up crypto_url crypto_params
              default_max_retries w) as [[crypto_data|e] w1];
    [|cbn [fst]; eexists; reflexivity].
  unfold bind at 1, lift at 1.
  destruct (crypto_pairs crypto_data) as [tp|e] eqn:E;
    [|cbn [fst]; eexists; reflexivity].
  destruct (exchange_leg_returns up tp w1) as (pairs & w2 & Hrun & Hshape).
  rewrite Hrun. cbn [fst].
  assert (Hmem : forall name, name <> "EUR/USD" ->
             dict_mem pairs name = dict_mem tp name).
  { intros name Hname. unfold dict_mem.
    destruct Hshape as [->|[entry ->]]; [reflexivity|].
    rewrite dict_get_set.
    destruct (String.eqb_spec name "EUR/USD"); [contradiction|reflexivity]. }
  split.
  - rewrite (Hmem "ETH/BTC"), (Hmem "BTC/ETH") by discriminate.
    destruct (crypto_pairs_shape _ _ E) as [->|(e1 & e2 & ->)]; reflexivity.
  - intros name H.
    destruct (String.eqb_spec name "EUR/USD") as [|Hname]; [auto|].
    rewrite (Hmem name Hname) in H.
    destruct (crypto_pairs_shape _ _ E) as [->|(e1 & e2 & ->)];
      [discriminate|].
    unfold dict_mem in H. cbn [dict_get] in H.
    destruct (String.eqb_spec name "ETH/BTC"); [auto|].
    destruct (String.eqb_spec name "BTC/ETH"); [auto|discriminate].
Qed.

Section EurUsd.

Variable up : upstream.


End EurUsd.

(** The run with a rate of 0.9 for the euro. *)
Example eur_usd_of_a_positive_rate :
  option_map (fun pairs => price_of pairs "EUR/USD")
    (match fst (get_trading_pairs
                  (Stub.quotes_then (Stub.ok (simple_price_body 67000 1.5 3500 2.5))
                     (Stub.ok (exchange_rates_body (PNum 0.9)))) Stub.w0) with
     | Ret pairs => Some pairs
     | Raise _ => None
     end)
  = Some (Some (1 / 0.9)%float).
Proof. vm_compute. reflexivity. Qed.

Section PairHistory.

Variable up : upstream.
Variable utc_offset : Z.

(** A pair that is none of the three supported ones is refused with a
    [ValueError], wrapped as every failure of the function is, and nothing
    is sent. *)
Theorem unsupported_pair_is_refused (pair_name : string) (days : Z) (w : world)
    (H1 : pair_name <> "ETH/BTC") (H2 : pair_name <> "BTC/ETH")
    (H3 : pair_name <> "EUR/USD") :
  CoinGeckoAPI.get_pair_historical_data up utc_offset pair_name days w
  = (Raise (Failed ("Failed to fetch historical data for " ++ pair_name)
              (ValueError ("Unsupported trading pair: " ++ pair_name))), w).
Proof.
  unfold CoinGeckoAPI.get_pair_historical_data, try_except.
  apply String.eqb_neq in H1, H2, H3. rewrite H1, H2, H3. reflexivity.
Qed.

Lemma rmap_raises {A B} (f : A -> result B) (xs : list A) (e0 e : exn) :
  (forall x e', f x = Raise e' -> e' = e0) ->
  rmap f xs = Raise e -> e = e0.
Proof.
  intros Hf. induction xs as [|x xs IH]; cbn [rmap]; [discriminate|].
  destruct (f x) as [y|e'] eqn:Fx; cbn [rbind].
  - destruct (rmap f xs) as [ys|e'']; cbn [rbind]; [discriminate|].
    intros [= <-]. now apply IH.
  - intros [= <-]. exact (Hf x e' Fx).
Qed.

Lemma rmap_map {A B} (f : A -> result B) (g : A -> B) (xs : list A) ys :
  (forall x y, f x = Ret y -> y = g x) ->
  rmap f xs = Ret ys -> ys = map g xs.
Proof.
  intros Hf. revert ys. induction xs as [|x xs IH]; intros ys; cbn [rmap map].
  - now intros [= <-].
  - destruct (f x) as [y|] eqn:Fx; cbn [rbind]; [|discriminate].
    destruct (rmap f xs) as [ys'|]; cbn [rbind]; [|discriminate].
    intros [= <-]. f_equal; [exact (Hf x y Fx)|now apply IH].
Qed.

Lemma minus_hours_cases t i :
  (forall e, minus_hours t i = Raise e -> e = OverflowError)
  /\ (forall r, minus_hours t i = Ret r -> r = t - timedelta_hours i).
Proof.
  unfold minus_hours.
  destruct ((min_datetime <=? t - timedelta_hours i)
            && (t - timedelta_hours i <=? max_datetime)).
  - split; [discriminate|now intros r [= <-]].
  - split; [now intros e [= <-]|discriminate].
Qed.

Lemma range_down_length n : List.length (range_down n) = Z.to_nat n.
Proof. unfold range_down. now rewrite length_map, length_seq. Qed.

(** The flat series: one point per hour of the last [days] days at the
    fallback rate, or an [OverflowError]. *)
Lemma flat_series_cases days w :
  match flat_series utc_offset days w with
  | (Ret (timestamps, prices), w') =>
      w' = w
      /\ timestamps = map (fun i => clock w + utc_offset - timedelta_hours i)
                          (range_down (24 * days))
      /\ prices = repeat (PNum fallback_rate) (Z.to_nat (24 * days))
  | (Raise e, _) => e = OverflowError
  end.
Proof.
  unfold flat_series, datetime_now. run_monad.
  destruct (rmap _ _) as [timestamps|e] eqn:E; run_monad.
  - split; [reflexivity|].
    assert (Hts : timestamps
                  = map (fun i => clock w + utc_offset - timedelta_hours i)
                        (range_down (24 * days))).
    { apply (rmap_map _ _ _ _ (fun x y H => proj2 (minus_hours_cases _ x) y H) E). }
    split; [exact Hts|].
    rewrite Hts, length_map, range_down_length. reflexivity.
  - apply (rmap_raises _ _ _ _ (fun x e' H => proj1 (minus_hours_cases _ x) e' H) E).
Qed.

(** No failure of the upstream or of the reading of its bodies comes out
    of the history of the fiat pair: the function returns a series, or
    raises the [OverflowError] of a date outside the calendar. *)
Theorem fiat_history_absorbs_failures (currency : string) (days : Z) (w : world) :
  match fst (_get_fiat_pair_history up utc_offset currency days w) with
  | Ret _ => True
  | Raise e => e = OverflowError
  end.
Proof.
  unfold _get_fiat_pair_history, try_except.
  destruct (fiat_pair_series up utc_offset currency days w) as [[series|e] w'].
  - exact I.
  - pose proof (flat_series_cases days w') as H.
    destruct (flat_series utc_offset days w') as [[[ts ps]|e'] w'']; cbn [fst].
    + exact I.
    + exact H.
Qed.

(** When the first request of the history of the fiat pair brings no JSON
    body (no response, an error status, 429 included, or a body that is not
    JSON), the function answers with the flat series: one point at 1.08 per
    hour of the last [days] days, the last of them one hour before now. *)
Theorem fiat_history_falls_back_to_flat_series
    (currency : string) (days : Z) (w : world)
    (Hfirst : success_body
                (answer (up (sent w)
                           (mkRequest (market_chart_url "bitcoin")
                              (market_chart_params currency days) (seconds 15))))
              = None) :
  let w1 := after_get up (mkRequest (market_chart_url "bitcoin")
                            (market_chart_params currency days) (seconds 15)) w in
  match fst (_get_fiat_pair_history up utc_offset currency days w) with
  | Ret (timestamps, prices) =>
      timestamps = map (fun i => clock w1 + utc_offset - timedelta_hours i)
                       (range_down (24 * days))
      /\ prices = repeat (PNum fallback_rate) (Z.to_nat (24 * days))
  | Raise e => e = OverflowError
  end.
Proof.
  cbv zeta.
  set (req := mkRequest (market_chart_url "bitcoin")
                (market_chart_params currency days) (seconds 15)) in *.
  assert (Hrun : exists e, fiat_pair_series up utc_offset currency days w
                           = (Raise e, after_get up req w)).
  { unfold fiat_pair_series. fold req.
    unfold bind at 1. rewrite session_get_eq.
    destruct (answer (up (sent w) req)) as [status body|msg];
      [|eexists; reflexivity].
    cbn [success_body] in Hfirst.
    unfold bind at 1. unfold raise_for_status; cbn [fst snd].
    destruct ((400 <=? status) && (status <? 600)) eqn:Herr;
      [eexists; reflexivity|].
    unfold ret at 1. unfold bind at 1. unfold response_json; cbn [snd].
    destruct body as [data|]; [|eexists; reflexivity].
    exfalso.
    destruct (status =? 429) eqn:E429; cbn [orb] in Hfirst; [|discriminate].
    apply Z.eqb_eq in E429. subst status. vm_compute in Herr. discriminate. }
  destruct Hrun as (e & Hrun).
  unfold _get_fiat_pair_history, try_except. rewrite Hrun.
  pose proof (flat_series_cases days (after_get up req w)) as H.
  destruct (flat_series utc_offset days (after_get up req w))
    as [[[ts ps]|e'] w'']; cbn [fst].
  - destruct H as (_ & Hts & Hps). split; assumption.
  - exact H.
Qed.

End PairHistory.

Lemma unsupported_pair_is_refused_witness :
  CoinGeckoAPI.get_pair_historical_data Stub.always_chart 0 "BTC/USD" 7 Stub.w0
  = (Raise (Failed ("Failed to fetch historical data for " ++ "BTC/USD")
              (ValueError ("Unsupported trading pair: " ++ "BTC/USD"))), Stub.w0).
Proof.
  apply (unsupported_pair_is_refused Stub.always_chart 0 "BTC/USD" 7 Stub.w0);
    discriminate.
Defined.

Lemma fiat_history_falls_back_to_flat_series_witness :
  match fst (_get_fiat_pair_history Stub.always_down 0 "eur" 1 Stub.w0) with
  | Ret (timestamps, prices) =>
      timestamps
      = map (fun i => clock
                        (after_get Stub.always_down
                           (mkRequest (market_chart_url "bitcoin")
                              (market_chart_params "eur" 1) (seconds 15))
                           Stub.w0)
                      + 0 - timedelta_hours i)
            (range_down (24 * 1))
      /\ prices = repeat (PNum fallback_rate) (Z.to_nat (24 * 1))
  | Raise e => e = OverflowError
  end.
Proof.
  apply (fiat_history_falls_back_to_flat_series Stub.always_down 0 "eur" 1 Stub.w0).
  reflexivity.
Defined.

(** *** The current prices *)

Lemma vdict_set_keys (d : vdict) (k v : pyval) :
  map fst (vdict_set d k v)
  = if vdict_mem d k then map fst d else map fst d ++ [k].
Proof.
  unfold vdict_mem.
  induction d as [|[k0 v0] d IH]; cbn [vdict_set existsb map fst app];
    [reflexivity|].
  destruct (key_eqb k k0); cbn [orb map fst]; [reflexivity|].
  rewrite IH. destruct (existsb _ d); reflexivity.
Qed.

Lemma vdict_set_values (d : vdict) (k v k' v' : pyval) :
  In (k', v') (vdict_set d k v) -> v' = v \/ In (k', v') d.
Proof.
  induction d as [|[k0 v0] d IH]; cbn [vdict_set].
  - intros [[= <- <-]|[]]. now left.
  - destruct (key_eqb k k0).
    + intros [[= <- <-]|H]; [now left|right; now right].
    + intros [H|H]; [right; now left|].
      destruct (IH H) as [H'|H']; [now left|right; now right].
Qed.

Lemma vdict_mem_false (d : vdict) (k : pyval) :
  vdict_mem d k = false ->
  forall k', In k' (map fst d) -> key_eqb k k' = false.
Proof.
  unfold vdict_mem. intros H k' Hin.
  apply in_map_iff in Hin. destruct Hin as (item & <- & Hitem).
  destruct (key_eqb k (fst item)) eqn:E; [|reflexivity].
  assert (existsb (fun item => key_eqb k (fst item)) d = true)
    by (apply existsb_exists; eauto).
  congruence.
Qed.

Lemma vdict_mem_true (d : vdict) (k : pyval) :
  vdict_mem d k = true ->
  exists k', In k' (map fst d) /\ key_eqb k k' = true.
Proof.
  unfold vdict_mem. intros H.
  apply existsb_exists in H. destruct H as (item & Hitem & Hk).
  exists (fst item). split; [now apply in_map|exact Hk].
Qed.

Lemma distinct_keys_app (ks : list pyval) (k : pyval) :
  distinct_keys ks ->
  (forall k', In k' ks -> key_eqb k k' = false) ->
  distinct_keys (ks ++ [k]).
Proof.
  induction ks as [|k0 ks IH]; cbn [app distinct_keys]; intros Hd Hk.
  - split; [intros k' []|exact I].
  - destruct Hd as [H0 Hd]. split.
    + intros k' Hin. apply in_app_or in Hin.
      destruct Hin as [Hin|[<-|[]]]; [now apply H0|].
      apply Hk. now left.
    + apply IH; [exact Hd|]. intros k' Hin. apply Hk. now right.
Qed.

Lemma vdict_set_distinct (d : vdict) (k v : pyval) :
  distinct_keys (map fst d) -> distinct_keys (map fst (vdict_set d k v)).
Proof.
  intros H. rewrite vdict_set_keys.
  destruct (vdict_mem d k) eqn:E; [exact H|].
  apply distinct_keys_app; [exact H|].
  exact (vdict_mem_false d k E).
Qed.

(** The key under which [vdict_set] leaves the value: [k] itself, or the
    key of the dictionary that equals it. *)
Lemma vdict_set_covers (d : vdict) (k v : pyval) :
  exists k', In k' (map fst (vdict_set d k v))
             /\ (k' = k \/ key_eqb k k' = true).
Proof.
  rewrite vdict_set_keys. destruct (vdict_mem d k) eqn:E.
  - destruct (vdict_mem_true d k E) as (k' & Hin & Hk). exists k'. auto.
  - exists k. split; [apply in_or_app; right; now left|now left].
Qed.

Lemma vdict_set_keeps (d : vdict) (k v k0 : pyval) :
  In k0 (map fst d) -> In k0 (map fst (vdict_set d k v)).
Proof.
  intros H. rewrite vdict_set_keys.
  destruct (vdict_mem d k); [exact H|apply in_or_app; now left].
Qed.

Lemma vdict_set_new_key (d : vdict) (k v k0 : pyval) :
  In k0 (map fst (vdict_set d k v)) -> k0 = k \/ In k0 (map fst d).
Proof.
  rewrite vdict_set_keys. destruct (vdict_mem d k); [now right|].
  intros H. apply in_app_or in H. destruct H as [H|[<-|[]]]; auto.
Qed.

Lemma add_coin_ret acc coin acc' :
  add_coin acc coin = Ret acc' ->
  exists id kv,
    getitem coin "id" = Ret id
    /\ hashable id = true
    /\ map fst kv = quote_keys
    /\ acc' = vdict_set acc id (PDict kv).
Proof.
  unfold add_coin.
  destruct (getitem coin "id") as [id|]; cbn [rbind]; [|discriminate].
  repeat match goal with
         | |- rbind ?x _ = _ -> _ => destruct x; cbn [rbind]; [|discriminate]
         end.
  cbv zeta. destruct (hashable id) eqn:Hhash; [|discriminate]. intros [= <-].
  eexists id, _. split; [reflexivity|]. split; [exact Hhash|].
  apply and_comm. split; reflexivity.
Qed.

Lemma add_coins_ret coins :
  forall acc prices,
    add_coins acc coins = Ret prices ->
    (distinct_keys (map fst acc) -> distinct_keys (map fst prices))
    /\ (forall k, In k (map fst acc) -> In k (map fst prices))
    /\ (forall k, In k (map fst prices) ->
          In k (map fst acc)
          \/ (hashable k = true
              /\ exists coin, In coin coins /\ getitem coin "id" = Ret k))
    /\ (forall coin, In coin coins ->
          exists k, getitem coin "id" = Ret k
                    /\ exists k', In k' (map fst prices)
                                  /\ (k' = k \/ key_eqb k k' = true))
    /\ (forall k d, In (k, d) prices ->
          In (k, d) acc
          \/ exists kv, d = PDict kv /\ map fst kv = quote_keys).
Proof.
  induction coins as [|coin coins IH]; intros acc prices; cbn [add_coins].
  - intros [= <-]. repeat split; auto. intros coin [].
  - destruct (add_coin acc coin) as [acc'|] eqn:E; cbn [rbind]; [|discriminate].
    intros H.
    destruct (IH acc' prices H) as (Hdist & Hkeep & Hkeys & Hcov & Hent).
    destruct (add_coin_ret _ _ _ E) as (id & kv & Hid & Hhash & Hkv & ->).
    split; [|split; [|split; [|split]]].
    + intros Hacc. apply Hdist. now apply vdict_set_distinct.
    + intros k Hk. apply Hkeep. now apply vdict_set_keeps.
    + intros k Hk. destruct (Hkeys k Hk) as [Hin|(Hh & c & Hc & Hck)].
      * apply vdict_set_new_key in Hin. destruct Hin as [->|Hin]; [|now left].
        right. split; [exact Hhash|]. exists coin. split; [now left|exact Hid].
      * right. split; [exact Hh|]. exists c. split; [now right|exact Hck].
    + intros c [<-|Hc]; [|now apply Hcov].
      exists id. split; [exact Hid|].
      destruct (vdict_set_covers acc id (PDict kv)) as (k' & Hin & Hk').
      exists k'. split; [now apply Hkeep|exact Hk'].
    + intros k d Hin. destruct (Hent k d Hin) as [Hin'|Hd]; [|now right].
      apply vdict_set_values in Hin'. destruct Hin' as [->|Hin']; [|now left].
      right. exists kv. split; [reflexivity|exact Hkv].
Qed.

(** The result of [get_current_prices] is keyed by what the upstream
    returned, not by what was asked.  Its keys are id values of the coins
    of the response, whatever hashable values these are, no two of them
    equal as keys; the id of every coin of the response is a key or equals
    one; and every entry has the same five fields.  A response that cannot
    be read entirely gives no result at all, but the wrapped exception. *)
Theorem quotes_are_keyed_by_the_response
    (up : upstream) (coin_ids : list string) (w : world)
    (Hids : coin_ids <> []) :
  match _make_request_with_retry up (base_url ++ "/coins/markets")
          (markets_params coin_ids) default_max_retries w,
        fst (get_current_prices up coin_ids w) with
  | (Ret market_data, _), Ret prices =>
      exists coins,
        iter market_data = Ret coins
        /\ distinct_keys (map fst prices)
        /\ (forall k, In k (map fst prices) ->
              hashable k = true
              /\ exists coin, In coin coins /\ getitem coin "id" = Ret k)
        /\ (forall coin, In coin coins ->
              exists k, getitem coin "id" = Ret k
                        /\ exists k', In k' (map fst prices)
                                      /\ (k' = k \/ key_eqb k k' = true))
        /\ (forall k d, In (k, d) prices ->
              exists kv, d = PDict kv /\ map fst kv = quote_keys)
  | (Raise _, _), Ret _ => False
  | _, Raise e => exists inner, e = Failed "Failed to fetch current prices" inner
  end.
Proof.
  unfold get_current_prices.
  destruct coin_ids as [|id ids]; [contradiction|].
  run_monad.
  destruct (_make_request_with_retry up (base_url ++ "/coins/markets")
              (markets_params (id :: ids)) default_max_retries w)
    as [[market_data|e] w1]; cbv beta iota; cbn [fst];
    [|eexists; reflexivity].
  destruct (iter market_data) as [coins|e] eqn:Hiter; cbv beta iota; cbn [fst];
    [|eexists; reflexivity].
  destruct (add_coins [] coins) as [prices|e] eqn:Hadd; cbv beta iota; cbn [fst];
    [|eexists; reflexivity].
  exists coins.
  destruct (add_coins_ret coins [] prices Hadd)
    as (Hdist & _ & Hkeys & Hcov & Hent).
  split; [reflexivity|]. split; [apply Hdist; exact I|].
  split; [|split].
  - intros k Hk. destruct (Hkeys k Hk) as [[]|H]. exact H.
  - exact Hcov.
  - intros k d Hin. destruct (Hent k d Hin) as [[]|H]. exact H.
Qed.

Lemma quotes_are_keyed_by_the_response_witness :
  match _make_request_with_retry Stub.always_markets (base_url ++ "/coins/markets")
          (markets_params ["bitcoin"]) default_max_retries Stub.w0,
        fst (get_current_prices Stub.always_markets ["bitcoin"] Stub.w0) with
  | (Ret market_data, _), Ret prices =>
      exists coins,
        iter market_data = Ret coins
        /\ distinct_keys (map fst prices)
        /\ (forall k, In k (map fst prices) ->
              hashable k = true
              /\ exists coin, In coin coins /\ getitem coin "id" = Ret k)
        /\ (forall coin, In coin coins ->
              exists k, getitem coin "id" = Ret k
                        /\ exists k', In k' (map fst prices)
                                      /\ (k' = k \/ key_eqb k k' = true))
        /\ (forall k d, In (k, d) prices ->
              exists kv, d = PDict kv /\ map fst kv = quote_keys)
  | (Raise _, _), Ret _ => False
  | _, Raise e => exists inner, e = Failed "Failed to fetch current prices" inner
  end.
Proof.
  apply (quotes_are_keyed_by_the_response Stub.always_markets ["bitcoin"] Stub.w0).
  discriminate.
Defined.

(** Asked for bitcoin alone, the client returns what the upstream sends,
    here bitcoin and ethereum; an id that is a number is a key as good as
    a string, and [True] and 1 are one key; a coin without a price, or with
    a list for an id, fails the whole call. *)
Example quotes_follow_the_response :
  let keys up :=
    match fst (get_current_prices up ["bitcoin"] Stub.w0) with
    | Ret prices => Some (map fst prices)
    | Raise _ => None
    end in
  let coin id := PDict [("id", id); ("current_price", PNum 1)] in
  keys Stub.always_markets = Some [PStr "bitcoin"; PStr "ethereum"]
  /\ keys (fun _ _ => Stub.ok (PList [coin (PNum 7); coin (PStr "7")]))
     = Some [PNum 7; PStr "7"]
  /\ keys (fun _ _ => Stub.ok (PList [coin (PBool true); coin (PNum 1)]))
     = Some [PBool true]
  /\ fst (get_current_prices
            (fun _ _ => Stub.ok (PList [Stub.market "bitcoin" 67000;
                                        PDict [("id", PStr "ethereum")]]))
            ["bitcoin"; "ethereum"] Stub.w0)
     = Raise (Failed "Failed to fetch current prices" (KeyError "current_price"))
  /\ fst (get_current_prices
            (fun _ _ => Stub.ok (PList [coin (PList [])]))
            ["bitcoin"] Stub.w0)
     = Raise (Failed "Failed to fetch current prices" TypeError).
Proof. vm_compute. repeat split. Qed.

(** *** The details of a coin *)

(** [get_coin_info] sends one request and no more, at once: it neither
    waits for the limiter nor records the time of the request, and it does
    not try again, not even after a 429.  It returns the body of an answer
    that is not an error, and every failure of the request comes out as
    "Failed to fetch coin info for" the coin. *)
Theorem coin_info_is_one_ungoverned_request
    (up : upstream) (coin_id : string) (w : world) :
  let r := mkRequest (base_url ++ "/coins/" ++ coin_id) coin_info_params
             (seconds 10) in
  exists res,
    get_coin_info up coin_id w = (res, after_get up r w)
    /\ match res with
       | Ret j =>
           success_body (answer (up (sent w) r)) = Some j
       | Raise e =>
           success_body (answer (up (sent w) r)) = None
           /\ exists c,
                e = Failed ("Failed to fetch coin info for " ++ coin_id)
                      (RequestException c)
       end.
Proof.
  cbv zeta. unfold get_coin_info, try_except.
  unfold bind at 1. rewrite session_get_eq.
  destruct (answer (up (sent w) _)) as [status body|msg] eqn:Hans;
    [|eexists; split; [reflexivity|]; split; [reflexivity|eexists; reflexivity]].
  unfold bind at 1. unfold raise_for_status; cbn [fst snd success_body].
  destruct ((400 <=? status) && (status <? 600)) eqn:Herr.
  - rewrite orb_true_r.
    eexists; split; [reflexivity|]. split; [reflexivity|eexists; reflexivity].
  - rewrite orb_false_r.
    assert (H429 : (status =? 429) = false).
    { destruct (Z.eqb_spec status 429) as [->|]; [|reflexivity].
      vm_compute in Herr. discriminate. }
    rewrite H429. unfold ret at 1. unfold response_json; cbn [snd].
    destruct body as [j|].
    + eexists; split; reflexivity.
    + eexists; split; [reflexivity|]. split; [reflexivity|eexists; reflexivity].
Qed.

(** A 429 ends the call after one request; the governed transport would
    have slept and tried again. *)
Example coin_info_is_not_retried :
  let out := get_coin_info (fun _ _ => Stub.too_many) "bitcoin" Stub.w0 in
  fst out
  = Raise (Failed "Failed to fetch coin info for bitcoin"
             (RequestException (HTTPError 429)))
  /\ sent (snd out) = 1%nat
  /\ last_request_time (snd out) = last_request_time Stub.w0.
Proof. vm_compute. repeat split. Qed.
